(** * Universal LLM Hub: provider routing and dispatch

    A shallow embedding of the TypeScript services
    [LLMProviderManager], [ConversationManager], [UserManager],
    [AnalyticsService] and [CommandProcessor], followed by the properties
    that were checked against it.

    Conventions of the embedding.
    - A JavaScript [number] is a value of [JS.num]: an exact rational, one
      of the two infinities, or NaN.  Arithmetic follows IEEE-754 on the
      special values (x/0, Infinity - Infinity, 0 * Infinity, NaN
      propagation); rounding of finite results is not modelled and the two
      zeros are identified.
    - A JavaScript [Map] is an insertion-ordered association list
      ([JSMap.t]): iteration order is observable in the router.
    - A JavaScript string is kept as the bytes of its UTF-8 encoding;
      [Str] recovers characters and UTF-16 code units where the code
      counts them.
    - [throw] is the [Throw] constructor of [Result]; [await] is sequencing.
    - The network and the wall clock are explicit inputs ([Network],
      [Clock]).  The random response identifier is not modelled. *)

From Stdlib Require Import QArith Qcanon ZArith Lia Ascii.
From stdpp Require Import gmap strings list fin_maps numbers pretty.
From Stdlib Require Import Lqa.

Local Open Scope Z_scope.
Local Open Scope string_scope.
Local Open Scope list_scope.

(** ** JavaScript numbers *)

Module JS.

Inductive num : Type :=
| Fin (q : Qc)
| PosInf
| NegInf
| NaN.

Definition ofZ (z : Z) : num := Fin (Q2Qc (inject_Z z)).

(** [ratio n d] is the decimal literal n/d, e.g. [ratio 7 10] for 0.7. *)
Definition ratio (n : Z) (d : positive) : num := Fin (Q2Qc (n # d)).

Definition zero : num := ofZ 0.
Definition one : num := ofZ 1.

Definition sign (q : Qc) : comparison := Qccompare q 0%Qc.

Definition add (x y : num) : num :=
  match x, y with
  | NaN, _ | _, NaN => NaN
  | Fin a, Fin b => Fin (a + b)%Qc
  | PosInf, NegInf | NegInf, PosInf => NaN
  | PosInf, _ | _, PosInf => PosInf
  | NegInf, _ | _, NegInf => NegInf
  end.

Definition neg (x : num) : num :=
  match x with
  | Fin a => Fin (- a)%Qc
  | PosInf => NegInf
  | NegInf => PosInf
  | NaN => NaN
  end.

Definition sub (x y : num) : num := add x (neg y).

(** Infinity scaled by a finite factor of the given sign. *)
Definition scaleInf (positive_inf : bool) (s : comparison) : num :=
  match s with
  | Eq => NaN
  | Gt => if positive_inf then PosInf else NegInf
  | Lt => if positive_inf then NegInf else PosInf
  end.

Definition mul (x y : num) : num :=
  match x, y with
  | NaN, _ | _, NaN => NaN
  | Fin a, Fin b => Fin (a * b)%Qc
  | Fin a, PosInf | PosInf, Fin a => scaleInf true (sign a)
  | Fin a, NegInf | NegInf, Fin a => scaleInf false (sign a)
  | PosInf, PosInf | NegInf, NegInf => PosInf
  | PosInf, NegInf | NegInf, PosInf => NegInf
  end.

Definition div (x y : num) : num :=
  match x, y with
  | NaN, _ | _, NaN => NaN
  | Fin a, Fin b =>
      match sign b with
      | Eq => match sign a with
              | Eq => NaN
              | Gt => PosInf
              | Lt => NegInf
              end
      | _ => Fin (a / b)%Qc
      end
  | Fin _, (PosInf | NegInf) => zero
  | PosInf, Fin b => match sign b with Lt => NegInf | _ => PosInf end
  | NegInf, Fin b => match sign b with Lt => PosInf | _ => NegInf end
  | (PosInf | NegInf), (PosInf | NegInf) => NaN
  end.

(** [x > 0] as the comparison operator computes it. *)
Definition isPositive (x : num) : bool :=
  match x with
  | Fin a => match sign a with Gt => true | _ => false end
  | PosInf => true
  | _ => false
  end.

(** [x <= y]; false as soon as one side is NaN. *)
Definition leb (x y : num) : bool :=
  match x, y with
  | NaN, _ | _, NaN => false
  | NegInf, _ | _, PosInf => true
  | Fin a, Fin b => match Qccompare a b with Gt => false | _ => true end
  | _, _ => false
  end.

(** [Math.min] of two arguments. *)
Definition min (x y : num) : num :=
  match x, y with
  | NaN, _ | _, NaN => NaN
  | _, _ => if leb x y then x else y
  end.

(** ToBoolean on a number: 0 and NaN are falsy. *)
Definition truthy (x : num) : bool :=
  match x with
  | Fin a => match sign a with Eq => false | _ => true end
  | NaN => false
  | _ => true
  end.

(** [x || d] for a number-valued expression [x]. *)
Definition or (x d : num) : num := if truthy x then x else d.

(** [x || d] when [x] may be [undefined]. *)
Definition orUndef (x : option num) (d : num) : num :=
  match x with
  | Some v => or v d
  | None => d
  end.

(** ToNumber of a possibly undefined operand: [undefined] becomes NaN. *)
Definition toNumber (x : option num) : num :=
  match x with
  | Some v => v
  | None => NaN
  end.

Definition eqb (x y : num) : bool :=
  match x, y with
  | Fin a, Fin b => match Qccompare a b with Eq => true | _ => false end
  | PosInf, PosInf | NegInf, NegInf | NaN, NaN => true
  | _, _ => false
  end.

(** [Number.prototype.toFixed(digits)]: round half away from zero to
    [digits] decimals and print in positional notation.  The exponent
    form used above 1e21 is not modelled. *)
Definition padLeft (n : nat) (s : string) : string :=
  String.concat "" (replicate (n - String.length s)%nat "0") +:+ s.

Definition scaled (digits : nat) (a : Qc) : Z :=
  let n := Z.abs (Qnum (this a)) in
  let d := Z.pos (Qden (this a)) in
  let p := (10 ^ Z.of_nat digits)%Z in
  ((2 * p * n + d) / (2 * d))%Z.

Definition toFixed (digits : nat) (x : num) : string :=
  match x with
  | NaN => "NaN"
  | PosInf => "Infinity"
  | NegInf => "-Infinity"
  | Fin a =>
      let body := padLeft (S digits) (pretty (scaled digits a)) in
      let cut := (String.length body - digits)%nat in
      let text :=
        match digits with
        | O => body
        | _ => String.substring 0 cut body +:+ "." +:+
               String.substring cut digits body
        end in
      match sign a with
      | Lt => "-" +:+ text
      | _ => text
      end
  end.

End JS.

(** ** Strings *)

Module Str.

(** A text is kept as the bytes of its UTF-8 encoding.  Splitting at and
    searching for a one-byte character works on the bytes as it does on
    the text.  [trim], [length] and [substring] work on characters and on
    UTF-16 code units, which are recovered from the bytes below. *)

(** [s.split(sep)] for a one-character separator. *)
Fixpoint split (sep : ascii) (s : string) : list string :=
  match s with
  | EmptyString => [""]
  | String c rest =>
      if Ascii.eqb c sep then "" :: split sep rest
      else match split sep rest with
           | [] => [String c ""]
           | h :: t => String c h :: t
           end
  end.

Definition startsWith (s pre : string) : bool := String.prefix pre s.

(** [s.includes(needle)] *)
Fixpoint includes (needle s : string) : bool :=
  String.prefix needle s ||
  match s with
  | EmptyString => false
  | String _ rest => includes needle rest
  end.

(** A non-empty string is truthy. *)
Definition truthy (s : string) : bool :=
  match s with
  | EmptyString => false
  | String _ _ => true
  end.

(** A byte 10xxxxxx continues the character begun before it. *)
Definition isContinuation (b : ascii) : bool :=
  let n := nat_of_ascii b in Nat.leb 128 n && Nat.ltb n 192.

(** The characters of a text, each as the bytes of its encoding. *)
Fixpoint chars (s : string) : list string :=
  match s with
  | EmptyString => []
  | String c rest =>
      match rest with
      | String d _ =>
          if isContinuation d then
            match chars rest with
            | h :: t => String c h :: t
            | [] => [String c ""]
            end
          else String c "" :: chars rest
      | EmptyString => [String c ""]
      end
  end.

Definition bytes (l : list nat) : string :=
  fold_right (fun n s => String (ascii_of_nat n) s) "" l.

(** White space and line terminators of ECMAScript, which [trim] removes:
    U+0009 to U+000D, U+0020, U+00A0, U+1680, U+2000 to U+200A, U+2028,
    U+2029, U+202F, U+205F, U+3000 and U+FEFF. *)
Definition whiteSpace : list string :=
  map bytes
    [ [9]; [10]; [11]; [12]; [13]; [32]; [194; 160]; [225; 154; 128];
      [226; 128; 128]; [226; 128; 129]; [226; 128; 130]; [226; 128; 131];
      [226; 128; 132]; [226; 128; 133]; [226; 128; 134]; [226; 128; 135];
      [226; 128; 136]; [226; 128; 137]; [226; 128; 138];
      [226; 128; 168]; [226; 128; 169]; [226; 128; 175]; [226; 129; 159];
      [227; 128; 128]; [239; 187; 191] ]%nat.

Definition isSpace (c : string) : bool := existsb (String.eqb c) whiteSpace.

Fixpoint dropWhile {A} (f : A -> bool) (l : list A) : list A :=
  match l with
  | [] => []
  | x :: rest => if f x then dropWhile f rest else l
  end.

(** [s.trim()]: the characters without the white space at either end. *)
Definition trim (s : string) : string :=
  String.concat "" (rev (dropWhile isSpace (rev (dropWhile isSpace (chars s))))).

Definition join (sep : string) (l : list string) : string := String.concat sep l.

(** UTF-16 code units.  A character of four bytes is a surrogate pair;
    every other character is one unit. *)
Inductive unit : Type :=
| Whole (c : string)
| High (c : string)
| Low (c : string).

Definition isAstral (c : string) : bool :=
  match c with
  | String b _ => Nat.leb 240 (nat_of_ascii b)
  | EmptyString => false
  end.

Definition units (s : string) : list unit :=
  flat_map (fun c => if isAstral c then [High c; Low c] else [Whole c]) (chars s).

(** The code point of a character of four bytes, less 0x10000. *)
Definition astralOffset (c : string) : N :=
  match c with
  | String b0 (String b1 (String b2 (String b3 _))) =>
      (N.land (N_of_ascii b0) 7 * 262144 + N.land (N_of_ascii b1) 63 * 4096 +
       N.land (N_of_ascii b2) 63 * 64 + N.land (N_of_ascii b3) 63 - 65536)%N
  | _ => 0%N
  end.

(** A surrogate on its own, written as the three bytes of its code point. *)
Definition surrogate (u : N) : string :=
  String (ascii_of_N 237)
    (String (ascii_of_N (128 + N.land (N.shiftr u 6) 63))
       (String (ascii_of_N (128 + N.land u 63)) "")).

Definition highSurrogate (c : string) : string :=
  surrogate (55296 + N.shiftr (astralOffset c) 10)%N.

Definition lowSurrogate (c : string) : string :=
  surrogate (56320 + N.land (astralOffset c) 1023)%N.

(** The text of a run of code units: a pair that is whole is its
    character again. *)
Fixpoint ofUnits (l : list unit) : string :=
  match l with
  | [] => ""
  | Whole c :: rest => c +:+ ofUnits rest
  | High c :: rest =>
      match rest with
      | Low _ :: rest' => c +:+ ofUnits rest'
      | _ => highSurrogate c +:+ ofUnits rest
      end
  | Low c :: rest => lowSurrogate c +:+ ofUnits rest
  end.

(** [s.length] *)
Definition length (s : string) : nat := List.length (units s).

(** [s.substring(start, stop)] *)
Definition substring (start stop : nat) (s : string) : string :=
  let lo := Nat.min start stop in
  let hi := Nat.max start stop in
  ofUnits (firstn (hi - lo) (skipn lo (units s))).

End Str.

(** ** JavaScript [Map]: insertion-ordered, string keys *)

Module JSMap.

Definition t (V : Type) : Type := list (string * V).

Definition empty {V} : t V := [].

Fixpoint get {V} (k : string) (m : t V) : option V :=
  match m with
  | [] => None
  | (k', v) :: rest => if String.eqb k k' then Some v else get k rest
  end.

Definition has {V} (k : string) (m : t V) : bool :=
  match get k m with
  | Some _ => true
  | None => false
  end.

(** [set] keeps the position of an existing key and appends a new one. *)
Fixpoint set {V} (k : string) (v : V) (m : t V) : t V :=
  match m with
  | [] => [(k, v)]
  | (k', v') :: rest =>
      if String.eqb k k' then (k, v) :: rest else (k', v') :: set k v rest
  end.

Definition keys {V} (m : t V) : list string := map fst m.
Definition values {V} (m : t V) : list V := map snd m.

End JSMap.

(** ** Exceptions and results *)

Inductive Exception : Type :=
| Error (message : string)        (* [new Error(message)] *)
| TypeError (message : string)    (* raised by the runtime *)
| Rejection (reason : string).    (* a rejected SDK or HTTP call *)

Inductive Result (A : Type) : Type :=
| Ok (a : A)
| Throw (e : Exception).

Arguments Ok {A} a.
Arguments Throw {A} e.

Definition bind {A B} (r : Result A) (k : A -> Result B) : Result B :=
  match r with
  | Ok a => k a
  | Throw e => Throw e
  end.

Notation "'await' x ':=' r 'in' k" := (bind r (fun x => k))
  (at level 10, x name, r at level 100, k at level 200).

Definition isOk {A} (r : Result A) : bool :=
  match r with
  | Ok _ => true
  | Throw _ => false
  end.

(** ** Data model ([types/index.ts]) *)

Inductive ProviderType := openai | anthropic | groq | ollama | custom.

Record Pricing := {
  inputTokens : JS.num;    (* per 1K tokens *)
  outputTokens : JS.num    (* per 1K tokens *)
}.

Record Capabilities := {
  textGeneration : bool;
  codeGeneration : bool;
  imageAnalysis : bool;
  documentAnalysis : bool;
  functionCalling : bool;
  streaming : bool
}.

Record Limits := {
  limit_maxTokens : JS.num;
  maxRequestsPerMinute : JS.num;
  maxRequestsPerDay : JS.num
}.

Record LLMProvider := {
  name : string;
  type : ProviderType;
  models : list string;
  pricing : Pricing;
  capabilities : Capabilities;
  limits : Limits
}.

Inductive Role := user | assistant | system.

Record ConversationMessage := {
  msg_role : Role;
  msg_content : string;
  msg_timestamp : Z;
  msg_provider : option string;
  msg_model : option string;
  msg_tokens : option JS.num
}.

Record ConversationContext := {
  conversationId : string;
  messages : list ConversationMessage;
  summary : option string;
  ctx_totalTokens : JS.num;
  createdAt : Z;
  lastUpdatedAt : Z
}.

Inductive FileType := pdf | image | text | code | document.

Record FileAttachment := {
  file_id : string;
  file_name : string;
  file_type : FileType;
  file_size : JS.num;
  file_url : string;
  extractedText : option string
}.

Record Options := {
  maxTokens : option JS.num;
  temperature : option JS.num;
  stream : option bool;
  systemPrompt : option string
}.

Inductive Priority := low | normal | high | urgent.

Record Metadata := {
  command : option string;
  channel : option string;
  meta_timestamp : Z;
  estimatedCost : option JS.num
}.

Record LLMRequest := {
  req_id : string;
  req_userId : string;
  req_teamId : string;
  req_provider : option string;
  req_model : option string;
  req_prompt : string;
  req_context : option ConversationContext;
  req_files : option (list FileAttachment);
  req_options : Options;
  req_priority : Priority;
  req_metadata : Metadata
}.

Record Usage := {
  promptTokens : JS.num;
  completionTokens : JS.num;
  totalTokens : JS.num;
  cost : JS.num
}.

Record Performance := {
  latency : JS.num;
  throughput : JS.num;
  reliability : JS.num
}.

Record LLMResponse := {
  resp_requestId : string;
  resp_provider : string;
  resp_model : string;
  resp_content : string;
  resp_usage : Usage;
  resp_performance : Performance;
  resp_timestamp : Z
}.

Record Stats := {
  totalRequests : JS.num;
  st_totalTokens : JS.num;
  totalCost : JS.num;
  averageLatency : JS.num;
  successRate : JS.num;
  lastUsed : Z
}.

Inductive Period := hour | day | week | month.

Record ProviderStats := {
  ps_provider : string;
  ps_model : string;
  ps_stats : Stats;
  period : Period
}.

Record Scored := {
  sc_provider : string;
  sc_model : string;
  score : JS.num;
  sc_reasoning : string
}.

Record Factors := {
  f_cost : JS.num;
  f_performance : JS.num;
  f_capability : JS.num;
  f_availability : JS.num
}.

Record SmartRoutingDecision := {
  selectedProvider : string;
  selectedModel : string;
  reasoning : string;
  confidence : JS.num;
  alternatives : list Scored;
  factors : Factors
}.

(** ** The outside world: environment, network, clock *)

Record Env := {
  OPENAI_API_KEY : option string;
  OPENAI_ORG_ID : option string;
  ANTHROPIC_API_KEY : option string;
  GROQ_API_KEY : option string;
  OLLAMA_BASE_URL : option string;
  CUSTOM_LLM_ENDPOINTS : option string;
  CUSTOM_API_KEY : option string
}.

Record ChatMessage := {
  cm_role : Role;
  cm_content : string
}.

(** Token counts arrive JSON-decoded, hence as finite numbers. *)
Record RawUsage := {
  prompt_tokens : Qc;
  completion_tokens : Qc;
  total_tokens : Qc
}.

(** One entry of [choices]; [None] when [message] or its [content] is absent. *)
Record Choice := { choice_content : option string }.

Record ChatParams := {
  cp_model : string;
  cp_messages : list ChatMessage;
  cp_max_tokens : JS.num;
  cp_temperature : JS.num;
  cp_stream : bool
}.

Inductive ChatCompletion :=
| Completion (choices : list Choice) (usage : option RawUsage)
| StreamHandle.

Record AnthropicParams := {
  ap_model : string;
  ap_messages : list ChatMessage;
  ap_max_tokens : JS.num;
  ap_temperature : JS.num;
  ap_system : option string
}.

Inductive ContentBlock :=
| TextBlock (text : string)
| OtherBlock.

Record AnthropicMessage := {
  am_content : list ContentBlock;
  input_tokens : Qc;
  output_tokens : Qc
}.

Record OllamaParams := {
  op_model : string;
  op_messages : list ChatMessage;
  op_temperature : JS.num;
  op_num_predict : JS.num
}.

Record OllamaResponse := { ollama_content : string }.

Record CustomBody := {
  cb_model : string;
  cb_messages : list ChatMessage;
  cb_max_tokens : JS.num;
  cb_temperature : JS.num
}.

Record CustomData := {
  cd_choices : list Choice;
  cd_usage : option RawUsage
}.

(** What each remote call answers.  [axios_post] takes the URL, the body
    and the [Authorization] header. *)
Record Network := {
  openai_create : ChatParams -> Result ChatCompletion;
  anthropic_create : AnthropicParams -> Result AnthropicMessage;
  groq_create : ChatParams -> Result ChatCompletion;
  ollama_chat : OllamaParams -> Result OllamaResponse;
  axios_post : string -> CustomBody -> string -> Result CustomData
}.

(** The readings of [Date.now()] / [new Date()] taken during one
    [processRequest], in program order. *)
Record Clock := {
  requestStart : Z;   (* processRequest: startTime *)
  executeStart : Z;   (* executeRequest: startTime *)
  executeEnd : Z;     (* executeRequest: after the adapter returned *)
  completedAt : Z;    (* the response timestamp *)
  requestEnd : Z;     (* processRequest: argument of updateStats *)
  statsAt : Z         (* updateStats: lastUsed *)
}.

(** ** LLMProviderManager *)

Inductive ProviderInstance :=
| OpenAIClient (apiKey : string) (organization : option string)
| AnthropicClient (apiKey : string)
| GroqClient (apiKey : string)
| OllamaClient (host : string)
| CustomEndpoint (baseURL : string).

Record LLMProviderManager := {
  providers : JSMap.t ProviderInstance;
  providerConfigs : JSMap.t LLMProvider;
  stats : JSMap.t ProviderStats
}.

(** The step of the [forEach] over the configured endpoints. *)
Definition registerEndpoint (acc : JSMap.t ProviderInstance) (endpoint : string)
    : JSMap.t ProviderInstance :=
  match Str.split ":" endpoint with
  | name :: url :: _ =>
      if Str.truthy name && Str.truthy url then
        JSMap.set ("custom_" +:+ name)
          (CustomEndpoint (if Str.includes "://" url then url else "http://" +:+ url))
          acc
      else acc
  | _ => acc
  end.

Definition initializeCustomEndpoints (env : Env)
    (providers : JSMap.t ProviderInstance) : JSMap.t ProviderInstance :=
  match CUSTOM_LLM_ENDPOINTS env with
  | Some customEndpoints =>
      if Str.truthy customEndpoints then
        fold_left registerEndpoint (Str.split "," customEndpoints) providers
      else providers
  | None => providers
  end.

Definition initializeProviders (env : Env) : JSMap.t ProviderInstance :=
  let p0 := JSMap.empty in
  let p1 :=
    match OPENAI_API_KEY env with
    | Some k => if Str.truthy k
                then JSMap.set "openai" (OpenAIClient k (OPENAI_ORG_ID env)) p0
                else p0
    | None => p0
    end in
  let p2 :=
    match ANTHROPIC_API_KEY env with
    | Some k => if Str.truthy k
                then JSMap.set "anthropic" (AnthropicClient k) p1
                else p1
    | None => p1
    end in
  let p3 :=
    match GROQ_API_KEY env with
    | Some k => if Str.truthy k
                then JSMap.set "groq" (GroqClient k) p2
                else p2
    | None => p2
    end in
  let p4 :=
    match OLLAMA_BASE_URL env with
    | Some h => if Str.truthy h
                then JSMap.set "ollama" (OllamaClient h) p3
                else p3
    | None => p3
    end in
  initializeCustomEndpoints env p4.

Definition allCapabilities (image functions : bool) : Capabilities :=
  {| textGeneration := true; codeGeneration := true;
     imageAnalysis := image; documentAnalysis := true;
     functionCalling := functions; streaming := true |}.

Definition openaiConfig : LLMProvider :=
  {| name := "OpenAI"; type := openai;
     models := ["gpt-4"; "gpt-4-turbo"; "gpt-3.5-turbo"; "gpt-4o"; "gpt-4o-mini"];
     pricing := {| inputTokens := JS.ratio 3 100; outputTokens := JS.ratio 6 100 |};
     capabilities := allCapabilities true true;
     limits := {| limit_maxTokens := JS.ofZ 128000;
                  maxRequestsPerMinute := JS.ofZ 500;
                  maxRequestsPerDay := JS.ofZ 10000 |} |}.

Definition anthropicConfig : LLMProvider :=
  {| name := "Anthropic"; type := anthropic;
     models := ["claude-3-5-sonnet-20241022"; "claude-3-haiku-20240307";
                "claude-3-opus-20240229"];
     pricing := {| inputTokens := JS.ratio 15 1000; outputTokens := JS.ratio 75 1000 |};
     capabilities := allCapabilities true true;
     limits := {| limit_maxTokens := JS.ofZ 200000;
                  maxRequestsPerMinute := JS.ofZ 50;
                  maxRequestsPerDay := JS.ofZ 1000 |} |}.

Definition groqConfig : LLMProvider :=
  {| name := "Groq"; type := groq;
     models := ["llama-3.1-405b-reasoning"; "llama-3.1-70b-versatile";
                "mixtral-8x7b-32768"];
     pricing := {| inputTokens := JS.ratio 5 10000; outputTokens := JS.ratio 8 10000 |};
     capabilities := allCapabilities false true;
     limits := {| limit_maxTokens := JS.ofZ 32768;
                  maxRequestsPerMinute := JS.ofZ 30;
                  maxRequestsPerDay := JS.ofZ 14400 |} |}.

Definition ollamaConfig : LLMProvider :=
  {| name := "Ollama"; type := ollama;
     models := ["llama2"; "codellama"; "mistral"; "neural-chat"];
     pricing := {| inputTokens := JS.ofZ 0; outputTokens := JS.ofZ 0 |};
     capabilities := allCapabilities false false;
     limits := {| limit_maxTokens := JS.ofZ 4096;
                  maxRequestsPerMinute := JS.ofZ 1000;
                  maxRequestsPerDay := JS.ofZ 100000 |} |}.

Definition initializeProviderConfigs : JSMap.t LLMProvider :=
  JSMap.set "ollama" ollamaConfig
    (JSMap.set "groq" groqConfig
       (JSMap.set "anthropic" anthropicConfig
          (JSMap.set "openai" openaiConfig JSMap.empty))).

(** The constructor. *)
Definition newLLMProviderManager (env : Env) : LLMProviderManager :=
  {| providers := initializeProviders env;
     providerConfigs := initializeProviderConfigs;
     stats := JSMap.empty |}.

(** What an adapter hands back to [executeRequest]. *)
Record AdapterReply := {
  ar_content : string;
  ar_usage : option RawUsage
}.

Definition chatMessageOf (msg : ConversationMessage) : ChatMessage :=
  {| cm_role := msg_role msg; cm_content := msg_content msg |}.

Definition buildMessages (request : LLMRequest) : list ChatMessage :=
  let m0 :=
    match systemPrompt (req_options request) with
    | Some sp => if Str.truthy sp
                 then [{| cm_role := system; cm_content := sp |}]
                 else []
    | None => []
    end in
  let m1 :=
    match req_context request with
    | Some ctx => m0 ++ map chatMessageOf (messages ctx)
    | None => m0
    end in
  m1 ++ [{| cm_role := user; cm_content := req_prompt request |}].

Definition isSystem (r : Role) : bool :=
  match r with
  | system => true
  | _ => false
  end.

Definition buildAnthropicMessages (request : LLMRequest) : list ChatMessage :=
  let m0 :=
    match req_context request with
    | Some ctx =>
        map chatMessageOf
          (List.filter (fun msg => negb (isSystem (msg_role msg))) (messages ctx))
    | None => []
    end in
  m0 ++ [{| cm_role := user; cm_content := req_prompt request |}].

(** [choices[0]?.message?.content || ''] *)
Definition firstChoiceContent (choices : list Choice) : string :=
  match choices with
  | {| choice_content := Some c |} :: _ => c
  | _ => ""
  end.

Definition optBool (b : option bool) : bool :=
  match b with
  | Some v => v
  | None => false
  end.

Definition chatParams (request : LLMRequest) (model : string) : ChatParams :=
  {| cp_model := model;
     cp_messages := buildMessages request;
     cp_max_tokens := JS.orUndef (maxTokens (req_options request)) (JS.ofZ 1000);
     cp_temperature := JS.orUndef (temperature (req_options request)) (JS.ratio 7 10);
     cp_stream := optBool (stream (req_options request)) |}.

Definition chatReply (completion : ChatCompletion) : AdapterReply :=
  match completion with
  | Completion choices usage =>
      {| ar_content := firstChoiceContent choices; ar_usage := usage |}
  | StreamHandle =>
      (* streaming response - not implemented in the source *)
      {| ar_content := ""; ar_usage := None |}
  end.

Definition processOpenAIRequest (net : Network) (client : ProviderInstance)
    (request : LLMRequest) (model : string) : Result AdapterReply :=
  await completion := openai_create net (chatParams request model) in
  Ok (chatReply completion).

Definition anthropicParams (request : LLMRequest) (model : string) : AnthropicParams :=
  {| ap_model := model;
     ap_messages := buildAnthropicMessages request;
     ap_max_tokens := JS.orUndef (maxTokens (req_options request)) (JS.ofZ 1000);
     ap_temperature := JS.orUndef (temperature (req_options request)) (JS.ratio 7 10);
     ap_system := systemPrompt (req_options request) |}.

Definition processAnthropicRequest (net : Network) (client : ProviderInstance)
    (request : LLMRequest) (model : string) : Result AdapterReply :=
  await completion := anthropic_create net (anthropicParams request model) in
  Ok {| ar_content :=
          match am_content completion with
          | TextBlock t :: _ => t
          | _ => ""
          end;
        ar_usage :=
          Some {| prompt_tokens := input_tokens completion;
                  completion_tokens := output_tokens completion;
                  total_tokens :=
                    (input_tokens completion + output_tokens completion)%Qc |} |}.

Definition processGroqRequest (net : Network) (client : ProviderInstance)
    (request : LLMRequest) (model : string) : Result AdapterReply :=
  await completion := groq_create net (chatParams request model) in
  Ok (chatReply completion).

Definition ollamaParams (request : LLMRequest) (model : string) : OllamaParams :=
  {| op_model := model;
     op_messages := buildMessages request;
     op_temperature := JS.orUndef (temperature (req_options request)) (JS.ratio 7 10);
     op_num_predict := JS.orUndef (maxTokens (req_options request)) (JS.ofZ 1000) |}.

Definition processOllamaRequest (net : Network) (client : ProviderInstance)
    (request : LLMRequest) (model : string) : Result AdapterReply :=
  await response := ollama_chat net (ollamaParams request model) in
  Ok {| ar_content := ollama_content response;
        (* Ollama doesn't provide token counts *)
        ar_usage := Some {| prompt_tokens := 0%Qc;
                            completion_tokens := 0%Qc;
                            total_tokens := 0%Qc |} |}.

Definition customBody (request : LLMRequest) (model : string) : CustomBody :=
  {| cb_model := model;
     cb_messages := buildMessages request;
     cb_max_tokens := JS.orUndef (maxTokens (req_options request)) (JS.ofZ 1000);
     cb_temperature := JS.orUndef (temperature (req_options request)) (JS.ratio 7 10) |}.

(** [endpoint.baseURL] inside a template literal. *)
Definition baseURLText (endpoint : ProviderInstance) : string :=
  match endpoint with
  | CustomEndpoint url => url
  | _ => "undefined"
  end.

Definition processCustomRequest (net : Network) (env : Env)
    (endpoint : ProviderInstance) (request : LLMRequest) (model : string)
    : Result AdapterReply :=
  let key :=
    match CUSTOM_API_KEY env with
    | Some k => k
    | None => ""
    end in
  await data := axios_post net (baseURLText endpoint +:+ "/chat/completions")
                  (customBody request model) ("Bearer " +:+ key) in
  Ok {| ar_content := firstChoiceContent (cd_choices data);
        ar_usage :=
          match cd_usage data with
          | Some u => Some u
          | None => Some {| prompt_tokens := 0%Qc;
                            completion_tokens := 0%Qc;
                            total_tokens := 0%Qc |}
          end |}.

Definition calculateCost (usage : option RawUsage) (pricing : option Pricing) : JS.num :=
  match usage, pricing with
  | Some u, Some p =>
      let inputCost :=
        JS.mul (JS.div (JS.Fin (prompt_tokens u)) (JS.ofZ 1000)) (inputTokens p) in
      let outputCost :=
        JS.mul (JS.div (JS.Fin (completion_tokens u)) (JS.ofZ 1000)) (outputTokens p) in
      JS.add inputCost outputCost
  | _, _ => JS.zero
  end.

(** [response.usage?.field] *)
Definition usageField (f : RawUsage -> Qc) (usage : option RawUsage) : option JS.num :=
  match usage with
  | Some u => Some (JS.Fin (f u))
  | None => None
  end.

Definition dispatchAdapter (net : Network) (env : Env)
    (providerInstance : ProviderInstance) (request : LLMRequest)
    (provider model : string) : Result AdapterReply :=
  if String.eqb provider "openai" then
    processOpenAIRequest net providerInstance request model
  else if String.eqb provider "anthropic" then
    processAnthropicRequest net providerInstance request model
  else if String.eqb provider "groq" then
    processGroqRequest net providerInstance request model
  else if String.eqb provider "ollama" then
    processOllamaRequest net providerInstance request model
  else if Str.startsWith provider "custom_" then
    processCustomRequest net env providerInstance request model
  else
    Throw (Error ("Unsupported provider: " +:+ provider)).

(** The response object assembled at the end of [executeRequest]. *)
Definition buildResponse (m : LLMProviderManager) (request : LLMRequest)
    (provider model : string) (response : AdapterReply) (clock : Clock) : LLMResponse :=
  let latency := JS.ofZ (executeEnd clock - executeStart clock) in
  let config := JSMap.get provider (providerConfigs m) in
  let cost := calculateCost (ar_usage response) (option_map pricing config) in
  {| resp_requestId := req_id request;
     resp_provider := provider;
     resp_model := model;
     resp_content := ar_content response;
     resp_usage :=
       {| promptTokens :=
            JS.orUndef (usageField prompt_tokens (ar_usage response)) JS.zero;
          completionTokens :=
            JS.orUndef (usageField completion_tokens (ar_usage response)) JS.zero;
          totalTokens :=
            JS.orUndef (usageField total_tokens (ar_usage response)) JS.zero;
          cost := cost |};
     resp_performance :=
       {| latency := latency;
          throughput :=
            JS.or (JS.div (JS.toNumber (usageField total_tokens (ar_usage response)))
                          (JS.div latency (JS.ofZ 1000)))
                  JS.zero;
          reliability := JS.one |};
     resp_timestamp := completedAt clock |}.

Definition executeRequest (net : Network) (env : Env) (m : LLMProviderManager)
    (request : LLMRequest) (provider model : string) (clock : Clock)
    : Result LLMResponse :=
  match JSMap.get provider (providers m) with
  | None => Throw (Error ("Provider " +:+ provider +:+ " not available"))
  | Some providerInstance =>
      await response := dispatchAdapter net env providerInstance request provider model in
      Ok (buildResponse m request provider model response clock)
  end.

(** *** Router *)

Definition statsKey (provider model : string) : string :=
  provider +:+ ":" +:+ model.

(** Cost factor (higher score for lower cost). *)
Definition costScore (config : LLMProvider) : JS.num :=
  JS.sub JS.one
    (JS.div (JS.add (inputTokens (pricing config)) (outputTokens (pricing config)))
            (JS.ratio 2 10)).

(** Performance factor (based on historical data). *)
Definition performanceScore (m : LLMProviderManager) (provider model : string) : JS.num :=
  match JSMap.get (statsKey provider model) (stats m) with
  | Some st => JS.min (JS.div (JS.ofZ 1000) (averageLatency (ps_stats st))) JS.one
  | None => JS.ratio 5 10
  end.

(** [request.files?.length] as a condition. *)
Definition hasFiles (request : LLMRequest) : bool :=
  match req_files request with
  | Some (_ :: _) => true
  | _ => false
  end.

Definition capabilityScore (request : LLMRequest) (config : LLMProvider) : JS.num :=
  let c0 := JS.ratio 5 10 in
  let c1 :=
    if hasFiles request && documentAnalysis (capabilities config)
    then JS.add c0 (JS.ratio 3 10) else c0 in
  if Str.includes "code" (req_prompt request) && codeGeneration (capabilities config)
  then JS.add c1 (JS.ratio 2 10) else c1.

Definition availabilityScore (m : LLMProviderManager) (provider : string) : JS.num :=
  if JSMap.has provider (providers m) then JS.ofZ 1 else JS.ofZ 0.

Definition percent (x : JS.num) : string :=
  JS.toFixed 0 (JS.mul x (JS.ofZ 100)) +:+ "%".

Record ProviderScore := {
  total : JS.num;
  ps_reasoning : string
}.

Definition calculateProviderScore (m : LLMProviderManager) (request : LLMRequest)
    (provider model : string) (config : LLMProvider) : ProviderScore :=
  let s0 := JS.ofZ 0 in
  let s1 := JS.add s0 (JS.mul (costScore config) (JS.ratio 3 10)) in
  let s2 := JS.add s1 (JS.mul (performanceScore m provider model) (JS.ratio 4 10)) in
  let s3 := JS.add s2 (JS.mul (capabilityScore request config) (JS.ratio 2 10)) in
  let s4 := JS.add s3 (JS.mul (availabilityScore m provider) (JS.ratio 1 10)) in
  let factors :=
    [ "cost: " +:+ percent (costScore config);
      "performance: " +:+ percent (performanceScore m provider model);
      "capability: " +:+ percent (capabilityScore request config);
      "availability: " +:+ percent (availabilityScore m provider) ] in
  {| total := s4;
     ps_reasoning := provider +:+ "/" +:+ model +:+ " - " +:+ Str.join ", " factors |}.

(** The comparator [(a, b) => b.score - a.score]. *)
Definition byScoreDesc (a b : Scored) : JS.num := JS.sub (score b) (score a).

(** [Array.prototype.sort] is stable: an element moves behind another one
    only when the comparator is positive on the pair. *)
Fixpoint insertSorted (cmp : Scored -> Scored -> JS.num) (x : Scored)
    (l : list Scored) : list Scored :=
  match l with
  | [] => [x]
  | y :: rest =>
      if JS.isPositive (cmp x y) then y :: insertSorted cmp x rest
      else x :: y :: rest
  end.

Definition sort (cmp : Scored -> Scored -> JS.num) (l : list Scored) : list Scored :=
  fold_right (insertSorted cmp) [] l.

(** [a.slice(from, to)] for [from <= to]. *)
Definition slice {A} (from to : nat) (l : list A) : list A :=
  firstn (to - from) (skipn from l).

Definition scorePairs (m : LLMProviderManager) (request : LLMRequest) : list Scored :=
  flat_map
    (fun provider =>
       match JSMap.get provider (providerConfigs m) with
       | None => []   (* continue *)
       | Some config =>
           map (fun model =>
                  let sc := calculateProviderScore m request provider model config in
                  {| sc_provider := provider;
                     sc_model := model;
                     score := total sc;
                     sc_reasoning := ps_reasoning sc |})
               (models config)
       end)
    (JSMap.keys (providers m)).

Definition routingWeights : Factors :=
  {| f_cost := JS.ratio 3 10;
     f_performance := JS.ratio 4 10;
     f_capability := JS.ratio 2 10;
     f_availability := JS.ratio 1 10 |}.

Definition smartRouting (m : LLMProviderManager) (request : LLMRequest)
    : Result SmartRoutingDecision :=
  let scores := sort byScoreDesc (scorePairs m request) in
  match scores with
  | [] =>
      (* [best] is [undefined]; reading [best.provider] raises *)
      Throw (TypeError "Cannot read properties of undefined (reading 'provider')")
  | best :: _ =>
      Ok {| selectedProvider := sc_provider best;
            selectedModel := sc_model best;
            reasoning := sc_reasoning best;
            confidence := score best;
            alternatives := slice 1 4 scores;
            factors := routingWeights |}
  end.

(** *** Statistics *)

Definition updateStats (m : LLMProviderManager) (provider model : string)
    (response : LLMResponse) (latency : JS.num) (now : Z) : LLMProviderManager :=
  let key := statsKey provider model in
  let entry :=
    match JSMap.get key (stats m) with
    | Some existing =>
        let st := ps_stats existing in
        {| ps_provider := ps_provider existing;
           ps_model := ps_model existing;
           ps_stats :=
             {| totalRequests := JS.add (totalRequests st) JS.one;
                st_totalTokens :=
                  JS.add (st_totalTokens st) (totalTokens (resp_usage response));
                totalCost := JS.add (totalCost st) (cost (resp_usage response));
                averageLatency :=
                  JS.div (JS.add (averageLatency st) latency) (JS.ofZ 2);
                successRate := successRate st;
                lastUsed := now |};
           period := period existing |}
    | None =>
        {| ps_provider := provider;
           ps_model := model;
           ps_stats :=
             {| totalRequests := JS.ofZ 1;
                st_totalTokens := totalTokens (resp_usage response);
                totalCost := cost (resp_usage response);
                averageLatency := latency;
                successRate := JS.ofZ 1;
                lastUsed := now |};
           period := day |}
    end in
  {| providers := providers m;
     providerConfigs := providerConfigs m;
     stats := JSMap.set key entry (stats m) |}.

(** *** Dispatch *)

(** [!provider || provider === 'auto'] *)
Definition wantsRouting (provider : option string) : bool :=
  match provider with
  | Some p => negb (Str.truthy p) || String.eqb p "auto"
  | None => true
  end.

(** A value passed on under a non-null assertion; an absent one reads
    [undefined] wherever it is printed. *)
Definition asserted (s : option string) : string :=
  match s with
  | Some v => v
  | None => "undefined"
  end.

Definition processRequest (net : Network) (env : Env) (m : LLMProviderManager)
    (request : LLMRequest) (clock : Clock)
    : Result LLMResponse * LLMProviderManager :=
  let routed :=
    if wantsRouting (req_provider request) then
      await decision := smartRouting m request in
      Ok (selectedProvider decision, selectedModel decision)
    else
      Ok (asserted (req_provider request), asserted (req_model request)) in
  match routed with
  | Throw e => (Throw e, m)
  | Ok (provider, model) =>
      match executeRequest net env m request provider model clock with
      | Throw e => (Throw e, m)
      | Ok response =>
          (Ok response,
           updateStats m provider model response
             (JS.ofZ (requestEnd clock - requestStart clock)) (statsAt clock))
      end
  end.

Definition getAvailableProviders (m : LLMProviderManager) : list LLMProvider :=
  JSMap.values (providerConfigs m).

Definition getProviderStats (m : LLMProviderManager) : list ProviderStats :=
  JSMap.values (stats m).

Definition isProviderAvailable (m : LLMProviderManager) (provider : string) : bool :=
  JSMap.has provider (providers m).

(** ** ConversationManager *)

(** The Redis database holds one JSON document per conversation key.  The
    document is kept here as the [ConversationContext] it encodes:
    [JSON.parse (JSON.stringify c)] followed by the revival of the
    timestamps gives [c] back on the fields of the model.  Expiry of a key
    after the TTL is an action of the database and is not part of
    [addMessage]. *)
Record Redis := { documents : gmap string ConversationContext }.

(** Whether the two commands issued by one [addMessage] go through. *)
Record RedisLink := {
  getWorks : bool;
  setexWorks : bool
}.

Definition conversationKey (userId channelId : string) : string :=
  "conversation:" +:+ userId +:+ ":" +:+ channelId.

Definition getContext (redis : Redis) (link : RedisLink) (userId channelId : string)
    : option ConversationContext :=
  if getWorks link then documents redis !! conversationKey userId channelId
  else None   (* the error is logged and [undefined] returned *).

(** [a.slice(-n)] *)
Definition sliceLast {A} (n : nat) (l : list A) : list A :=
  skipn (length l - n) l.

(** The clock readings taken within one call are one instant, [now]. *)
Definition addMessage (redis : Redis) (link : RedisLink) (userId channelId : string)
    (message : ConversationMessage) (now : Z) : Redis :=
  let key := conversationKey userId channelId in
  let context :=
    match getContext redis link userId channelId with
    | Some c => c
    | None =>
        {| conversationId := userId +:+ ":" +:+ channelId;
           messages := [];
           summary := None;
           ctx_totalTokens := JS.ofZ 0;
           createdAt := now;
           lastUpdatedAt := now |}
    end in
  let pushed := messages context ++ [message] in
  (* Keep only last 20 messages to manage memory *)
  let kept := if Nat.ltb 20 (length pushed) then sliceLast 20 pushed else pushed in
  let context' :=
    {| conversationId := conversationId context;
       messages := kept;
       summary := summary context;
       ctx_totalTokens :=
         JS.add (ctx_totalTokens context) (JS.orUndef (msg_tokens message) (JS.ofZ 0));
       createdAt := createdAt context;
       lastUpdatedAt := now |} in
  if setexWorks link
  then {| documents := <[key := context']> (documents redis) |}
  else redis   (* the error is logged and swallowed *).

Definition clearContext (redis : Redis) (userId channelId : string) : Redis :=
  {| documents := delete (conversationKey userId channelId) (documents redis) |}.

(** Appending a batch of messages one after the other over a working link. *)
Definition workingLink : RedisLink := {| getWorks := true; setexWorks := true |}.

Definition addMessages (redis : Redis) (userId channelId : string)
    (batch : list (ConversationMessage * Z)) : Redis :=
  fold_left (fun r entry => addMessage r workingLink userId channelId (fst entry) (snd entry))
            batch redis.

(** ** UserManager *)

Inductive Tier := free | pro | enterprise.
Inductive SubscriptionStatus := active | canceled | past_due | trialing.

Record SubscriptionLimits := {
  monthlyRequests : JS.num;
  maxTokensPerRequest : JS.num;
  allowedProviders : list string;
  features : list string
}.

Record SubscriptionUsage := {
  requestsThisMonth : JS.num;
  tokensThisMonth : JS.num;
  costThisMonth : JS.num
}.

Record UserSubscription := {
  sub_userId : string;
  sub_teamId : string;
  tier : Tier;
  sub_limits : SubscriptionLimits;
  sub_usage : SubscriptionUsage;
  status : SubscriptionStatus;
  currentPeriodStart : Z;
  currentPeriodEnd : Z
}.

Definition subscriptionKey (userId teamId : string) : string :=
  teamId +:+ ":" +:+ userId.

(** The subscription that [initializeDefaultSubscriptions] builds. *)
Definition defaultSubscription (now : Z) : UserSubscription :=
  {| sub_userId := ""; sub_teamId := ""; tier := free;
     sub_limits := {| monthlyRequests := JS.ofZ 100;
                      maxTokensPerRequest := JS.ofZ 4000;
                      allowedProviders := ["openai"; "anthropic"; "groq"];
                      features := ["basic_chat"; "commands"] |};
     sub_usage := {| requestsThisMonth := JS.ofZ 0;
                     tokensThisMonth := JS.ofZ 0;
                     costThisMonth := JS.ofZ 0 |};
     status := active;
     currentPeriodStart := now;
     currentPeriodEnd := now + 30 * 24 * 60 * 60 * 1000 |}.

(** A subscription created for a new user is [{...default, userId, teamId}]:
    a new object whose [limits] and [usage] fields refer to the objects of
    the default subscription.  [updateUsage] assigns to the fields of the
    [usage] object it reaches through the user's subscription.  Here the
    usage objects live in cells and a subscription holds the address of
    its cell; [limits] is never assigned to and is kept as a value. *)
Module UserStore.

Definition address := nat.

Record SubscriptionObject := {
  userId : string;
  teamId : string;
  planTier : Tier;
  planLimits : SubscriptionLimits;
  usageAt : address;
  planStatus : SubscriptionStatus;
  periodStart : Z;
  periodEnd : Z
}.

Record t := {
  subscriptions : gmap string SubscriptionObject;
  usageCells : gmap address SubscriptionUsage
}.

(** The constructor: [initializeDefaultSubscriptions]. *)
Definition create (now : Z) : t :=
  {| subscriptions :=
       <["default" :=
           {| userId := ""; teamId := ""; planTier := free;
              planLimits := sub_limits (defaultSubscription now);
              usageAt := 0%nat;
              planStatus := active;
              periodStart := now;
              periodEnd := now + 30 * 24 * 60 * 60 * 1000 |}]> ∅;
     usageCells := <[0%nat := sub_usage (defaultSubscription now)]> ∅ |}.

(** Without a default entry the spread copies nothing and the caller's
    next access to [limits] or [usage] raises; that case is [None]. *)
Definition getUserSubscription (st : t) (user team : string)
    : option SubscriptionObject * t :=
  let key := subscriptionKey user team in
  match subscriptions st !! key with
  | Some subscription => (Some subscription, st)
  | None =>
      match subscriptions st !! "default" with
      | Some d =>
          let subscription :=
            {| userId := user; teamId := team; planTier := planTier d;
               planLimits := planLimits d; usageAt := usageAt d;
               planStatus := planStatus d;
               periodStart := periodStart d; periodEnd := periodEnd d |} in
          (Some subscription,
           {| subscriptions := <[key := subscription]> (subscriptions st);
              usageCells := usageCells st |})
      | None => (None, st)
      end
  end.

Definition charge (requests tokens spent : JS.num) (u : SubscriptionUsage)
    : SubscriptionUsage :=
  {| requestsThisMonth := JS.add (requestsThisMonth u) requests;
     tokensThisMonth := JS.add (tokensThisMonth u) tokens;
     costThisMonth := JS.add (costThisMonth u) spent |}.

Definition updateUsage (st : t) (user team : string)
    (requests tokens spent : JS.num) : t :=
  let key := subscriptionKey user team in
  match subscriptions st !! key with
  | Some subscription =>
      {| subscriptions := <[key := subscription]> (subscriptions st);
         usageCells := alter (charge requests tokens spent) (usageAt subscription)
                             (usageCells st) |}
  | None => st
  end.

(** [subscription.usage] as read through a subscription object. *)
Definition usageOf (st : t) (subscription : SubscriptionObject)
    : option SubscriptionUsage :=
  usageCells st !! usageAt subscription.

(** The usage a caller sees for a user: [getUserSubscription] followed by
    a read of [usage]. *)
Definition usageSeen (st : t) (user team : string) : option SubscriptionUsage :=
  match getUserSubscription st user team with
  | (Some subscription, st') => usageOf st' subscription
  | (None, _) => None
  end.

(** The stores a running service can be in. *)
Inductive served (now : Z) : t -> Prop :=
| served_start : served now (create now)
| served_lookup st user team :
    served now st -> served now (snd (getUserSubscription st user team))
| served_update st user team requests tokens spent :
    served now st -> served now (updateUsage st user team requests tokens spent).

(** Every subscription refers to the usage cell of the default
    subscription, on the default plan. *)
Definition uniform (now : Z) (st : t) : Prop :=
  (forall key subscription,
     subscriptions st !! key = Some subscription ->
     usageAt subscription = 0%nat /\
     planLimits subscription = sub_limits (defaultSubscription now) /\
     planStatus subscription = active /\
     planTier subscription = free) /\
  is_Some (subscriptions st !! "default") /\
  is_Some (usageCells st !! 0%nat).

End UserStore.

(** ** CommandProcessor: the parts of the comparison command *)

Inductive CommandType :=
| ask | compare | analyze | generate | summarize | translate | code_command | custom_command.

(** The free-form [options] bag of a command is read by no handler and is
    left out. *)
Record SlackCommand := {
  cmd_type : CommandType;
  cmd_provider : option string;
  cmd_model : option string;
  cmd_prompt : string;
  cmd_files : option (list string)
}.

Record CommandReply := {
  message : string;
  success : bool
}.

Record CompareEntry := {
  ce_provider : string;
  ce_model : string;
  ce_response : LLMResponse
}.

(** Clock readings of one comparison: the metadata timestamp, and per
    target the instant used in the request id and the dispatch clock. *)
Record CompareClock := {
  startedAt : Z;
  idAt : nat -> Z;
  dispatchClock : nat -> Clock
}.

Definition compareProviders : list string := ["openai"; "anthropic"; "groq"].
Definition compareModels : list string :=
  ["gpt-4"; "claude-3-5-sonnet-20241022"; "llama-3.1-70b-versatile"].

Definition dquote : string := String (ascii_of_nat 34) EmptyString.

Section CompareCommand.

(** Conversion of a number to text inside a template literal. *)
Variable numberToString : JS.num -> string.

Variable net : Network.
Variable env : Env.

Definition compareRequest (command : SlackCommand) (userId teamId channelId : string)
    (subscription : UserStore.SubscriptionObject) (clock : CompareClock)
    (provider : string) (index : nat) : LLMRequest :=
  {| req_id := "comp_" +:+ pretty (idAt clock index) +:+ "_" +:+ pretty index;
     req_userId := userId;
     req_teamId := teamId;
     req_provider := Some provider;
     req_model := nth_error compareModels index;
     req_prompt := cmd_prompt command;
     req_context := None;
     req_files := None;
     req_options :=
       {| maxTokens :=
            Some (JS.min (JS.ofZ 500)
                    (maxTokensPerRequest (UserStore.planLimits subscription)));
          temperature := Some (JS.ratio 7 10);
          stream := None;
          systemPrompt := None |};
     req_priority := normal;
     req_metadata :=
       {| command := Some "compare";
          channel := Some channelId;
          meta_timestamp := startedAt clock;
          estimatedCost := None |} |}.

(** One element of [providers.map(async (provider, index) => ...)]:
    [None] is the [null] returned for an unavailable provider or a
    failed request. *)
Definition compareOne (m : LLMProviderManager) (build : string -> nat -> LLMRequest)
    (clock : CompareClock) (provider : string) (index : nat)
    : option CompareEntry * LLMProviderManager :=
  if negb (isProviderAvailable m provider) then (None, m)
  else
    match processRequest net env m (build provider index) (dispatchClock clock index) with
    | (Ok response, m') =>
        (Some {| ce_provider := provider;
                 ce_model := asserted (nth_error compareModels index);
                 ce_response := response |}, m')
    | (Throw _, m') => (None, m')   (* logged as a warning *)
    end.

(** [Promise.all]: the three requests name their provider, so none
    consults the statistics, and they record under three different keys;
    every interleaving yields the results of the run in list order, and
    the same statistics entries. *)
Fixpoint compareAll (m : LLMProviderManager) (build : string -> nat -> LLMRequest)
    (clock : CompareClock) (targets : list string) (index : nat)
    : list (option CompareEntry) * LLMProviderManager :=
  match targets with
  | [] => ([], m)
  | provider :: rest =>
      let '(r, m1) := compareOne m build clock provider index in
      let '(rs, m2) := compareAll m1 build clock rest (S index) in
      (r :: rs, m2)
  end.

(** [results.filter(r => r !== null)] *)
Definition validResults (results : list (option CompareEntry)) : list CompareEntry :=
  omap (fun r => r) results.

Definition renderEntry (result : CompareEntry) : string :=
  let response := ce_response result in
  let content := resp_content response in
  "*" +:+ resp_provider response +:+ "/" +:+ resp_model response +:+ "*\n" +:+
  Str.substring 0 300 content +:+
  (if Nat.ltb 300 (Str.length content) then "..." else "") +:+ "\n" +:+
  "_" +:+ numberToString (totalTokens (resp_usage response)) +:+ " tokens • " +:+
  numberToString (latency (resp_performance response)) +:+ "ms • $" +:+
  JS.toFixed 4 (cost (resp_usage response)) +:+ "_\n\n".

Definition sumOf (f : CompareEntry -> JS.num) (l : list CompareEntry) : JS.num :=
  fold_left (fun sum r => JS.add sum (f r)) l (JS.ofZ 0).

End CompareCommand.

(** ** Sample data used by the examples below *)

Definition noOptions : Options :=
  {| maxTokens := None; temperature := None; stream := None; systemPrompt := None |}.

Definition promptRequest (prompt : string) (provider model : option string)
    (options : Options) : LLMRequest :=
  {| req_id := "req_1"; req_userId := "U1"; req_teamId := "T1";
     req_provider := provider; req_model := model; req_prompt := prompt;
     req_context := None; req_files := None; req_options := options;
     req_priority := normal;
     req_metadata := {| command := Some "ask"; channel := Some "C1";
                        meta_timestamp := 0; estimatedCost := None |} |}.

(** A clock whose adapter call takes [elapsed] milliseconds. *)
Definition clockTaking (elapsed : Z) : Clock :=
  {| requestStart := 1000; executeStart := 1000; executeEnd := 1000 + elapsed;
     completedAt := 1000 + elapsed; requestEnd := 1000 + elapsed;
     statsAt := 1000 + elapsed |}.

Definition qc (z : Z) : Qc := Q2Qc (inject_Z z).

Definition reported (p c t : Z) : RawUsage :=
  {| prompt_tokens := qc p; completion_tokens := qc c; total_tokens := qc t |}.

(** A network on which the chat-completion backends answer with the given
    usage, Anthropic and Ollama answer a fixed text, and a custom endpoint
    answers without usage. *)
Definition answeringNet (usage : option RawUsage) : Network :=
  {| openai_create := fun _ => Ok (Completion [{| choice_content := Some "hello" |}] usage);
     anthropic_create := fun _ =>
       Ok {| am_content := [TextBlock "hello"]; input_tokens := qc 7; output_tokens := qc 5 |};
     groq_create := fun _ => Ok (Completion [{| choice_content := Some "hello" |}] usage);
     ollama_chat := fun _ => Ok {| ollama_content := "hello" |};
     axios_post := fun _ _ _ =>
       Ok {| cd_choices := [{| choice_content := Some "hello" |}]; cd_usage := None |} |}.

(** A network on which only the custom endpoint answers, with usage. *)
Definition localNet : Network :=
  {| openai_create := fun _ => Throw (Rejection "offline");
     anthropic_create := fun _ => Throw (Rejection "offline");
     groq_create := fun _ => Throw (Rejection "offline");
     ollama_chat := fun _ => Throw (Rejection "offline");
     axios_post := fun _ _ _ =>
       Ok {| cd_choices := [{| choice_content := Some "hello" |}];
             cd_usage := Some (reported 10 20 30) |} |}.

(** The answering network with Anthropic out of service. *)
Definition anthropicDownNet : Network :=
  {| openai_create := openai_create (answeringNet (Some (reported 10 20 30)));
     anthropic_create := fun _ => Throw (Rejection "503 overloaded");
     groq_create := groq_create (answeringNet (Some (reported 10 20 30)));
     ollama_chat := ollama_chat (answeringNet None);
     axios_post := axios_post (answeringNet None) |}.

Definition envWith (openaiKey anthropicKey groqKey ollamaUrl customs : option string) : Env :=
  {| OPENAI_API_KEY := openaiKey; OPENAI_ORG_ID := None;
     ANTHROPIC_API_KEY := anthropicKey; GROQ_API_KEY := groqKey;
     OLLAMA_BASE_URL := ollamaUrl; CUSTOM_LLM_ENDPOINTS := customs;
     CUSTOM_API_KEY := None |}.

Definition cloudEnv : Env := envWith (Some "sk-1") (Some "sk-2") (Some "sk-3") None None.
Definition openaiOllamaEnv : Env :=
  envWith (Some "sk-1") None None (Some "http://localhost:11434") None.
Definition customOnlyEnv : Env := envWith None None None None (Some "local:localhost").
Definition emptyEnv : Env := envWith None None None None None.

(** ** The formulas of the specification *)

(** [(promptTokens/1000)*inputPrice + (completionTokens/1000)*outputPrice] *)
Definition specCost (u : Usage) (p : Pricing) : JS.num :=
  JS.add (JS.mul (JS.div (promptTokens u) (JS.ofZ 1000)) (inputTokens p))
         (JS.mul (JS.div (completionTokens u) (JS.ofZ 1000)) (outputTokens p)).

(** The pricing profile of a backend, if it has one. *)
Definition pricingOf (m : LLMProviderManager) (provider : string) : option Pricing :=
  option_map pricing (JSMap.get provider (providerConfigs m)).

(** The reported total agrees with the reported parts. *)
Definition usageConsistent (usage : option RawUsage) : Prop :=
  match usage with
  | Some u => total_tokens u = (prompt_tokens u + completion_tokens u)%Qc
  | None => True
  end.

(** One recorded call: the response, the measured latency, the instant. *)
Record Call := {
  call_response : LLMResponse;
  call_latency : JS.num;
  call_at : Z
}.

Definition recordCalls (m : LLMProviderManager) (provider model : string)
    (calls : list Call) : LLMProviderManager :=
  fold_left
    (fun acc c => updateStats acc provider model (call_response c) (call_latency c) (call_at c))
    calls m.

(** The running estimate: each sample is averaged with the estimate so far. *)
Definition runningEstimate (first : JS.num) (rest : list JS.num) : JS.num :=
  fold_left (fun e l => JS.div (JS.add e l) (JS.ofZ 2)) rest first.

Definition runningSum (first : JS.num) (rest : list JS.num) : JS.num :=
  fold_left JS.add rest first.

Definition callTokens (c : Call) : JS.num := totalTokens (resp_usage (call_response c)).
Definition callCost (c : Call) : JS.num := cost (resp_usage (call_response c)).

(** A response carrying the given usage figures. *)
Definition responseWith (tokens spent : JS.num) : LLMResponse :=
  {| resp_requestId := "req_1"; resp_provider := "openai"; resp_model := "gpt-4";
     resp_content := "hello";
     resp_usage := {| promptTokens := JS.ofZ 0; completionTokens := tokens;
                      totalTokens := tokens; cost := spent |};
     resp_performance := {| latency := JS.ofZ 0; throughput := JS.ofZ 0;
                            reliability := JS.one |};
     resp_timestamp := 0 |}.

Definition callTaking (ms : Z) : Call :=
  {| call_response := responseWith (JS.ofZ 30) (JS.ratio 15 10000);
     call_latency := JS.ofZ ms; call_at := ms |}.

(** A network whose chat-completion backend answers with the options it
    was sent, as text. *)
Definition echoNet : Network :=
  {| openai_create := fun params =>
       Ok (Completion
             [{| choice_content :=
                   Some (JS.toFixed 1 (cp_temperature params) +:+ "/" +:+
                         JS.toFixed 0 (cp_max_tokens params)) |}] None);
     anthropic_create := fun _ => Throw (Rejection "offline");
     groq_create := fun _ => Throw (Rejection "offline");
     ollama_chat := fun params =>
       Ok {| ollama_content :=
               JS.toFixed 1 (op_temperature params) +:+ "/" +:+
               JS.toFixed 0 (op_num_predict params) |};
     axios_post := fun _ _ _ => Throw (Rejection "offline") |}.

Definition zeroOptions : Options :=
  {| maxTokens := Some (JS.ofZ 0); temperature := Some (JS.ofZ 0);
     stream := None; systemPrompt := None |}.

Definition mixedEnv : Env :=
  envWith (Some "sk-1") None None None (Some "local:localhost,lab:10.0.0.5").

(** A request with or without attachments whose prompt does or does not
    mention code. *)
Definition sampleFile : FileAttachment :=
  {| file_id := "F1"; file_name := "notes.pdf"; file_type := pdf;
     file_size := JS.ofZ 2048; file_url := "https://files.example/F1";
     extractedText := None |}.

Definition probeRequest (withFiles mentionsCode : bool) : LLMRequest :=
  {| req_id := "req_1"; req_userId := "U1"; req_teamId := "T1";
     req_provider := None; req_model := None;
     req_prompt := if mentionsCode then "code" else "";
     req_context := None;
     req_files := if withFiles then Some [sampleFile] else None;
     req_options := noOptions;
     req_priority := normal;
     req_metadata := {| command := Some "ask"; channel := Some "C1";
                        meta_timestamp := 0; estimatedCost := None |} |}.

(** A manager with OpenAI and Ollama configured, after one OpenAI call
    that took half a second. *)
Definition warmedManager : LLMProviderManager :=
  updateStats (newLLMProviderManager openaiOllamaEnv) "openai" "gpt-4"
    (responseWith (JS.ofZ 30) (JS.ratio 15 10000)) (JS.ofZ 500) 1500.

(** Combined per-1K price of a profile. *)
Definition combinedPrice (config : LLMProvider) : JS.num :=
  JS.add (inputTokens (pricing config)) (outputTokens (pricing config)).

Definition scoreOf (m : LLMProviderManager) (request : LLMRequest)
    (provider model : string) (config : LLMProvider) : JS.num :=
  total (calculateProviderScore m request provider model config).

(** The most recent 20 entries of a history, oldest first. *)
Definition mostRecent20 (history : list ConversationMessage) : list ConversationMessage :=
  skipn (length history - 20) history.

(** No stored conversation holds more than 20 messages. *)
Definition capped (redis : Redis) : Prop :=
  forall key ctx, documents redis !! key = Some ctx -> (length (messages ctx) <= 20)%nat.

Definition numbered (n : nat) : ConversationMessage :=
  {| msg_role := user; msg_content := pretty n; msg_timestamp := Z.of_nat n;
     msg_provider := None; msg_model := None; msg_tokens := None |}.

Definition numberedBatch (from count : nat) : list (ConversationMessage * Z) :=
  map (fun n => (numbered n, Z.of_nat n)) (seq from count).

Definition emptyRedis : Redis := {| documents := ∅ |}.





Definition steadyClock : CompareClock :=
  {| startedAt := 1000; idAt := fun _ => 1000; dispatchClock := fun _ => clockTaking 250 |}.

Definition compareCommand (prompt : string) : SlackCommand :=
  {| cmd_type := compare; cmd_provider := None; cmd_model := None;
     cmd_prompt := prompt; cmd_files := None |}.

(** ** Further notions used by the properties *)

(** A score that is an ordinary number. *)
Definition finiteScore (s : Scored) : Prop := exists q, score s = JS.Fin q.

(** [x < y] on numbers: [x <= y] holds and [y <= x] does not. *)
Definition ltb (x y : JS.num) : bool := JS.leb x y && negb (JS.leb y x).

(** The latency estimates on record are ordinary non-negative numbers. *)
Definition statsSane (m : LLMProviderManager) : Prop :=
  forall key entry,
    JSMap.get key (stats m) = Some entry ->
    exists q, averageLatency (ps_stats entry) = JS.Fin q /\ (0 <= q)%Qc.

(** A clock that does not run backwards during a request. *)
Definition forwardClock (clock : Clock) : Prop :=
  requestStart clock <= requestEnd clock.

(** The managers a deployment can be in: the one built at start-up, and
    the ones reached from it by dispatching requests. *)
Inductive reachable (env : Env) : LLMProviderManager -> Prop :=
| reachable_start : reachable env (newLLMProviderManager env)
| reachable_step net m request clock :
    reachable env m ->
    forwardClock clock ->
    reachable env (snd (processRequest net env m request clock)).

(** Scores in descending order. *)
Fixpoint descending (l : list Scored) : Prop :=
  match l with
  | [] => True
  | x :: rest =>
      Forall (fun y => JS.leb (score y) (score x) = true) rest /\ descending rest
  end.

(** A number between 0 and 1. *)
Definition unitInterval (x : JS.num) : Prop :=
  exists q, x = JS.Fin q /\ (0 <= q)%Qc /\ (q <= 1)%Qc.

(** The manager with OpenAI and Ollama configured after it has served one
    OpenAI request in half a second. *)
Definition servedManager : LLMProviderManager :=
  snd (processRequest (answeringNet (Some (reported 10 20 30))) openaiOllamaEnv
         (newLLMProviderManager openaiOllamaEnv)
         (promptRequest "hi" (Some "openai") (Some "gpt-4") noOptions)
         (clockTaking 500)).

(** A credential counts as supplied when the variable is set and not empty. *)
Definition supplied (v : option string) : bool :=
  match v with
  | Some s => Str.truthy s
  | None => false
  end.

(** The text of a provider type, as [isProviderAvailable] receives it. *)
Definition typeName (t : ProviderType) : string :=
  match t with
  | openai => "openai"
  | anthropic => "anthropic"
  | groq => "groq"
  | ollama => "ollama"
  | custom => "custom"
  end.

(** The [providers] object of the detailed health report: one flag per
    profile, keyed by the profile's display name. *)
Definition healthProviders (m : LLMProviderManager) : JSMap.t bool :=
  fold_left
    (fun acc provider =>
       JSMap.set (name provider) (isProviderAvailable m (typeName (type provider))) acc)
    (getAvailableProviders m) JSMap.empty.

(** What a registry entry looks like: a built-in name with its own kind of
    client, or a custom endpoint under [custom_] plus its name. *)
Definition entryShape (key : string) (inst : ProviderInstance) : Prop :=
  (key = "openai" /\ exists k org, inst = OpenAIClient k org) \/
  (key = "anthropic" /\ exists k, inst = AnthropicClient k) \/
  (key = "groq" /\ exists k, inst = GroqClient k) \/
  (key = "ollama" /\ exists h, inst = OllamaClient h) \/
  (exists name url,
     key = "custom_" +:+ name /\ inst = CustomEndpoint ("http://" +:+ url) /\
     name <> "" /\ url <> "" /\
     Str.includes ":" name = false /\ Str.includes ":" url = false).

Definition schemeEnv : Env :=
  envWith None None None None (Some "secure:https://api.example.com,local:localhost:8080").

(** The adapter that belongs to a kind of client. *)
Definition adapterOf (net : Network) (env : Env) (inst : ProviderInstance)
    (request : LLMRequest) (model : string) : Result AdapterReply :=
  match inst with
  | OpenAIClient _ _ => processOpenAIRequest net inst request model
  | AnthropicClient _ => processAnthropicRequest net inst request model
  | GroqClient _ => processGroqRequest net inst request model
  | OllamaClient _ => processOllamaRequest net inst request model
  | CustomEndpoint _ => processCustomRequest net env inst request model
  end.

(** A latency sample that is an ordinary number within given bounds. *)
Definition latencyWithin (lo hi : Qc) (c : Call) : Prop :=
  exists q, call_latency c = JS.Fin q /\ (lo <= q)%Qc /\ (q <= hi)%Qc.

(** A context that carries a system message between two turns. *)
Definition turn (role : Role) (content : string) : ConversationMessage :=
  {| msg_role := role; msg_content := content; msg_timestamp := 0;
     msg_provider := None; msg_model := None; msg_tokens := None |}.

Definition briefedRequest : LLMRequest :=
  {| req_id := "req_2"; req_userId := "U1"; req_teamId := "T1";
     req_provider := Some "anthropic"; req_model := Some "claude-3-haiku-20240307";
     req_prompt := "And now?";
     req_context :=
       Some {| conversationId := "U1:C1";
               messages := [turn user "Hello"; turn system "Be brief";
                            turn assistant "Hi"];
               summary := None; ctx_totalTokens := JS.ofZ 0;
               createdAt := 0; lastUpdatedAt := 0 |};
     req_files := None;
     req_options := {| maxTokens := None; temperature := None; stream := None;
                       systemPrompt := Some "You are helpful" |};
     req_priority := normal;
     req_metadata := {| command := Some "ask"; channel := Some "C1";
                        meta_timestamp := 0; estimatedCost := None |} |}.

(** A link on which reads fail and writes go through. *)
Definition readOutage : RedisLink := {| getWorks := false; setexWorks := true |}.

(** A link on which writes fail. *)
Definition writeOutage : RedisLink := {| getWorks := true; setexWorks := false |}.

(** The tokens a message adds to the running total: [message.tokens || 0]. *)
Definition tokensOf (message : ConversationMessage) : JS.num :=
  JS.orUndef (msg_tokens message) (JS.ofZ 0).

Definition weighted (n : nat) : ConversationMessage :=
  {| msg_role := assistant; msg_content := pretty n; msg_timestamp := Z.of_nat n;
     msg_provider := Some "openai"; msg_model := Some "gpt-4";
     msg_tokens := Some (JS.ofZ 10) |}.

Definition weightedBatch (count : nat) : list (ConversationMessage * Z) :=
  map (fun n => (weighted n, Z.of_nat n)) (seq 1 count).

(** A store in which two users have been looked up. *)
Definition twoUsers : UserStore.t :=
  snd (UserStore.getUserSubscription
         (snd (UserStore.getUserSubscription (UserStore.create 0) "U1" "T1"))
         "U2" "T1").

(** ** AnalyticsService *)

(** The [data] of an event, as both producers fill it. *)
Record EventData := {
  ed_provider : string;
  ed_model : string;
  ed_tokens : JS.num;
  ed_latency : JS.num
}.

Record AnalyticsEvent := {
  ev_id : string;
  ev_type : string;
  ev_userId : string;
  ev_teamId : string;
  ev_timestamp : Z;
  ev_data : EventData;
  ev_cost : option JS.num;
  ev_success : bool
}.

Record AnalyticsService := { events : list AnalyticsEvent }.

Definition newAnalyticsService : AnalyticsService := {| events := [] |}.

Definition track (a : AnalyticsService) (event : AnalyticsEvent) : AnalyticsService :=
  let pushed := events a ++ [event] in
  (* Keep only last 1000 events in memory for MVP *)
  {| events := if Nat.ltb 1000 (length pushed) then sliceLast 1000 pushed else pushed |}.

Record Metrics := {
  metric_totalEvents : JS.num;
  metric_last24h : JS.num;
  metric_totalCost : JS.num;
  metric_successRate : JS.num
}.

Definition ofNat (n : nat) : JS.num := JS.ofZ (Z.of_nat n).

Definition getMetrics (a : AnalyticsService) (now : Z) : Metrics :=
  let last24h :=
    List.filter (fun e => Z.ltb (now - ev_timestamp e) (24 * 60 * 60 * 1000)) (events a) in
  {| metric_totalEvents := ofNat (length (events a));
     metric_last24h := ofNat (length last24h);
     metric_totalCost :=
       fold_left (fun sum e => JS.add sum (JS.orUndef (ev_cost e) (JS.ofZ 0)))
                 (events a) (JS.ofZ 0);
     metric_successRate :=
       JS.div (ofNat (length (List.filter ev_success (events a))))
              (ofNat (Nat.max (length (events a)) 1)) |}.

Definition trackAll (a : AnalyticsService) (batch : list AnalyticsEvent)
    : AnalyticsService :=
  fold_left track batch a.

(** The [n] most recent entries of a list. *)
Definition keepLast {A} (n : nat) (l : list A) : list A := skipn (length l - n) l.

Definition sampleEvent (n : nat) : AnalyticsEvent :=
  {| ev_id := pretty n; ev_type := "command_processed"; ev_userId := "U1";
     ev_teamId := "T1"; ev_timestamp := Z.of_nat n;
     ev_data := {| ed_provider := "openai"; ed_model := "gpt-4";
                   ed_tokens := JS.ofZ 30; ed_latency := JS.ofZ 250 |};
     ev_cost := Some (JS.ratio 15 10000); ev_success := true |}.

(** ** CommandProcessor: all commands *)

(** The services a command works on.  The user manager is the one with
    the shared usage object. *)
Record Hub := {
  hub_llm : LLMProviderManager;
  hub_redis : Redis;
  hub_users : UserStore.t;
  hub_analytics : AnalyticsService
}.

(** What one command takes from outside: clock readings, the random part
    of the request identifier, the identifier of the response (which
    [LLMResponse] leaves out), and the state of the database link at each
    of its three accesses. *)
Record Ambient := {
  amb_idAt : Z;
  amb_random : string;
  amb_startedAt : Z;
  amb_clock : Clock;
  amb_compare : CompareClock;
  amb_readLink : RedisLink;
  amb_userLink : RedisLink;
  amb_userAt : Z;
  amb_assistantLink : RedisLink;
  amb_assistantAt : Z;
  amb_responseId : string;
  amb_trackedAt : Z
}.

(** [a || b] on optional texts. *)
Definition orText (a : option string) (b : string) : string :=
  match a with
  | Some s => if Str.truthy s then s else b
  | None => b
  end.

Module CommandProcessor.

Section Commands.

Variable numberToString : JS.num -> string.
Variable net : Network.
Variable env : Env.

Definition withLLM (hub : Hub) (m : LLMProviderManager) : Hub :=
  {| hub_llm := m; hub_redis := hub_redis hub; hub_users := hub_users hub;
     hub_analytics := hub_analytics hub |}.

Definition withUsers (hub : Hub) (users : UserStore.t) : Hub :=
  {| hub_llm := hub_llm hub; hub_redis := hub_redis hub; hub_users := users;
     hub_analytics := hub_analytics hub |}.

Definition formatResponse (response : LLMResponse) (title : option string) : string :=
  let head :=
    match title with
    | Some t => if Str.truthy t then "*" +:+ t +:+ "*\n\n" else ""
    | None => ""
    end in
  head +:+ resp_content response +:+
  "\n\n_Powered by " +:+ resp_provider response +:+ "/" +:+ resp_model response +:+
  " • " +:+ numberToString (totalTokens (resp_usage response)) +:+ " tokens • " +:+
  numberToString (latency (resp_performance response)) +:+ "ms • $" +:+
  JS.toFixed 4 (cost (resp_usage response)) +:+ "_".

Definition updateConversationAndUsage (hub : Hub) (userId teamId channelId : string)
    (prompt : string) (response : LLMResponse) (amb : Ambient) : Hub :=
  (* Update conversation *)
  let r1 :=
    addMessage (hub_redis hub) (amb_userLink amb) userId channelId
      {| msg_role := user; msg_content := prompt; msg_timestamp := amb_userAt amb;
         msg_provider := None; msg_model := None; msg_tokens := None |}
      (amb_userAt amb) in
  let r2 :=
    addMessage r1 (amb_assistantLink amb) userId channelId
      {| msg_role := assistant; msg_content := resp_content response;
         msg_timestamp := amb_assistantAt amb;
         msg_provider := Some (resp_provider response);
         msg_model := Some (resp_model response);
         msg_tokens := Some (totalTokens (resp_usage response)) |}
      (amb_assistantAt amb) in
  (* Update usage *)
  let users :=
    UserStore.updateUsage (hub_users hub) userId teamId (JS.ofZ 1)
      (totalTokens (resp_usage response)) (cost (resp_usage response)) in
  (* Track analytics *)
  let analytics :=
    track (hub_analytics hub)
      {| ev_id := amb_responseId amb;
         ev_type := "command_processed";
         ev_userId := userId;
         ev_teamId := teamId;
         ev_timestamp := amb_trackedAt amb;
         ev_data := {| ed_provider := resp_provider response;
                       ed_model := resp_model response;
                       ed_tokens := totalTokens (resp_usage response);
                       ed_latency := latency (resp_performance response) |};
         ev_cost := Some (cost (resp_usage response));
         ev_success := true |} in
  {| hub_llm := hub_llm hub; hub_redis := r2; hub_users := users;
     hub_analytics := analytics |}.

(** The common end of the commands that dispatch one request:
    [processRequest], then [updateConversationAndUsage], then the reply. *)
Definition dispatchAndRecord (hub : Hub) (userId teamId channelId : string)
    (request : LLMRequest) (title : option string) (amb : Ambient)
    : Result CommandReply * Hub :=
  match processRequest net env (hub_llm hub) request (amb_clock amb) with
  | (Throw e, m) => (Throw e, withLLM hub m)
  | (Ok response, m) =>
      (Ok {| message := formatResponse response title; success := true |},
       updateConversationAndUsage (withLLM hub m) userId teamId channelId
         (req_prompt request) response amb)
  end.

Definition requestId (prefix : string) (amb : Ambient) : string :=
  prefix +:+ "_" +:+ pretty (amb_idAt amb) +:+ "_" +:+ amb_random amb.

Definition commandRequest (prefix commandName : string) (userId teamId channelId : string)
    (provider model : option string) (prompt : string)
    (context : option ConversationContext)
    (limit temperature : JS.num) (systemText : string) (amb : Ambient) : LLMRequest :=
  {| req_id := requestId prefix amb;
     req_userId := userId;
     req_teamId := teamId;
     req_provider := provider;
     req_model := model;
     req_prompt := prompt;
     req_context := context;
     req_files := None;
     req_options := {| maxTokens := Some limit; temperature := Some temperature;
                       stream := None; systemPrompt := Some systemText |};
     req_priority := normal;
     req_metadata := {| command := Some commandName; channel := Some channelId;
                        meta_timestamp := amb_startedAt amb; estimatedCost := None |} |}.

(** [subscription!.limits.maxTokensPerRequest]; raises without a subscription. *)
Definition limitOf (subscription : option UserStore.SubscriptionObject)
    : Result JS.num :=
  match subscription with
  | Some s => Ok (maxTokensPerRequest (UserStore.planLimits s))
  | None =>
      Throw (TypeError "Cannot read properties of undefined (reading 'maxTokensPerRequest')")
  end.

Definition processAskCommand (hub : Hub) (command : SlackCommand)
    (userId teamId channelId : string) (amb : Ambient) : Result CommandReply * Hub :=
  if negb (Str.truthy (Str.trim (cmd_prompt command))) then
    (Ok {| message := "Please provide a question or prompt. Example: `/ai What is the capital of France?`";
           success := false |}, hub)
  else
    let context := getContext (hub_redis hub) (amb_readLink amb) userId channelId in
    let '(subscription, users) :=
      UserStore.getUserSubscription (hub_users hub) userId teamId in
    let hub1 := withUsers hub users in
    match limitOf subscription with
    | Throw e => (Throw e, hub1)
    | Ok limit =>
        dispatchAndRecord hub1 userId teamId channelId
          (commandRequest "cmd" "ask" userId teamId channelId
             (cmd_provider command) (cmd_model command) (cmd_prompt command) context
             limit (JS.ratio 7 10)
             "You are a helpful AI assistant. Provide clear, accurate, and concise responses."
             amb)
          None amb
    end.

Definition processAnalyzeCommand (hub : Hub) (command : SlackCommand)
    (userId teamId channelId : string) (amb : Ambient) : Result CommandReply * Hub :=
  let context := getContext (hub_redis hub) (amb_readLink amb) userId channelId in
  let '(subscription, users) :=
    UserStore.getUserSubscription (hub_users hub) userId teamId in
  let hub1 := withUsers hub users in
  let analyzePrompt :=
    "Analyze the following content in detail. Provide insights, key points, and actionable recommendations:\n\n"
    +:+ cmd_prompt command in
  match limitOf subscription with
  | Throw e => (Throw e, hub1)
  | Ok limit =>
      dispatchAndRecord hub1 userId teamId channelId
        (commandRequest "analyze" "analyze" userId teamId channelId
           (Some (orText (cmd_provider command) "anthropic"))
           (Some (orText (cmd_model command) "claude-3-5-sonnet-20241022"))
           analyzePrompt context limit (JS.ratio 3 10)
           "You are an expert analyst. Provide structured, insightful analysis with clear recommendations."
           amb)
        (Some "📊 Analysis Complete") amb
  end.

Definition processGenerateCommand (hub : Hub) (command : SlackCommand)
    (userId teamId channelId : string) (amb : Ambient) : Result CommandReply * Hub :=
  let context := getContext (hub_redis hub) (amb_readLink amb) userId channelId in
  let '(subscription, users) :=
    UserStore.getUserSubscription (hub_users hub) userId teamId in
  let hub1 := withUsers hub users in
  let generatePrompt :=
    "Generate creative content based on this request: " +:+ cmd_prompt command in
  match limitOf subscription with
  | Throw e => (Throw e, hub1)
  | Ok limit =>
      dispatchAndRecord hub1 userId teamId channelId
        (commandRequest "gen" "generate" userId teamId channelId
           (Some (orText (cmd_provider command) "openai"))
           (Some (orText (cmd_model command) "gpt-4"))
           generatePrompt context limit (JS.ratio 8 10)
           "You are a creative writing assistant. Generate engaging, original content that meets the user's specifications."
           amb)
        (Some "✨ Generated Content") amb
  end.

Definition processSummarizeCommand (hub : Hub) (command : SlackCommand)
    (userId teamId channelId : string) (amb : Ambient) : Result CommandReply * Hub :=
  let context := getContext (hub_redis hub) (amb_readLink amb) userId channelId in
  let '(subscription, users) :=
    UserStore.getUserSubscription (hub_users hub) userId teamId in
  let hub1 := withUsers hub users in
  let summarizePrompt :=
    "Provide a concise summary of the following content, highlighting the key points and main takeaways:\n\n"
    +:+ cmd_prompt command in
  match limitOf subscription with
  | Throw e => (Throw e, hub1)
  | Ok limit =>
      dispatchAndRecord hub1 userId teamId channelId
        (commandRequest "sum" "summarize" userId teamId channelId
           (Some (orText (cmd_provider command) "anthropic"))
           (Some (orText (cmd_model command) "claude-3-5-sonnet-20241022"))
           summarizePrompt context (JS.min (JS.ofZ 500) limit) (JS.ratio 3 10)
           "You are an expert at creating clear, concise summaries. Focus on the most important information."
           amb)
        (Some "📋 Summary") amb
  end.

Definition processTranslateCommand (hub : Hub) (command : SlackCommand)
    (userId teamId channelId : string) (amb : Ambient) : Result CommandReply * Hub :=
  let '(subscription, users) :=
    UserStore.getUserSubscription (hub_users hub) userId teamId in
  let hub1 := withUsers hub users in
  (* Extract target language from command *)
  let parts := Str.split " " (cmd_prompt command) in
  let targetLang := asserted (head parts) in
  let textToTranslate := Str.join " " (tail parts) in
  if negb (Str.truthy textToTranslate) then
    (Ok {| message := "Please specify target language and text. Example: `/ai-translate spanish Hello, how are you?`";
           success := false |}, hub1)
  else
    let translatePrompt :=
      "Translate the following text to " +:+ targetLang +:+ ": " +:+ textToTranslate in
    match limitOf subscription with
    | Throw e => (Throw e, hub1)
    | Ok limit =>
        dispatchAndRecord hub1 userId teamId channelId
          (commandRequest "trans" "translate" userId teamId channelId
             (Some (orText (cmd_provider command) "openai"))
             (Some (orText (cmd_model command) "gpt-4"))
             translatePrompt None limit (JS.ratio 2 10)
             "You are a professional translator. Provide accurate translations that preserve meaning and context."
             amb)
          (Some "🌐 Translation") amb
    end.

Definition processCodeCommand (hub : Hub) (command : SlackCommand)
    (userId teamId channelId : string) (amb : Ambient) : Result CommandReply * Hub :=
  let context := getContext (hub_redis hub) (amb_readLink amb) userId channelId in
  let '(subscription, users) :=
    UserStore.getUserSubscription (hub_users hub) userId teamId in
  let hub1 := withUsers hub users in
  let codePrompt := "Help with this coding task: " +:+ cmd_prompt command in
  match limitOf subscription with
  | Throw e => (Throw e, hub1)
  | Ok limit =>
      dispatchAndRecord hub1 userId teamId channelId
        (commandRequest "code" "code" userId teamId channelId
           (Some (orText (cmd_provider command) "openai"))
           (Some (orText (cmd_model command) "gpt-4"))
           codePrompt context limit (JS.ratio 1 10)
           "You are an expert programmer. Provide clean, well-commented code with explanations."
           amb)
        (Some "💻 Code Solution") amb
  end.

Definition processCompareCommand (hub : Hub) (command : SlackCommand)
    (userId teamId channelId : string) (amb : Ambient) : Result CommandReply * Hub :=
  if negb (Str.truthy (Str.trim (cmd_prompt command))) then
    (Ok {| message := "Please provide a prompt to compare across models. Example: `/ai-compare Explain quantum computing`";
           success := false |}, hub)
  else
    let '(subscription, users) :=
      UserStore.getUserSubscription (hub_users hub) userId teamId in
    let hub1 := withUsers hub users in
    match subscription with
    | None =>
        (Throw (TypeError "Cannot read properties of undefined (reading 'maxTokensPerRequest')"),
         hub1)
    | Some s =>
        let clock := amb_compare amb in
        let build := compareRequest command userId teamId channelId s clock in
        let '(results, m') := compareAll net env (hub_llm hub) build clock compareProviders 0 in
        let valid := validResults results in
        match valid with
        | [] =>
            (Ok {| message := "No providers available for comparison. Please try again later.";
                   success := false |}, withLLM hub1 m')
        | _ =>
            let header :=
              "*Comparison Results for: " +:+ dquote +:+ cmd_prompt command +:+
              dquote +:+ "*\n\n" in
            let text :=
              fold_left (fun msg r => msg +:+ renderEntry numberToString r) valid header in
            let usedTokens := sumOf (fun r => totalTokens (resp_usage (ce_response r))) valid in
            let usedCost := sumOf (fun r => cost (resp_usage (ce_response r))) valid in
            let users' :=
              UserStore.updateUsage users userId teamId
                (JS.ofZ (Z.of_nat (length valid))) usedTokens usedCost in
            (Ok {| message := text; success := true |},
             withUsers (withLLM hub1 m') users')
        end
    end.

Definition subscribeReply : CommandReply :=
  {| message := "Please subscribe to use AI features. Contact your admin or visit our pricing page.";
     success := false |}.

Definition failureReply : CommandReply :=
  {| message := "Sorry, something went wrong processing your command. Please try again.";
     success := false |}.

Definition limitReply (limits : SubscriptionLimits) : CommandReply :=
  {| message := "You've reached your monthly limit of " +:+
                numberToString (monthlyRequests limits) +:+
                " requests. Please upgrade your plan.";
     success := false |}.

Definition unknownReply : CommandReply :=
  {| message := "Unknown command type. Use `/ai help` for available commands.";
     success := false |}.

(** The [switch] of [processCommand]. *)
Definition runHandler (hub : Hub) (command : SlackCommand)
    (userId teamId channelId : string) (amb : Ambient) : Result CommandReply * Hub :=
  match cmd_type command with
  | ask => processAskCommand hub command userId teamId channelId amb
  | compare => processCompareCommand hub command userId teamId channelId amb
  | analyze => processAnalyzeCommand hub command userId teamId channelId amb
  | generate => processGenerateCommand hub command userId teamId channelId amb
  | summarize => processSummarizeCommand hub command userId teamId channelId amb
  | translate => processTranslateCommand hub command userId teamId channelId amb
  | code_command => processCodeCommand hub command userId teamId channelId amb
  | custom_command => (Ok unknownReply, hub)
  end.

(** An exception raised anywhere inside is caught, logged and answered
    with [failureReply]; what the services recorded before it stays. *)
Definition processCommand (hub : Hub) (command : SlackCommand)
    (userId teamId channelId : string) (amb : Ambient) : CommandReply * Hub :=
  (* Check user subscription and limits *)
  let '(subscription, users) :=
    UserStore.getUserSubscription (hub_users hub) userId teamId in
  let hub1 := withUsers hub users in
  match subscription with
  | None => (subscribeReply, hub1)
  | Some s =>
      match UserStore.planStatus s with
      | active =>
          match UserStore.usageOf users s with
          | None => (failureReply, hub1)   (* reading [usage.requestsThisMonth] raises *)
          | Some usage =>
              if JS.leb (monthlyRequests (UserStore.planLimits s)) (requestsThisMonth usage)
              then (limitReply (UserStore.planLimits s), hub1)
              else
                (* Process based on command type *)
                match runHandler hub1 command userId teamId channelId amb with
                | (Ok reply, hub2) => (reply, hub2)
                | (Throw _, hub2) => (failureReply, hub2)
                end
          end
      | _ => (subscribeReply, hub1)
      end
  end.

End Commands.

End CommandProcessor.

(** The services as [initializeServices] creates them. *)
Definition newHub (env : Env) (now : Z) : Hub :=
  {| hub_llm := newLLMProviderManager env;
     hub_redis := {| documents := ∅ |};
     hub_users := UserStore.create now;
     hub_analytics := newAnalyticsService |}.

(** A handler's outcome that [processCommand] answers without success. *)
Definition unsuccessful (r : Result CommandReply) : Prop :=
  match r with
  | Ok reply => success reply = false
  | Throw _ => True
  end.

(** The messages of a stored conversation, none when there is no document. *)
Definition historyOf (redis : Redis) (userId channelId : string)
    : list ConversationMessage :=
  match getContext redis workingLink userId channelId with
  | Some ctx => messages ctx
  | None => []
  end.

Definition plainCommand (type : CommandType) (prompt : string) : SlackCommand :=
  {| cmd_type := type; cmd_provider := None; cmd_model := None;
     cmd_prompt := prompt; cmd_files := None |}.

Definition sampleAmbient : Ambient :=
  {| amb_idAt := 1000; amb_random := "k3j9x2m1q"; amb_startedAt := 1000;
     amb_clock := clockTaking 250; amb_compare := steadyClock;
     amb_readLink := workingLink;
     amb_userLink := workingLink; amb_userAt := 1251;
     amb_assistantLink := workingLink; amb_assistantAt := 1252;
     amb_responseId := "resp_1250_p0o9i8u7y"; amb_trackedAt := 1253 |}.

(** The backend a command asks for: the one it names, and for the
    commands with a preferred backend that one when it names none. *)
Definition backendAsked (command : SlackCommand) : option string :=
  match cmd_type command with
  | analyze | summarize => Some (orText (cmd_provider command) "anthropic")
  | generate | translate | code_command => Some (orText (cmd_provider command) "openai")
  | _ => cmd_provider command
  end.

(** What holds of the services at every moment of a deployment. *)
Definition steady (env : Env) (now : Z) (hub : Hub) : Prop :=
  reachable env (hub_llm hub) /\
  UserStore.served now (hub_users hub) /\
  capped (hub_redis hub) /\
  (length (events (hub_analytics hub)) <= 1000)%nat.

(** The clocks of one command do not run backwards during a dispatch. *)
Definition forwardAmbient (amb : Ambient) : Prop :=
  forwardClock (amb_clock amb) /\
  forall index, forwardClock (dispatchClock (amb_compare amb) index).

(** What happens to one conversation over time: an append, over the
    database link as it is at that moment, or the expiry of the key in the
    database, which [setex] sets to seven days after the last write. *)
Inductive StoreEvent :=
| Appended (link : RedisLink) (message : ConversationMessage) (now : Z)
| Expired.

Definition expire (redis : Redis) (userId channelId : string) : Redis :=
  {| documents := delete (conversationKey userId channelId) (documents redis) |}.

Definition occur (userId channelId : string) (redis : Redis) (event : StoreEvent)
    : Redis :=
  match event with
  | Appended link message now => addMessage redis link userId channelId message now
  | Expired => expire redis userId channelId
  end.

Definition occurAll (redis : Redis) (userId channelId : string)
    (events : list StoreEvent) : Redis :=
  fold_left (occur userId channelId) events redis.

(** An append whose read and write both reach the database. *)
Definition reachesDatabase (event : StoreEvent) : Prop :=
  match event with
  | Appended link _ _ => getWorks link = true /\ setexWorks link = true
  | Expired => False
  end.

(** The messages appended by a sequence of events, in order. *)
Definition appendedIn (events : list StoreEvent) : list ConversationMessage :=
  flat_map (fun event =>
              match event with
              | Appended _ message _ => [message]
              | Expired => []
              end) events.

(** Five appends that reach the database and a sixth whose read fails. *)
Definition sixAppends : list StoreEvent :=
  map (fun n => Appended workingLink (numbered n) (Z.of_nat n)) (seq 1 5) ++
  [Appended readOutage (numbered 6) 6].



(** A request during which the clock is set back by two milliseconds. *)
Definition steppedBackClock : Clock :=
  {| requestStart := 1000; executeStart := 1000; executeEnd := 998;
     completedAt := 998; requestEnd := 998; statsAt := 998 |}.

Definition groqEnv : Env := envWith None None (Some "sk-3") None None.

(** The manager with Groq alone configured, after it has served one
    request during which the clock was set back. *)
Definition steppedBackManager : LLMProviderManager :=
  snd (processRequest (answeringNet (Some (reported 10 20 30))) groqEnv
         (newLLMProviderManager groqEnv)
         (promptRequest "hi" (Some "groq") (Some "llama-3.1-70b-versatile") noOptions)
         steppedBackClock).

(** ** Properties *)

(** *** Numbers *)

Lemma sign_eq (q : Qc) : JS.sign q = Eq -> q = 0%Qc.
Proof. unfold JS.sign. intros H. apply Qceq_alt. exact H. Qed.

Lemma or_fin_zero (q : Qc) : JS.or (JS.Fin q) JS.zero = JS.Fin q.
Proof.
  unfold JS.or, JS.truthy.
  destruct (JS.sign q) eqn:E; try reflexivity.
  apply sign_eq in E. subst q. unfold JS.zero, JS.ofZ. f_equal.
Qed.

(** *** Dispatch: cost *)

Lemma executeRequest_ok net env m request provider model clock inst reply :
  JSMap.get provider (providers m) = Some inst ->
  dispatchAdapter net env inst request provider model = Ok reply ->
  executeRequest net env m request provider model clock =
    Ok (buildResponse m request provider model reply clock).
Proof.
  intros Hget Hrun. unfold executeRequest. rewrite Hget, Hrun. reflexivity.
Qed.

Lemma executeRequest_inv net env m request provider model clock response :
  executeRequest net env m request provider model clock = Ok response ->
  exists inst reply,
    JSMap.get provider (providers m) = Some inst /\
    dispatchAdapter net env inst request provider model = Ok reply /\
    response = buildResponse m request provider model reply clock.
Proof.
  unfold executeRequest. intros H.
  destruct (JSMap.get provider (providers m)) as [inst|]; [|discriminate].
  destruct (dispatchAdapter net env inst request provider model) as [reply|] eqn:E;
    simpl in H; [|discriminate].
  exists inst, reply. injection H as <-. auto.
Qed.

Lemma processRequest_inv net env m request clock response :
  fst (processRequest net env m request clock) = Ok response ->
  exists model,
    executeRequest net env m request (resp_provider response) model clock = Ok response.
Proof.
  unfold processRequest. intros H.
  destruct (if wantsRouting (req_provider request) then _ else _) as [[provider model]|];
    [|discriminate].
  destruct (executeRequest net env m request provider model clock) as [r|] eqn:E;
    simpl in H; [|discriminate].
  injection H as ->. exists model.
  pose proof E as E'.
  apply executeRequest_inv in E' as (inst & reply & _ & _ & ->).
  exact E.
Qed.

(** C2. The cost recorded on the response of a dispatched request is
    (promptTokens/1000)*inputPrice + (completionTokens/1000)*outputPrice with
    the pricing of the chosen backend's profile, and it is 0 when the
    backend reported no usage or has no pricing profile. *)
Theorem C2_cost_recorded net env m request clock response :
  fst (processRequest net env m request clock) = Ok response ->
  exists inst model reply,
    JSMap.get (resp_provider response) (providers m) = Some inst /\
    dispatchAdapter net env inst request (resp_provider response) model = Ok reply /\
    match ar_usage reply, pricingOf m (resp_provider response) with
    | Some _, Some p => cost (resp_usage response) = specCost (resp_usage response) p
    | _, _ => cost (resp_usage response) = JS.zero
    end.
Proof.
  intros H. apply processRequest_inv in H as (model & H).
  apply executeRequest_inv in H as (inst & reply & Hget & Hrun & Hresp).
  exists inst, model, reply. split; [exact Hget|]. split; [exact Hrun|].
  rewrite Hresp.
  unfold pricingOf, buildResponse, specCost, calculateCost;
    cbn [resp_usage resp_provider cost promptTokens completionTokens].
  destruct (ar_usage reply) as [u|]; [|reflexivity].
  destruct (option_map pricing _) as [p|]; [|reflexivity].
  cbn [usageField JS.orUndef]. rewrite !or_fin_zero. reflexivity.
Qed.

Lemma C2_cost_recorded_witness :
  let net := answeringNet (Some (reported 10 20 30)) in
  let m := newLLMProviderManager cloudEnv in
  let request := promptRequest "hi" (Some "openai") (Some "gpt-4") noOptions in
  let response :=
    buildResponse m request "openai" "gpt-4"
      {| ar_content := "hello"; ar_usage := Some (reported 10 20 30) |} (clockTaking 250) in
  exists inst model reply,
    JSMap.get (resp_provider response) (providers m) = Some inst /\
    dispatchAdapter net cloudEnv inst request (resp_provider response) model = Ok reply /\
    match ar_usage reply, pricingOf m (resp_provider response) with
    | Some _, Some p => cost (resp_usage response) = specCost (resp_usage response) p
    | _, _ => cost (resp_usage response) = JS.zero
    end.
Proof.
  intros net m request response.
  apply (C2_cost_recorded net cloudEnv m request (clockTaking 250) response).
  vm_compute. reflexivity.
Defined.

(** *** Dispatch: token counters *)

Lemma add_fin (a b : Qc) : JS.add (JS.Fin a) (JS.Fin b) = JS.Fin (a + b)%Qc.
Proof. reflexivity. Qed.

Lemma dispatch_anthropic_consistent net env inst request model reply :
  dispatchAdapter net env inst request "anthropic" model = Ok reply ->
  usageConsistent (ar_usage reply).
Proof.
  unfold dispatchAdapter; cbn. unfold processAnthropicRequest.
  destruct (anthropic_create net _) as [c|]; cbn; [|discriminate].
  intros H; injection H as <-. cbn. reflexivity.
Qed.

Lemma dispatch_ollama_consistent net env inst request model reply :
  dispatchAdapter net env inst request "ollama" model = Ok reply ->
  usageConsistent (ar_usage reply).
Proof.
  unfold dispatchAdapter; cbn. unfold processOllamaRequest.
  destruct (ollama_chat net _) as [c|]; cbn; [|discriminate].
  intros H; injection H as <-. cbn. ring.
Qed.

(** The counter the dispatch engine records for a counter of the reply. *)
Lemma counter_recorded (field : RawUsage -> Qc) (usage : option RawUsage) :
  JS.orUndef (usageField field usage) JS.zero =
    match usage with
    | Some u => JS.Fin (field u)
    | None => JS.zero
    end.
Proof.
  destruct usage as [u|]; cbn [usageField JS.orUndef]; [|reflexivity].
  apply or_fin_zero.
Qed.

(** C4, as the code has it.  Each of the three counters of the response is
    the counter of the same name that the adapter handed back, and 0 when
    the adapter handed back no usage; the total is the sum of the parts
    when the adapter is the Anthropic or the Ollama one, when no usage was
    reported, or when the reported total agrees with the reported parts. *)
Theorem C4_total_tokens_carried net env m request clock response :
  fst (processRequest net env m request clock) = Ok response ->
  exists inst model reply,
    JSMap.get (resp_provider response) (providers m) = Some inst /\
    dispatchAdapter net env inst request (resp_provider response) model = Ok reply /\
    promptTokens (resp_usage response) =
      match ar_usage reply with
      | Some u => JS.Fin (prompt_tokens u)
      | None => JS.zero
      end /\
    completionTokens (resp_usage response) =
      match ar_usage reply with
      | Some u => JS.Fin (completion_tokens u)
      | None => JS.zero
      end /\
    totalTokens (resp_usage response) =
      match ar_usage reply with
      | Some u => JS.Fin (total_tokens u)
      | None => JS.zero
      end /\
    (resp_provider response = "anthropic" \/ resp_provider response = "ollama" ->
     usageConsistent (ar_usage reply)) /\
    (usageConsistent (ar_usage reply) ->
     totalTokens (resp_usage response) =
       JS.add (promptTokens (resp_usage response)) (completionTokens (resp_usage response))).
Proof.
  intros H. apply processRequest_inv in H as (model & H).
  remember (resp_provider response) as provider eqn:Hp.
  apply executeRequest_inv in H as (inst & reply & Hget & Hrun & Hresp).
  exists inst, model, reply. split; [exact Hget|]. split; [exact Hrun|].
  clear Hp. subst response.
  unfold buildResponse; cbn [resp_usage totalTokens promptTokens completionTokens].
  rewrite !counter_recorded.
  split; [reflexivity|]. split; [reflexivity|]. split; [reflexivity|]. split.
  - intros [E|E]; rewrite E in Hrun.
    + eapply dispatch_anthropic_consistent; eassumption.
    + eapply dispatch_ollama_consistent; eassumption.
  - destruct (ar_usage reply) as [u|]; cbn [usageConsistent].
    + intros ->. reflexivity.
    + intros _. unfold JS.zero, JS.ofZ. rewrite add_fin. reflexivity.
Qed.

(** An Anthropic reply of 7 input and 5 output tokens: the response
    carries 7, 5 and their sum. *)
Lemma C4_total_tokens_carried_witness :
  let net := answeringNet (Some (reported 10 20 30)) in
  let m := newLLMProviderManager cloudEnv in
  let request := promptRequest "hi" (Some "anthropic") (Some "claude-3-haiku-20240307") noOptions in
  exists response inst model reply,
    fst (processRequest net cloudEnv m request (clockTaking 250)) = Ok response /\
    JSMap.get (resp_provider response) (providers m) = Some inst /\
    dispatchAdapter net cloudEnv inst request (resp_provider response) model = Ok reply /\
    ar_usage reply = Some (reported 7 5 12) /\
    promptTokens (resp_usage response) = JS.ofZ 7 /\
    completionTokens (resp_usage response) = JS.ofZ 5 /\
    totalTokens (resp_usage response) = JS.ofZ 12 /\
    totalTokens (resp_usage response) =
      JS.add (promptTokens (resp_usage response)) (completionTokens (resp_usage response)).
Proof.
  intros net m request.
  destruct (fst (processRequest net cloudEnv m request (clockTaking 250)))
    as [response|e] eqn:E; [|vm_compute in E; discriminate E].
  destruct (C4_total_tokens_carried net cloudEnv m request (clockTaking 250) response E)
    as (inst & model & reply & Hget & Hrun & Hp & Hc & Ht & Hcons & Hsum).
  exists response, inst, model, reply.
  assert (Hprov : resp_provider response = "anthropic")
    by (vm_compute in E; injection E as <-; reflexivity).
  assert (Hreply : ar_usage reply = Some (reported 7 5 12)).
  { rewrite Hprov in Hrun. vm_compute in Hrun. injection Hrun as <-. reflexivity. }
  split; [reflexivity|]. split; [exact Hget|]. split; [exact Hrun|].
  split; [exact Hreply|].
  rewrite Hreply in Hp, Hc, Ht.
  split; [exact Hp|]. split; [exact Hc|]. split; [exact Ht|].
  apply Hsum. apply Hcons. left. exact Hprov.
Defined.

(** C4 as stated fails: an OpenAI reply reporting 1 prompt token,
    2 completion tokens and a total of 5 is passed through unchanged. *)
Lemma C4_total_tokens_counterexample :
  exists response,
    fst (processRequest (answeringNet (Some (reported 1 2 5))) cloudEnv
           (newLLMProviderManager cloudEnv)
           (promptRequest "hi" (Some "openai") (Some "gpt-4") noOptions)
           (clockTaking 250)) = Ok response /\
    promptTokens (resp_usage response) = JS.ofZ 1 /\
    completionTokens (resp_usage response) = JS.ofZ 2 /\
    totalTokens (resp_usage response) = JS.ofZ 5 /\
    totalTokens (resp_usage response) <>
      JS.add (promptTokens (resp_usage response)) (completionTokens (resp_usage response)).
Proof.
  eexists. split; [vm_compute; reflexivity|].
  repeat split; try (vm_compute; reflexivity).
  vm_compute. intros H. discriminate H.
Qed.

(** *** Dispatch: throughput *)

(** C6, evaluated on the code.  A reply of 30 tokens that arrives within
    the same millisecond has latency 0; the throughput recorded is
    30 / 0 = Infinity, which [|| 0] keeps.  Shown for an OpenAI reply and
    for a custom endpoint on the local host. *)
Theorem C6_throughput_at_zero_latency :
  (exists response,
     fst (processRequest (answeringNet (Some (reported 10 20 30))) cloudEnv
            (newLLMProviderManager cloudEnv)
            (promptRequest "hi" (Some "openai") (Some "gpt-4") noOptions)
            (clockTaking 0)) = Ok response /\
     latency (resp_performance response) = JS.ofZ 0 /\
     totalTokens (resp_usage response) = JS.ofZ 30 /\
     throughput (resp_performance response) = JS.PosInf) /\
  (exists response,
     fst (processRequest localNet customOnlyEnv
            (newLLMProviderManager customOnlyEnv)
            (promptRequest "hi" (Some "custom_local") (Some "tiny") noOptions)
            (clockTaking 0)) = Ok response /\
     latency (resp_performance response) = JS.ofZ 0 /\
     totalTokens (resp_usage response) = JS.ofZ 30 /\
     throughput (resp_performance response) = JS.PosInf).
Proof.
  split; eexists; (split; [vm_compute; reflexivity|]);
    repeat split; vm_compute; reflexivity.
Qed.

(** With no tokens to report the same division is 0/0 = NaN, and the
    default applies. *)
Lemma throughput_zero_latency_no_tokens m request provider model reply clock :
  executeEnd clock = executeStart clock ->
  (forall u, ar_usage reply = Some u -> total_tokens u = 0%Qc) ->
  throughput (resp_performance (buildResponse m request provider model reply clock)) =
    JS.zero.
Proof.
  intros Hc Hu. unfold buildResponse; cbn [resp_performance throughput].
  rewrite Hc, Z.sub_diag.
  destruct (ar_usage reply) as [u|]; cbn [usageField JS.toNumber].
  - rewrite (Hu u eq_refl). reflexivity.
  - reflexivity.
Qed.

(** *** Adapters: request options *)

(** C7, evaluated on the code.  A request that sets temperature 0 and
    max tokens 0 reaches the backend with the defaults 0.7 and 1000, in
    each of the four parameter objects and in the call itself. *)
Theorem C7_explicit_zero_replaced :
  let request := promptRequest "hi" (Some "openai") (Some "gpt-4") zeroOptions in
  cp_temperature (chatParams request "gpt-4") = JS.ratio 7 10 /\
  cp_max_tokens (chatParams request "gpt-4") = JS.ofZ 1000 /\
  ap_temperature (anthropicParams request "claude-3-haiku-20240307") = JS.ratio 7 10 /\
  ap_max_tokens (anthropicParams request "claude-3-haiku-20240307") = JS.ofZ 1000 /\
  op_temperature (ollamaParams request "llama2") = JS.ratio 7 10 /\
  op_num_predict (ollamaParams request "llama2") = JS.ofZ 1000 /\
  cb_temperature (customBody request "m") = JS.ratio 7 10 /\
  cb_max_tokens (customBody request "m") = JS.ofZ 1000 /\
  option_map resp_content
    (match fst (processRequest echoNet cloudEnv (newLLMProviderManager cloudEnv)
                  request (clockTaking 250)) with
     | Ok r => Some r
     | Throw _ => None
     end) = Some "0.7/1000".
Proof.
  repeat split; vm_compute; reflexivity.
Qed.

(** What does hold: an option that is unset gets the default, and one that
    is set to a truthy number is forwarded. *)
Lemma orUndef_unset (d : JS.num) : JS.orUndef None d = d.
Proof. reflexivity. Qed.

Lemma orUndef_truthy (x d : JS.num) :
  JS.truthy x = true -> JS.orUndef (Some x) d = x.
Proof. intros H. unfold JS.orUndef, JS.or. rewrite H. reflexivity. Qed.

Lemma orUndef_falsy (x d : JS.num) :
  JS.truthy x = false -> JS.orUndef (Some x) d = d.
Proof. intros H. unfold JS.orUndef, JS.or. rewrite H. reflexivity. Qed.

Lemma options_forwarded request model (t k : JS.num) :
  temperature (req_options request) = Some t ->
  maxTokens (req_options request) = Some k ->
  JS.truthy t = true -> JS.truthy k = true ->
  cp_temperature (chatParams request model) = t /\
  cp_max_tokens (chatParams request model) = k /\
  ap_temperature (anthropicParams request model) = t /\
  ap_max_tokens (anthropicParams request model) = k /\
  op_temperature (ollamaParams request model) = t /\
  op_num_predict (ollamaParams request model) = k /\
  cb_temperature (customBody request model) = t /\
  cb_max_tokens (customBody request model) = k.
Proof.
  intros Ht Hk Tt Tk.
  unfold chatParams, anthropicParams, ollamaParams, customBody; cbn.
  rewrite Ht, Hk, !(orUndef_truthy _ _ Tt), !(orUndef_truthy _ _ Tk).
  repeat split.
Qed.

Lemma options_defaulted request model :
  temperature (req_options request) = None ->
  maxTokens (req_options request) = None ->
  cp_temperature (chatParams request model) = JS.ratio 7 10 /\
  cp_max_tokens (chatParams request model) = JS.ofZ 1000 /\
  ap_temperature (anthropicParams request model) = JS.ratio 7 10 /\
  ap_max_tokens (anthropicParams request model) = JS.ofZ 1000 /\
  op_temperature (ollamaParams request model) = JS.ratio 7 10 /\
  op_num_predict (ollamaParams request model) = JS.ofZ 1000 /\
  cb_temperature (customBody request model) = JS.ratio 7 10 /\
  cb_max_tokens (customBody request model) = JS.ofZ 1000.
Proof.
  intros Ht Hk.
  unfold chatParams, anthropicParams, ollamaParams, customBody; cbn.
  rewrite Ht, Hk. repeat split.
Qed.

Lemma div_fin (a b : Qc) :
  b <> 0%Qc -> JS.div (JS.Fin a) (JS.Fin b) = JS.Fin (a / b)%Qc.
Proof.
  intros Hb. unfold JS.div.
  destruct (JS.sign b) eqn:E; try reflexivity.
  apply sign_eq in E. contradiction.
Qed.

Lemma qc_zero_iff (z : Z) : qc z = 0%Qc <-> z = 0.
Proof.
  unfold qc. split.
  - intros H. apply Q2Qc_eq_iff in H. unfold Qeq in H. simpl in H. lia.
  - intros ->. reflexivity.
Qed.

Lemma millis_to_seconds_nonzero (d : Z) :
  d <> 0 -> (qc d / qc 1000)%Qc <> 0%Qc.
Proof.
  intros Hd H. unfold Qcdiv in H.
  apply Qcmult_integral in H as [H|H].
  - apply qc_zero_iff in H. contradiction.
  - assert (K : (qc 1000 * / qc 1000)%Qc = 1%Qc)
      by (apply Qcmult_inv_r; intros E; apply qc_zero_iff in E; discriminate).
    rewrite H in K. rewrite Qcmult_0_r in K. discriminate K.
Qed.

(** The part of C6 that holds: with a non-zero latency the throughput is
    totalTokens / (latency / 1000). *)
Lemma throughput_nonzero_latency m request provider model reply clock :
  executeEnd clock <> executeStart clock ->
  let response := buildResponse m request provider model reply clock in
  throughput (resp_performance response) =
    JS.div (totalTokens (resp_usage response))
           (JS.div (latency (resp_performance response)) (JS.ofZ 1000)).
Proof.
  intros Hc response. subst response.
  unfold buildResponse;
    cbn [resp_performance resp_usage throughput latency totalTokens].
  set (d := executeEnd clock - executeStart clock).
  assert (Hd : d <> 0) by (subst d; lia).
  change (JS.ofZ d) with (JS.Fin (qc d)).
  change (JS.ofZ 1000) with (JS.Fin (qc 1000)).
  rewrite (div_fin (qc d) (qc 1000))
    by (intros E; apply qc_zero_iff in E; discriminate).
  pose proof (millis_to_seconds_nonzero d Hd) as Hx.
  destruct (ar_usage reply) as [u|]; cbn [usageField JS.toNumber JS.orUndef].
  - rewrite or_fin_zero, (div_fin _ _ Hx). apply or_fin_zero.
  - change JS.zero with (JS.Fin 0%Qc). rewrite (div_fin _ _ Hx).
    cbn. f_equal. unfold Qcdiv. ring.
Qed.

(** *** Statistics *)

Lemma get_set_eq {V} (k : string) (v : V) (m : JSMap.t V) :
  JSMap.get k (JSMap.set k v m) = Some v.
Proof.
  induction m as [|[k' v'] m IH]; cbn.
  - rewrite String.eqb_refl. reflexivity.
  - destruct (String.eqb k k') eqn:E; cbn; rewrite ?E, ?String.eqb_refl; auto.
Qed.

Lemma get_set_ne {V} (k k' : string) (v : V) (m : JSMap.t V) :
  k <> k' -> JSMap.get k' (JSMap.set k v m) = JSMap.get k' m.
Proof.
  intros Hne. induction m as [|[k0 v0] m IH]; cbn.
  - destruct (String.eqb k' k) eqn:E; [|reflexivity].
    apply String.eqb_eq in E. congruence.
  - destruct (String.eqb k k0) eqn:E; cbn.
    + apply String.eqb_eq in E. subst k0.
      destruct (String.eqb k' k) eqn:E'; [|reflexivity].
      apply String.eqb_eq in E'. congruence.
    + destruct (String.eqb k' k0); auto.
Qed.

Lemma updateStats_first m provider model response l now :
  JSMap.get (statsKey provider model) (stats m) = None ->
  JSMap.get (statsKey provider model)
    (stats (updateStats m provider model response l now)) =
  Some {| ps_provider := provider; ps_model := model;
          ps_stats := {| totalRequests := JS.ofZ 1;
                         st_totalTokens := totalTokens (resp_usage response);
                         totalCost := cost (resp_usage response);
                         averageLatency := l;
                         successRate := JS.ofZ 1;
                         lastUsed := now |};
          period := day |}.
Proof.
  intros H. unfold updateStats; cbn [stats]. rewrite H. apply get_set_eq.
Qed.

Lemma updateStats_next m provider model response l now e :
  JSMap.get (statsKey provider model) (stats m) = Some e ->
  JSMap.get (statsKey provider model)
    (stats (updateStats m provider model response l now)) =
  Some {| ps_provider := ps_provider e; ps_model := ps_model e;
          ps_stats :=
            {| totalRequests := JS.add (totalRequests (ps_stats e)) JS.one;
               st_totalTokens :=
                 JS.add (st_totalTokens (ps_stats e)) (totalTokens (resp_usage response));
               totalCost := JS.add (totalCost (ps_stats e)) (cost (resp_usage response));
               averageLatency := JS.div (JS.add (averageLatency (ps_stats e)) l) (JS.ofZ 2);
               successRate := successRate (ps_stats e);
               lastUsed := now |};
          period := period e |}.
Proof.
  intros H. unfold updateStats; cbn [stats]. rewrite H. apply get_set_eq.
Qed.

(** Recording further calls under a key that already has an entry. *)
Lemma recordCalls_from_entry provider model (rest : list Call) :
  forall m e,
    JSMap.get (statsKey provider model) (stats m) = Some e ->
    exists e',
      JSMap.get (statsKey provider model) (stats (recordCalls m provider model rest)) =
        Some e' /\
      averageLatency (ps_stats e') =
        runningEstimate (averageLatency (ps_stats e)) (map call_latency rest) /\
      successRate (ps_stats e') = successRate (ps_stats e) /\
      totalRequests (ps_stats e') =
        runningSum (totalRequests (ps_stats e)) (map (fun _ => JS.one) rest) /\
      st_totalTokens (ps_stats e') =
        runningSum (st_totalTokens (ps_stats e)) (map callTokens rest) /\
      totalCost (ps_stats e') =
        runningSum (totalCost (ps_stats e)) (map callCost rest).
Proof.
  induction rest as [|c rest IH]; intros m e He.
  - exists e. cbn. repeat split; auto.
  - cbn [recordCalls fold_left].
    pose proof (updateStats_next m provider model (call_response c)
                  (call_latency c) (call_at c) e He) as Hn.
    destruct (IH _ _ Hn) as (e' & Hget & Ha & Hs & Hr & Ht & Hc).
    exists e'. split; [exact Hget|].
    cbn [ps_stats averageLatency successRate totalRequests st_totalTokens totalCost]
      in Ha, Hs, Hr, Ht, Hc.
    repeat split; assumption.
Qed.

Lemma add_ofZ (a b : Z) : JS.add (JS.ofZ a) (JS.ofZ b) = JS.ofZ (a + b).
Proof.
  unfold JS.ofZ. rewrite add_fin. f_equal.
  apply Q2Qc_eq_iff. cbn [this Q2Qc].
  rewrite !Qred_correct, inject_Z_plus. reflexivity.
Qed.

Lemma count_calls (rest : list Call) : forall n : Z,
  runningSum (JS.ofZ n) (map (fun _ => JS.one) rest) = JS.ofZ (n + Z.of_nat (length rest)).
Proof.
  induction rest as [|c rest IH]; intros n; cbn [map length runningSum fold_left].
  - f_equal. lia.
  - unfold JS.one. rewrite add_ofZ. unfold runningSum in IH. rewrite IH.
    f_equal. lia.
Qed.

(** C3. Under a (backend, model) key without statistics, the first recorded
    call sets the latency estimate to its latency and the success rate to 1;
    every later call with latency L replaces the estimate E by (E + L)/2, so
    that three calls leave ((L1 + L2)/2 + L3)/2, which is not the mean of
    the three; the call count is the number of calls, and the token and cost
    totals are the sums over the calls. *)
Theorem C3_running_statistics m provider model (first : Call) (rest : list Call) :
  JSMap.get (statsKey provider model) (stats m) = None ->
  exists e,
    JSMap.get (statsKey provider model)
      (stats (recordCalls m provider model (first :: rest))) = Some e /\
    averageLatency (ps_stats e) =
      runningEstimate (call_latency first) (map call_latency rest) /\
    (rest = [] -> averageLatency (ps_stats e) = call_latency first) /\
    (forall c2 c3, rest = [c2; c3] ->
       averageLatency (ps_stats e) =
         JS.div (JS.add (JS.div (JS.add (call_latency first) (call_latency c2)) (JS.ofZ 2))
                        (call_latency c3)) (JS.ofZ 2)) /\
    successRate (ps_stats e) = JS.ofZ 1 /\
    totalRequests (ps_stats e) = JS.ofZ (1 + Z.of_nat (length rest)) /\
    st_totalTokens (ps_stats e) = runningSum (callTokens first) (map callTokens rest) /\
    totalCost (ps_stats e) = runningSum (callCost first) (map callCost rest) /\
    runningEstimate (JS.ofZ 100) [JS.ofZ 200; JS.ofZ 600] <>
      JS.div (JS.add (JS.add (JS.ofZ 100) (JS.ofZ 200)) (JS.ofZ 600)) (JS.ofZ 3).
Proof.
  intros Hnone.
  pose proof (updateStats_first m provider model (call_response first)
                (call_latency first) (call_at first) Hnone) as Hfirst.
  destruct (recordCalls_from_entry provider model rest _ _ Hfirst)
    as (e & Hget & Ha & Hs & Hr & Ht & Hc).
  cbn [ps_stats averageLatency successRate totalRequests st_totalTokens totalCost]
    in Ha, Hs, Hr, Ht, Hc.
  exists e. split; [exact Hget|].
  split; [exact Ha|].
  split; [intros ->; exact Ha|].
  split; [intros c2 c3 ->; exact Ha|].
  split; [exact Hs|].
  split; [rewrite Hr; apply count_calls|].
  split; [exact Ht|].
  split; [exact Hc|].
  vm_compute. intros H. discriminate H.
Qed.

Lemma C3_running_statistics_witness :
  let m := newLLMProviderManager cloudEnv in
  let first := callTaking 100 in
  let rest := [callTaking 200; callTaking 600] in
  exists e,
    JSMap.get (statsKey "openai" "gpt-4")
      (stats (recordCalls m "openai" "gpt-4" (first :: rest))) = Some e /\
    averageLatency (ps_stats e) =
      runningEstimate (call_latency first) (map call_latency rest) /\
    (rest = [] -> averageLatency (ps_stats e) = call_latency first) /\
    (forall c2 c3, rest = [c2; c3] ->
       averageLatency (ps_stats e) =
         JS.div (JS.add (JS.div (JS.add (call_latency first) (call_latency c2)) (JS.ofZ 2))
                        (call_latency c3)) (JS.ofZ 2)) /\
    successRate (ps_stats e) = JS.ofZ 1 /\
    totalRequests (ps_stats e) = JS.ofZ (1 + Z.of_nat (length rest)) /\
    st_totalTokens (ps_stats e) = runningSum (callTokens first) (map callTokens rest) /\
    totalCost (ps_stats e) = runningSum (callCost first) (map callCost rest) /\
    runningEstimate (JS.ofZ 100) [JS.ofZ 200; JS.ofZ 600] <>
      JS.div (JS.add (JS.add (JS.ofZ 100) (JS.ofZ 200)) (JS.ofZ 600)) (JS.ofZ 3).
Proof.
  intros m first rest.
  apply (C3_running_statistics m "openai" "gpt-4" first rest).
  reflexivity.
Defined.

(** The three recorded latencies 100, 200 and 600 leave the estimate 375;
    their mean is 300. *)
Example running_estimate_375 :
  option_map (fun e => JS.eqb (averageLatency (ps_stats e)) (JS.ofZ 375))
    (JSMap.get (statsKey "openai" "gpt-4")
       (stats (recordCalls (newLLMProviderManager cloudEnv) "openai" "gpt-4"
                 [callTaking 100; callTaking 200; callTaking 600]))) = Some true.
Proof. vm_compute. reflexivity. Qed.

(** *** Router: which pairs can be chosen *)

Lemma has_keys {V} (k : string) (m : JSMap.t V) :
  JSMap.has k m = true <-> In k (JSMap.keys m).
Proof.
  unfold JSMap.has, JSMap.keys.
  induction m as [|[k' v] m IH]; cbn.
  - split; [discriminate|tauto].
  - destruct (String.eqb k k') eqn:E.
    + apply String.eqb_eq in E. subst. tauto.
    + apply String.eqb_neq in E. rewrite IH. split; [tauto|].
      intros [H|H]; [congruence|exact H].
Qed.

Lemma has_get {V} (k : string) (m : JSMap.t V) :
  JSMap.has k m = true <-> exists v, JSMap.get k m = Some v.
Proof.
  unfold JSMap.has. destruct (JSMap.get k m) as [v|].
  - split; [eauto|reflexivity].
  - split; [discriminate|intros [v H]; discriminate].
Qed.

Lemma In_insertSorted cmp (x y : Scored) (l : list Scored) :
  In x (insertSorted cmp y l) <-> x = y \/ In x l.
Proof.
  induction l as [|z l IH]; cbn.
  - intuition congruence.
  - destruct (JS.isPositive (cmp y z)); cbn; rewrite ?IH; intuition congruence.
Qed.

Lemma In_sort cmp (x : Scored) (l : list Scored) :
  In x (sort cmp l) <-> In x l.
Proof.
  induction l as [|y l IH]; cbn; [tauto|].
  rewrite In_insertSorted, IH. intuition congruence.
Qed.

Lemma sort_nil_iff cmp (l : list Scored) : sort cmp l = [] <-> l = [].
Proof.
  split.
  - destruct l as [|y l]; [reflexivity|]. intros H.
    assert (K : In y (sort cmp (y :: l))) by (apply In_sort; left; reflexivity).
    rewrite H in K. destruct K.
  - intros ->. reflexivity.
Qed.

Lemma In_firstn_incl {A} (n : nat) (x : A) (l : list A) :
  In x (firstn n l) -> In x l.
Proof.
  revert n. induction l as [|y l IH]; intros [|n]; cbn; try tauto.
  intros [H|H]; [left; exact H|right; exact (IH n H)].
Qed.

Lemma In_skipn_incl {A} (n : nat) (x : A) (l : list A) :
  In x (skipn n l) -> In x l.
Proof.
  revert n. induction l as [|y l IH]; intros [|n]; cbn; try tauto.
  intros H. right. exact (IH n H).
Qed.

Lemma In_slice {A} (from to : nat) (x : A) (l : list A) :
  In x (slice from to l) -> In x l.
Proof.
  unfold slice. intros H.
  apply (In_skipn_incl from). apply (In_firstn_incl (to - from)). exact H.
Qed.

Lemma scorePairs_In m request (s : Scored) :
  In s (scorePairs m request) <->
  exists config,
    In (sc_provider s) (JSMap.keys (providers m)) /\
    JSMap.get (sc_provider s) (providerConfigs m) = Some config /\
    In (sc_model s) (models config) /\
    s = {| sc_provider := sc_provider s; sc_model := sc_model s;
           score := total (calculateProviderScore m request (sc_provider s)
                             (sc_model s) config);
           sc_reasoning := ps_reasoning (calculateProviderScore m request
                                           (sc_provider s) (sc_model s) config) |}.
Proof.
  unfold scorePairs. rewrite in_flat_map. split.
  - intros (p & Hp & Hs).
    destruct (JSMap.get p (providerConfigs m)) as [config|] eqn:E; [|destruct Hs].
    apply in_map_iff in Hs as (model & <- & Hm). cbn.
    exists config. auto.
  - intros (config & Hp & Hc & Hm & Hs).
    exists (sc_provider s). split; [exact Hp|]. rewrite Hc.
    apply in_map_iff. exists (sc_model s). split; [|exact Hm].
    symmetry. exact Hs.
Qed.

(** A decision names pairs that were scored. *)
Lemma smartRouting_picks_scored m request d :
  smartRouting m request = Ok d ->
  (exists best, In best (scorePairs m request) /\
                selectedProvider d = sc_provider best /\
                selectedModel d = sc_model best /\
                confidence d = score best) /\
  (forall a, In a (alternatives d) -> In a (scorePairs m request)).
Proof.
  unfold smartRouting.
  destruct (sort byScoreDesc (scorePairs m request)) as [|best rest] eqn:E;
    [discriminate|].
  intros H. injection H as <-.
  cbn [selectedProvider selectedModel confidence alternatives]. split.
  - exists best. split; [|auto].
    apply (In_sort byScoreDesc). rewrite E. left. reflexivity.
  - intros a Ha. apply In_slice in Ha.
    apply (In_sort byScoreDesc). rewrite E. exact Ha.
Qed.

Lemma smartRouting_ok_iff m request :
  (exists d, smartRouting m request = Ok d) <-> scorePairs m request <> [].
Proof.
  unfold smartRouting.
  destruct (sort byScoreDesc (scorePairs m request)) as [|best rest] eqn:E.
  - apply sort_nil_iff in E. rewrite E. split; [intros [d H]; discriminate|congruence].
  - split; [|eauto]. intros _ H. rewrite H in E. discriminate E.
Qed.

Lemma smartRouting_total m request :
  (exists d, smartRouting m request = Ok d) \/ (exists e, smartRouting m request = Throw e).
Proof. destruct (smartRouting m request); eauto. Qed.

Lemma scorePairs_nonempty_iff m request :
  (forall p c, JSMap.get p (providerConfigs m) = Some c -> models c <> []) ->
  scorePairs m request <> [] <->
  exists p, isProviderAvailable m p = true /\ JSMap.has p (providerConfigs m) = true.
Proof.
  intros Hmodels. split.
  - intros Hne. destruct (scorePairs m request) as [|s l] eqn:E; [congruence|].
    assert (Hs : In s (scorePairs m request)) by (rewrite E; left; reflexivity).
    apply scorePairs_In in Hs as (config & Hp & Hc & _).
    exists (sc_provider s). split.
    + apply has_keys. exact Hp.
    + apply has_get. eauto.
  - intros (p & Hp & Hc) Hnil.
    apply has_keys in Hp. apply has_get in Hc as [config Hc].
    destruct (models config) as [|model ms] eqn:Em.
    + exact (Hmodels p config Hc Em).
    + set (sc := calculateProviderScore m request p model config).
      assert (K : In {| sc_provider := p; sc_model := model; score := total sc;
                        sc_reasoning := ps_reasoning sc |} (scorePairs m request)).
      { apply scorePairs_In. cbn. exists config. rewrite Em. cbn. auto. }
      rewrite Hnil in K. destruct K.
Qed.

Lemma initial_config_cases p c :
  JSMap.get p initializeProviderConfigs = Some c ->
  (p = "openai" /\ c = openaiConfig) \/ (p = "anthropic" /\ c = anthropicConfig) \/
  (p = "groq" /\ c = groqConfig) \/ (p = "ollama" /\ c = ollamaConfig).
Proof.
  change initializeProviderConfigs
    with [("openai", openaiConfig); ("anthropic", anthropicConfig);
          ("groq", groqConfig); ("ollama", ollamaConfig)].
  cbn [JSMap.get].
  destruct (String.eqb p "openai") eqn:E1;
    [apply String.eqb_eq in E1; intros H; injection H as <-; auto|].
  destruct (String.eqb p "anthropic") eqn:E2;
    [apply String.eqb_eq in E2; intros H; injection H as <-; auto|].
  destruct (String.eqb p "groq") eqn:E3;
    [apply String.eqb_eq in E3; intros H; injection H as <-; auto|].
  destruct (String.eqb p "ollama") eqn:E4;
    [apply String.eqb_eq in E4; intros H; injection H as <-; auto 6|].
  discriminate.
Qed.

Lemma initial_models_nonempty p c :
  JSMap.get p initializeProviderConfigs = Some c -> models c <> [].
Proof.
  intros H. apply initial_config_cases in H.
  destruct H as [[_ ->]|[[_ ->]|[[_ ->]|[_ ->]]]]; discriminate.
Qed.

(** C1, as the code has it.  Backends without a profile are skipped by the
    router, so it returns a decision exactly when some available backend
    has a profile, and fails otherwise; with no available backend at all it
    fails whatever the request. *)
Theorem C1_routing_decision_iff_profiled m request :
  (forall p c, JSMap.get p (providerConfigs m) = Some c -> models c <> []) ->
  ((exists d, smartRouting m request = Ok d) <->
   (exists p, isProviderAvailable m p = true /\ JSMap.has p (providerConfigs m) = true)) /\
  ((exists e, smartRouting m request = Throw e) <->
   ~ (exists p, isProviderAvailable m p = true /\ JSMap.has p (providerConfigs m) = true)) /\
  (providers m = JSMap.empty -> exists e, smartRouting m request = Throw e).
Proof.
  intros Hmodels.
  pose proof (scorePairs_nonempty_iff m request Hmodels) as Hne.
  pose proof (smartRouting_ok_iff m request) as Hok.
  assert (Hiff : (exists d, smartRouting m request = Ok d) <->
                 (exists p, isProviderAvailable m p = true /\
                            JSMap.has p (providerConfigs m) = true))
    by (rewrite Hok; exact Hne).
  assert (Hfail : (exists e, smartRouting m request = Throw e) <->
                  ~ (exists d, smartRouting m request = Ok d)).
  { destruct (smartRouting m request) as [d|e].
    - split; [intros [e H]; discriminate|]. intros H. exfalso. apply H. eauto.
    - split; [intros _ [d H]; discriminate|eauto]. }
  split; [exact Hiff|]. split.
  - rewrite Hfail, Hiff. reflexivity.
  - intros Hempty. apply Hfail. rewrite Hiff. intros (p & Hp & _).
    unfold isProviderAvailable in Hp. rewrite Hempty in Hp. discriminate Hp.
Qed.

Lemma C1_routing_decision_iff_profiled_witness :
  let m := newLLMProviderManager cloudEnv in
  let request := promptRequest "hi" None None noOptions in
  ((exists d, smartRouting m request = Ok d) <->
   (exists p, isProviderAvailable m p = true /\ JSMap.has p (providerConfigs m) = true)) /\
  ((exists e, smartRouting m request = Throw e) <->
   ~ (exists p, isProviderAvailable m p = true /\ JSMap.has p (providerConfigs m) = true)) /\
  (providers m = JSMap.empty -> exists e, smartRouting m request = Throw e).
Proof.
  intros m request.
  apply (C1_routing_decision_iff_profiled m request).
  exact initial_models_nonempty.
Defined.

(** C1 as stated fails: with one custom endpoint configured there is an
    available backend, and the router fails all the same. *)
Lemma C1_routing_counterexample :
  isProviderAvailable (newLLMProviderManager customOnlyEnv) "custom_local" = true /\
  providers (newLLMProviderManager customOnlyEnv) =
    [("custom_local", CustomEndpoint "http://localhost")] /\
  isOk (smartRouting (newLLMProviderManager customOnlyEnv)
          (promptRequest "hi" None None noOptions)) = false.
Proof. repeat split. Qed.

(** With no backend configured the failure is the runtime's complaint about
    reading a property of [undefined]. *)
Example routing_without_backends :
  smartRouting (newLLMProviderManager emptyEnv) (promptRequest "hi" None None noOptions) =
    Throw (TypeError "Cannot read properties of undefined (reading 'provider')").
Proof. reflexivity. Qed.

Example routing_cloud :
  option_map (fun d => (selectedProvider d, selectedModel d, reasoning d))
    (match smartRouting (newLLMProviderManager cloudEnv)
             (promptRequest "hi" None None noOptions) with
     | Ok d => Some d
     | Throw _ => None
     end) =
  Some ("groq", "llama-3.1-405b-reasoning",
        "groq/llama-3.1-405b-reasoning - cost: 99%, performance: 50%, capability: 50%, availability: 100%").
Proof. vm_compute. reflexivity. Qed.

(** *** Custom endpoints *)

Lemma has_set_eq {V} (k : string) (v : V) (m : JSMap.t V) :
  JSMap.has k (JSMap.set k v m) = true.
Proof. unfold JSMap.has. rewrite get_set_eq. reflexivity. Qed.

Lemma has_set_mono {V} (k k' : string) (v : V) (m : JSMap.t V) :
  JSMap.has k m = true -> JSMap.has k (JSMap.set k' v m) = true.
Proof.
  intros H. destruct (String.eqb k' k) eqn:E.
  - apply String.eqb_eq in E. subst. apply has_set_eq.
  - apply String.eqb_neq in E. unfold JSMap.has in *.
    rewrite (get_set_ne k' k v m E). exact H.
Qed.

Lemma registerEndpoint_mono acc endpoint k :
  JSMap.has k acc = true -> JSMap.has k (registerEndpoint acc endpoint) = true.
Proof.
  intros H. unfold registerEndpoint.
  destruct (Str.split ":" endpoint) as [|name [|url rest]]; try exact H.
  destruct (Str.truthy name && Str.truthy url); [|exact H].
  apply has_set_mono. exact H.
Qed.

Lemma registerAll_mono endpoints : forall acc k,
  JSMap.has k acc = true ->
  JSMap.has k (fold_left registerEndpoint endpoints acc) = true.
Proof.
  induction endpoints as [|e endpoints IH]; intros acc k H; cbn; [exact H|].
  apply IH. apply registerEndpoint_mono. exact H.
Qed.

Lemma truthy_nonempty (s : string) : s <> "" -> Str.truthy s = true.
Proof. destruct s; [congruence|reflexivity]. Qed.

Lemma registerAll_registers endpoints : forall acc endpoint name url rest,
  In endpoint endpoints ->
  Str.split ":" endpoint = name :: url :: rest ->
  name <> "" -> url <> "" ->
  JSMap.has ("custom_" +:+ name) (fold_left registerEndpoint endpoints acc) = true.
Proof.
  induction endpoints as [|e endpoints IH]; intros acc endpoint name url rest Hin Hs Hn Hu;
    [destruct Hin|].
  cbn [fold_left]. destruct Hin as [->|Hin].
  - apply registerAll_mono. unfold registerEndpoint. rewrite Hs.
    rewrite (truthy_nonempty name Hn), (truthy_nonempty url Hu). cbn [andb].
    apply has_set_eq.
  - eapply IH; eassumption.
Qed.

Lemma initializeCustomEndpoints_fold env acc customs :
  CUSTOM_LLM_ENDPOINTS env = Some customs ->
  customs <> "" ->
  initializeCustomEndpoints env acc =
    fold_left registerEndpoint (Str.split "," customs) acc.
Proof.
  intros H Hne. unfold initializeCustomEndpoints. rewrite H.
  rewrite (truthy_nonempty customs Hne). reflexivity.
Qed.

Lemma split_of_empty (sep : ascii) : Str.split sep "" = [""].
Proof. reflexivity. Qed.

Lemma custom_endpoint_available env customs endpoint name url rest :
  CUSTOM_LLM_ENDPOINTS env = Some customs ->
  In endpoint (Str.split "," customs) ->
  Str.split ":" endpoint = name :: url :: rest ->
  name <> "" -> url <> "" ->
  JSMap.has ("custom_" +:+ name) (initializeProviders env) = true.
Proof.
  intros Hc Hin Hs Hn Hu.
  assert (Hne : customs <> "").
  { intros ->. cbn in Hin. destruct Hin as [<-|[]]. cbn in Hs. discriminate Hs. }
  unfold initializeProviders.
  rewrite (initializeCustomEndpoints_fold env _ customs Hc Hne).
  eapply registerAll_registers; eassumption.
Qed.

Lemma custom_name_not_profiled name :
  JSMap.get ("custom_" +:+ name) initializeProviderConfigs = None.
Proof. reflexivity. Qed.

Lemma profiled_not_custom p c :
  JSMap.get p initializeProviderConfigs = Some c ->
  Str.startsWith p "custom_" = false.
Proof.
  intros H. apply initial_config_cases in H.
  destruct H as [[-> _]|[[-> _]|[[-> _]|[-> _]]]]; reflexivity.
Qed.

Lemma custom_key_chars name :
  "custom_" +:+ name =
  String "c" (String "u" (String "s" (String "t" (String "o" (String "m" (String "_" name)))))).
Proof. reflexivity. Qed.

Lemma dispatch_custom net env inst request name model :
  dispatchAdapter net env inst request ("custom_" +:+ name) model =
    processCustomRequest net env inst request model.
Proof.
  unfold dispatchAdapter, Str.startsWith. rewrite custom_key_chars.
  cbn. destruct name; reflexivity.
Qed.

(** C10. A backend registered from the comma-separated list of custom
    endpoints is available and an explicit dispatch to it runs the custom
    adapter, but the router never names it: neither the chosen pair nor an
    alternative belongs to a backend without a profile. *)
Theorem C10_custom_backends_never_routed env m :
  providers m = initializeProviders env ->
  providerConfigs m = initializeProviderConfigs ->
  (forall customs endpoint name url rest,
     CUSTOM_LLM_ENDPOINTS env = Some customs ->
     In endpoint (Str.split "," customs) ->
     Str.split ":" endpoint = name :: url :: rest ->
     name <> "" -> url <> "" ->
     isProviderAvailable m ("custom_" +:+ name) = true /\
     JSMap.get ("custom_" +:+ name) (providerConfigs m) = None /\
     forall net request model clock,
     exists inst,
       JSMap.get ("custom_" +:+ name) (providers m) = Some inst /\
       executeRequest net env m request ("custom_" +:+ name) model clock =
         (await reply := processCustomRequest net env inst request model in
          Ok (buildResponse m request ("custom_" +:+ name) model reply clock))) /\
  (forall request d,
     smartRouting m request = Ok d ->
     Str.startsWith (selectedProvider d) "custom_" = false /\
     forall a, In a (alternatives d) -> Str.startsWith (sc_provider a) "custom_" = false).
Proof.
  intros Hp Hc. split.
  - intros customs endpoint name url rest Hcustoms Hin Hsplit Hn Hu.
    assert (Havail : isProviderAvailable m ("custom_" +:+ name) = true).
    { unfold isProviderAvailable. rewrite Hp.
      eapply custom_endpoint_available; eassumption. }
    split; [exact Havail|].
    split; [rewrite Hc; apply custom_name_not_profiled|].
    intros net request model clock.
    apply has_get in Havail as [inst Hinst].
    exists inst. split; [exact Hinst|].
    unfold executeRequest. rewrite Hinst, dispatch_custom. reflexivity.
  - intros request d Hd.
    apply smartRouting_picks_scored in Hd as [(best & Hbest & Hsel & _) Halt].
    assert (K : forall s, In s (scorePairs m request) ->
                          Str.startsWith (sc_provider s) "custom_" = false).
    { intros s Hs. apply scorePairs_In in Hs as (config & _ & Hconfig & _).
      rewrite Hc in Hconfig. eapply profiled_not_custom. exact Hconfig. }
    split.
    + rewrite Hsel. apply K. exact Hbest.
    + intros a Ha. apply K. apply Halt. exact Ha.
Qed.

Lemma C10_custom_backends_never_routed_witness :
  let env := mixedEnv in
  let m := newLLMProviderManager mixedEnv in
  (forall customs endpoint name url rest,
     CUSTOM_LLM_ENDPOINTS env = Some customs ->
     In endpoint (Str.split "," customs) ->
     Str.split ":" endpoint = name :: url :: rest ->
     name <> "" -> url <> "" ->
     isProviderAvailable m ("custom_" +:+ name) = true /\
     JSMap.get ("custom_" +:+ name) (providerConfigs m) = None /\
     forall net request model clock,
     exists inst,
       JSMap.get ("custom_" +:+ name) (providers m) = Some inst /\
       executeRequest net env m request ("custom_" +:+ name) model clock =
         (await reply := processCustomRequest net env inst request model in
          Ok (buildResponse m request ("custom_" +:+ name) model reply clock))) /\
  (forall request d,
     smartRouting m request = Ok d ->
     Str.startsWith (selectedProvider d) "custom_" = false /\
     forall a, In a (alternatives d) -> Str.startsWith (sc_provider a) "custom_" = false).
Proof.
  intros env m.
  apply (C10_custom_backends_never_routed env m); reflexivity.
Defined.

(** Two custom endpoints next to OpenAI: both are available, a request
    addressed to one is answered by it, and routing picks OpenAI. *)
Example custom_endpoints_in_use :
  let m := newLLMProviderManager mixedEnv in
  JSMap.keys (providers m) = ["openai"; "custom_local"; "custom_lab"] /\
  isProviderAvailable m "custom_lab" = true /\
  isOk (fst (processRequest (answeringNet None) mixedEnv m
               (promptRequest "hi" (Some "custom_lab") (Some "m") noOptions)
               (clockTaking 40))) = true /\
  option_map selectedProvider
    (match smartRouting m (promptRequest "hi" None None noOptions) with
     | Ok d => Some d
     | Throw _ => None
     end) = Some "openai".
Proof. repeat split; vm_compute; reflexivity. Qed.

(** *** Router: scores *)

Lemma costScore_fin (config : LLMProvider) (i o : Qc) :
  pricing config = {| inputTokens := JS.Fin i; outputTokens := JS.Fin o |} ->
  costScore config = JS.Fin (1 - (i + o) / Q2Qc (2 # 10))%Qc.
Proof.
  intros H. unfold costScore. rewrite H. cbn [inputTokens outputTokens].
  unfold JS.ratio. rewrite add_fin, div_fin by discriminate.
  reflexivity.
Qed.

Lemma capabilityScore_fin request config :
  exists q, capabilityScore request config = JS.Fin q.
Proof.
  unfold capabilityScore.
  destruct (hasFiles request && documentAnalysis (capabilities config));
    destruct (Str.includes "code" (req_prompt request) &&
              codeGeneration (capabilities config));
    eexists; reflexivity.
Qed.

Lemma availabilityScore_fin m provider :
  exists q, availabilityScore m provider = JS.Fin q.
Proof.
  unfold availabilityScore. destruct (JSMap.has provider (providers m));
    eexists; reflexivity.
Qed.

Lemma leb_fin (a b : Qc) : (a <= b)%Qc -> JS.leb (JS.Fin a) (JS.Fin b) = true.
Proof.
  intros H. pose proof (proj1 (Qcle_alt a b) H) as H'.
  unfold JS.leb. destruct (Qccompare a b) eqn:E; [reflexivity|reflexivity|].
  exfalso. apply H'. reflexivity.
Qed.

Lemma costScore_antitone (i1 o1 i2 o2 : Qc) :
  (i1 + o1 <= i2 + o2)%Qc ->
  (1 - (i2 + o2) / Q2Qc (2 # 10) <= 1 - (i1 + o1) / Q2Qc (2 # 10))%Qc.
Proof.
  intros H. unfold Qcminus. apply Qcplus_le_compat; [apply Qcle_refl|].
  apply Qcopp_le_compat. unfold Qcdiv.
  apply Qcmult_le_compat_r; [exact H|]. discriminate.
Qed.

Lemma weighted_sum_monotone (z a b w1 p w2 c w3 v w4 : Qc) :
  (0 <= w1)%Qc -> (a <= b)%Qc ->
  (z + a * w1 + p * w2 + c * w3 + v * w4 <= z + b * w1 + p * w2 + c * w3 + v * w4)%Qc.
Proof.
  intros Hw H.
  repeat (apply Qcplus_le_compat; [|apply Qcle_refl]).
  apply Qcplus_le_compat; [apply Qcle_refl|].
  apply Qcmult_le_compat_r; assumption.
Qed.

Lemma score_monotone_in_pricing m request p1 model1 c1 p2 model2 c2 (i1 o1 i2 o2 : Qc) :
  pricing c1 = {| inputTokens := JS.Fin i1; outputTokens := JS.Fin o1 |} ->
  pricing c2 = {| inputTokens := JS.Fin i2; outputTokens := JS.Fin o2 |} ->
  (i1 + o1 <= i2 + o2)%Qc ->
  performanceScore m p1 model1 = performanceScore m p2 model2 ->
  performanceScore m p1 model1 <> JS.NaN ->
  capabilityScore request c1 = capabilityScore request c2 ->
  availabilityScore m p1 = availabilityScore m p2 ->
  JS.leb (scoreOf m request p2 model2 c2) (scoreOf m request p1 model1 c1) = true.
Proof.
  intros H1 H2 Hle Hperf Hnan Hcap Hav.
  unfold scoreOf, calculateProviderScore; cbn [total].
  rewrite (costScore_fin c1 i1 o1 H1), (costScore_fin c2 i2 o2 H2).
  rewrite <- Hperf, <- Hcap, <- Hav.
  destruct (capabilityScore_fin request c1) as [cap ->].
  destruct (availabilityScore_fin m p1) as [av ->].
  destruct (performanceScore m p1 model1) as [pf| | |].
  - unfold JS.ratio, JS.ofZ. cbn [JS.mul JS.add].
    apply leb_fin. apply weighted_sum_monotone; [discriminate|].
    apply costScore_antitone. exact Hle.
  - reflexivity.
  - reflexivity.
  - congruence.
Qed.

Lemma capabilityScore_ext r r' config :
  hasFiles r = hasFiles r' ->
  Str.includes "code" (req_prompt r) = Str.includes "code" (req_prompt r') ->
  capabilityScore r config = capabilityScore r' config.
Proof. intros Hf Hc. unfold capabilityScore. rewrite Hf, Hc. reflexivity. Qed.

Lemma smartRouting_ext m r r' :
  hasFiles r = hasFiles r' ->
  Str.includes "code" (req_prompt r) = Str.includes "code" (req_prompt r') ->
  smartRouting m r = smartRouting m r'.
Proof.
  intros Hf Hc. unfold smartRouting.
  assert (E : scorePairs m r = scorePairs m r').
  { unfold scorePairs. apply flat_map_ext. intros p.
    destruct (JSMap.get p (providerConfigs m)) as [config|]; [|reflexivity].
    apply map_ext. intros model. unfold calculateProviderScore.
    rewrite (capabilityScore_ext r r' config Hf Hc). reflexivity. }
  rewrite E. reflexivity.
Qed.

Lemma probeRequest_agrees r :
  hasFiles r = hasFiles (probeRequest (hasFiles r) (Str.includes "code" (req_prompt r))) /\
  Str.includes "code" (req_prompt r) =
    Str.includes "code"
      (req_prompt (probeRequest (hasFiles r) (Str.includes "code" (req_prompt r)))).
Proof.
  destruct (hasFiles r), (Str.includes "code" (req_prompt r)); split; reflexivity.
Qed.

Lemma free_backend_selected request :
  exists d,
    smartRouting (newLLMProviderManager openaiOllamaEnv) request = Ok d /\
    selectedProvider d = "ollama".
Proof.
  destruct (probeRequest_agrees request) as [Hf Hc].
  rewrite (smartRouting_ext _ _ _ Hf Hc).
  destruct (hasFiles request), (Str.includes "code" (req_prompt request));
    eexists; (split; [vm_compute; reflexivity|reflexivity]).
Qed.

Lemma free_backend_scores_higher request modelA modelB :
  let m := newLLMProviderManager openaiOllamaEnv in
  JS.leb (scoreOf m request "ollama" modelA ollamaConfig)
         (scoreOf m request "openai" modelB openaiConfig) = false.
Proof.
  intros m. unfold scoreOf, calculateProviderScore; cbn [total].
  rewrite (capabilityScore_ext request _ ollamaConfig
             (proj1 (probeRequest_agrees request)) (proj2 (probeRequest_agrees request))).
  rewrite (capabilityScore_ext request _ openaiConfig
             (proj1 (probeRequest_agrees request)) (proj2 (probeRequest_agrees request))).
  destruct (hasFiles request), (Str.includes "code" (req_prompt request));
    vm_compute; reflexivity.
Qed.

Lemma free_outscores_priced m request pA modelA cA pB modelB cB :
  pricing cA = {| inputTokens := JS.ofZ 0; outputTokens := JS.ofZ 0 |} ->
  pricing cB = {| inputTokens := JS.ratio 3 100; outputTokens := JS.ratio 6 100 |} ->
  JSMap.get (statsKey pA modelA) (stats m) = None ->
  JSMap.get (statsKey pB modelB) (stats m) = None ->
  capabilityScore request cA = capabilityScore request cB ->
  availabilityScore m pA = availabilityScore m pB ->
  JS.leb (scoreOf m request pB modelB cB) (scoreOf m request pA modelA cA) = true /\
  JS.leb (scoreOf m request pA modelA cA) (scoreOf m request pB modelB cB) = false.
Proof.
  intros HA HB HsA HsB Hcap Hav.
  unfold scoreOf, calculateProviderScore; cbn [total].
  unfold costScore, performanceScore. rewrite HA, HB, HsA, HsB, <- Hcap, <- Hav.
  unfold capabilityScore, availabilityScore.
  destruct (hasFiles request && documentAnalysis (capabilities cA));
    destruct (Str.includes "code" (req_prompt request) &&
              codeGeneration (capabilities cA));
    destruct (JSMap.has pA (providers m));
    split; vm_compute; reflexivity.
Qed.

(** C5, as the code has it.  Between two scored pairs whose performance,
    capability and availability factors are the same, the one with the
    lower combined price scores at least as high; a backend priced 0/0
    without statistics scores strictly higher than one priced 0.03/0.06
    without statistics when the other factors are equal; and with OpenAI
    and Ollama configured and no statistics yet, routing selects Ollama. *)
Theorem C5_score_monotone_in_pricing :
  (forall m request p1 model1 c1 p2 model2 c2 (i1 o1 i2 o2 : Qc),
     pricing c1 = {| inputTokens := JS.Fin i1; outputTokens := JS.Fin o1 |} ->
     pricing c2 = {| inputTokens := JS.Fin i2; outputTokens := JS.Fin o2 |} ->
     (i1 + o1 <= i2 + o2)%Qc ->
     performanceScore m p1 model1 = performanceScore m p2 model2 ->
     performanceScore m p1 model1 <> JS.NaN ->
     capabilityScore request c1 = capabilityScore request c2 ->
     availabilityScore m p1 = availabilityScore m p2 ->
     JS.leb (scoreOf m request p2 model2 c2) (scoreOf m request p1 model1 c1) = true) /\
  (forall m request pA modelA cA pB modelB cB,
     pricing cA = {| inputTokens := JS.ofZ 0; outputTokens := JS.ofZ 0 |} ->
     pricing cB = {| inputTokens := JS.ratio 3 100; outputTokens := JS.ratio 6 100 |} ->
     JSMap.get (statsKey pA modelA) (stats m) = None ->
     JSMap.get (statsKey pB modelB) (stats m) = None ->
     capabilityScore request cA = capabilityScore request cB ->
     availabilityScore m pA = availabilityScore m pB ->
     JS.leb (scoreOf m request pB modelB cB) (scoreOf m request pA modelA cA) = true /\
     JS.leb (scoreOf m request pA modelA cA) (scoreOf m request pB modelB cB) = false) /\
  (forall request,
     exists d,
       smartRouting (newLLMProviderManager openaiOllamaEnv) request = Ok d /\
       selectedProvider d = "ollama").
Proof.
  split; [|split].
  - exact score_monotone_in_pricing.
  - exact free_outscores_priced.
  - exact free_backend_selected.
Qed.

Lemma C5_score_monotone_in_pricing_witness :
  let m := newLLMProviderManager cloudEnv in
  let request := probeRequest false true in
  JS.leb (scoreOf m request "openai" "gpt-4" openaiConfig)
         (scoreOf m request "groq" "mixtral-8x7b-32768" groqConfig) = true.
Proof.
  intros m request.
  apply (proj1 C5_score_monotone_in_pricing m request
           "groq" "mixtral-8x7b-32768" groqConfig "openai" "gpt-4" openaiConfig
           (Q2Qc (5 # 10000)) (Q2Qc (8 # 10000)) (Q2Qc (3 # 100)) (Q2Qc (6 # 100))).
  - reflexivity.
  - reflexivity.
  - vm_compute. intros H. discriminate H.
  - reflexivity.
  - vm_compute. intros H. discriminate H.
  - reflexivity.
  - reflexivity.
Defined.

(** C5 as stated fails: after one fast OpenAI call, OpenAI and Ollama have
    the same capability and availability factors, Ollama has the lower
    combined price, and OpenAI scores strictly higher and is selected. *)
Lemma C5_pricing_counterexample :
  let m := warmedManager in
  let request := probeRequest false false in
  capabilityScore request ollamaConfig = capabilityScore request openaiConfig /\
  availabilityScore m "ollama" = availabilityScore m "openai" /\
  JS.leb (combinedPrice ollamaConfig) (combinedPrice openaiConfig) = true /\
  JS.eqb (combinedPrice ollamaConfig) (combinedPrice openaiConfig) = false /\
  JS.leb (scoreOf m request "openai" "gpt-4" openaiConfig)
         (scoreOf m request "ollama" "llama2" ollamaConfig) = false /\
  option_map (fun d => (selectedProvider d, selectedModel d))
    (match smartRouting m request with
     | Ok d => Some d
     | Throw _ => None
     end) = Some ("openai", "gpt-4").
Proof. repeat split; vm_compute; reflexivity. Qed.

(** *** Conversation context *)

Lemma kept_is_mostRecent20 (pushed : list ConversationMessage) :
  (if Nat.ltb 20 (length pushed) then sliceLast 20 pushed else pushed) =
  mostRecent20 pushed.
Proof.
  unfold mostRecent20, sliceLast. destruct (Nat.ltb_spec 20 (length pushed)) as [H|H].
  - reflexivity.
  - replace (length pushed - 20)%nat with 0%nat by lia. reflexivity.
Qed.

Lemma mostRecent20_length (history : list ConversationMessage) :
  length (mostRecent20 history) = Nat.min (length history) 20.
Proof. unfold mostRecent20. rewrite length_drop. lia. Qed.

Lemma mostRecent20_push (history : list ConversationMessage) (x : ConversationMessage) :
  mostRecent20 (mostRecent20 history ++ [x]) = mostRecent20 (history ++ [x]).
Proof.
  unfold mostRecent20 at 1 3.
  rewrite !length_app, mostRecent20_length. cbn [length].
  unfold mostRecent20.
  destruct (Nat.le_gt_cases (length history) 20) as [H|H].
  - replace (length history - 20)%nat with 0%nat by lia. cbn [drop].
    replace (Nat.min (length history) 20) with (length history) by lia. reflexivity.
  - replace (Nat.min (length history) 20 + 1 - 20)%nat with 1%nat by lia.
    rewrite drop_app_le by (rewrite length_drop; lia).
    rewrite drop_drop.
    rewrite drop_app_le by lia.
    f_equal. f_equal. lia.
Qed.

Lemma addMessage_stored redis userId channelId message now :
  exists ctx,
    documents (addMessage redis workingLink userId channelId message now)
      !! conversationKey userId channelId = Some ctx /\
    messages ctx =
      mostRecent20
        (match documents redis !! conversationKey userId channelId with
         | Some c => messages c
         | None => []
         end ++ [message]).
Proof.
  unfold addMessage, getContext. cbn [workingLink getWorks setexWorks documents].
  eexists. split; [apply lookup_insert_eq|].
  cbn [messages]. rewrite kept_is_mostRecent20.
  destruct (documents redis !! conversationKey userId channelId); reflexivity.
Qed.

Lemma addMessages_history userId channelId (batch : list (ConversationMessage * Z)) :
  forall redis history ctx,
    documents redis !! conversationKey userId channelId = Some ctx ->
    messages ctx = mostRecent20 history ->
    exists ctx',
      documents (addMessages redis userId channelId batch)
        !! conversationKey userId channelId = Some ctx' /\
      messages ctx' = mostRecent20 (history ++ map fst batch).
Proof.
  induction batch as [|[message now] batch IH]; intros redis history ctx Hget Hmsgs.
  - exists ctx. cbn. rewrite app_nil_r. auto.
  - cbn [addMessages fold_left map fst snd].
    destruct (addMessage_stored redis userId channelId message now) as (c1 & Hc1 & Hm1).
    rewrite Hget, Hmsgs, mostRecent20_push in Hm1.
    destruct (IH _ (history ++ [message]) c1 Hc1 Hm1) as (ctx' & Hget' & Hmsgs').
    exists ctx'. split; [exact Hget'|].
    rewrite Hmsgs', <- app_assoc. reflexivity.
Qed.

Lemma addMessage_capped redis link userId channelId message now :
  capped redis -> capped (addMessage redis link userId channelId message now).
Proof.
  intros Hcap key ctx. unfold addMessage.
  destruct (setexWorks link); [|apply Hcap].
  cbn [documents]. intros H.
  apply lookup_insert_Some in H as [[_ <-]|[_ H]]; [|exact (Hcap key ctx H)].
  cbn [messages]. rewrite kept_is_mostRecent20, mostRecent20_length. lia.
Qed.

Lemma addMessage_bound redis link userId channelId message now ctx :
  setexWorks link = true ->
  documents (addMessage redis link userId channelId message now)
    !! conversationKey userId channelId = Some ctx ->
  (length (messages ctx) <= 20)%nat.
Proof.
  intros Hset. unfold addMessage. rewrite Hset. cbn [documents].
  rewrite lookup_insert_eq. intros H. injection H as <-.
  cbn [messages]. rewrite kept_is_mostRecent20, mostRecent20_length. lia.
Qed.

(** Twenty-five appended messages leave the messages 6 to 25. *)
Example context_after_25 :
  option_map (fun ctx => map msg_content (messages ctx))
    (documents (addMessages emptyRedis "U1" "C1" (numberedBatch 1 25))
       !! conversationKey "U1" "C1") =
  Some (map (fun n => pretty n) (seq 6 20)).
Proof. vm_compute. reflexivity. Qed.

(** *** Comparison mode *)

Lemma updateStats_providers m provider model response l now :
  providers (updateStats m provider model response l now) = providers m /\
  providerConfigs (updateStats m provider model response l now) = providerConfigs m.
Proof. split; reflexivity. Qed.

Lemma processRequest_registry net env m request clock :
  providers (snd (processRequest net env m request clock)) = providers m /\
  providerConfigs (snd (processRequest net env m request clock)) = providerConfigs m.
Proof.
  unfold processRequest.
  destruct (if wantsRouting (req_provider request) then _ else _) as [[provider model]|];
    [|split; reflexivity].
  destruct (executeRequest net env m request provider model clock);
    split; reflexivity.
Qed.







(** *** Router: ranking *)

Lemma sign_sub (a b : Qc) : JS.sign (b + - a)%Qc = Qccompare b a.
Proof.
  unfold JS.sign. destruct (Qccompare b a) eqn:E.
  - apply Qceq_alt in E. subst b. apply Qceq_alt. ring.
  - apply Qclt_alt in E. apply Qclt_alt. apply Qclt_minus_iff.
    apply Qclt_minus_iff in E. replace (0 + - (b + - a))%Qc with (a + - b)%Qc by ring.
    exact E.
  - apply Qcgt_alt in E. apply Qcgt_alt. apply Qclt_minus_iff in E.
    replace (b + - a)%Qc with (b + - a + - 0)%Qc by ring.
    apply Qclt_minus_iff. replace (b + - a + - 0 + - 0)%Qc with (b + - a)%Qc by ring.
    exact E.
Qed.

Lemma leb_fin_iff (a b : Qc) : JS.leb (JS.Fin a) (JS.Fin b) = true <-> (a <= b)%Qc.
Proof.
  split; [|apply leb_fin].
  unfold JS.leb. intros H. apply Qcle_alt. intros E. rewrite E in H. discriminate H.
Qed.

Lemma leb_fin_false_iff (a b : Qc) : JS.leb (JS.Fin a) (JS.Fin b) = false <-> (b < a)%Qc.
Proof.
  split.
  - intros H. apply Qcnot_le_lt. intros Hle. apply leb_fin_iff in Hle. congruence.
  - intros H. destruct (JS.leb (JS.Fin a) (JS.Fin b)) eqn:E; [|reflexivity].
    apply leb_fin_iff in E. exfalso. exact (Qclt_not_le _ _ H E).
Qed.

(** On ordinary scores the comparator is positive exactly when its first
    argument has the strictly lower score. *)
Lemma comparator_positive (x y : Scored) (a b : Qc) :
  score x = JS.Fin a -> score y = JS.Fin b ->
  JS.isPositive (byScoreDesc x y) = negb (JS.leb (score y) (score x)).
Proof.
  intros Hx Hy. unfold byScoreDesc. rewrite Hx, Hy.
  unfold JS.sub, JS.neg. rewrite add_fin. unfold JS.isPositive, JS.leb.
  rewrite sign_sub. destruct (Qccompare b a); reflexivity.
Qed.

Lemma leb_trans (x y z : JS.num) :
  JS.leb x y = true -> JS.leb y z = true -> JS.leb x z = true.
Proof.
  destruct x as [a| | |], y as [b| | |], z as [c| | |]; cbn; try congruence.
  intros H1 H2. apply leb_fin_iff in H1. apply leb_fin_iff in H2.
  apply leb_fin_iff. eapply Qcle_trans; eassumption.
Qed.

Lemma leb_total_fin (a b : Qc) :
  JS.leb (JS.Fin a) (JS.Fin b) = false -> JS.leb (JS.Fin b) (JS.Fin a) = true.
Proof.
  intros H. apply leb_fin_false_iff in H. apply leb_fin_iff. apply Qclt_le_weak. exact H.
Qed.

(** The first element of the sorted list is the leftmost element of
    maximal score. *)
Lemma sort_head (l : list Scored) :
  Forall finiteScore l ->
  forall best rest,
    sort byScoreDesc l = best :: rest ->
    exists before after,
      l = before ++ best :: after /\
      Forall (fun y => JS.leb (score best) (score y) = false) before /\
      Forall (fun y => JS.leb (score y) (score best) = true) after.
Proof.
  induction l as [|x l IH]; intros Hfin best rest; [discriminate|].
  apply Forall_cons_1 in Hfin as [[a Hx] Hfin]. cbn [sort fold_right].
  fold (sort byScoreDesc l).
  destruct (sort byScoreDesc l) as [|b r] eqn:Es.
  - apply sort_nil_iff in Es. subst l. cbn. intros H. injection H as <- <-.
    exists [], []. repeat split; constructor.
  - destruct (IH Hfin b r eq_refl) as (before & after & Hl & Hbefore & Hafter).
    assert (Hb : finiteScore b).
    { rewrite Forall_forall in Hfin. apply Hfin. rewrite Hl.
      apply list_elem_of_In, in_or_app. right. left. reflexivity. }
    destruct Hb as [qb Hb].
    cbn [insertSorted]. rewrite (comparator_positive x b a qb Hx Hb).
    destruct (JS.leb (score b) (score x)) eqn:E; cbn [negb].
    + intros H. injection H as <- <-.
      exists [], l. split; [reflexivity|]. split; [constructor|].
      rewrite Hl. apply Forall_app. split.
      * rewrite Forall_forall in Hbefore. apply Forall_forall. intros y Hy.
        assert (Fy : finiteScore y).
        { rewrite Forall_forall in Hfin. apply Hfin. rewrite Hl.
          apply elem_of_app. left. exact Hy. }
        destruct Fy as [qy Fy]. specialize (Hbefore y Hy).
        rewrite Hb, Fy in Hbefore. apply leb_total_fin in Hbefore.
        rewrite <- Hb, <- Fy in Hbefore.
        eapply leb_trans; eassumption.
      * constructor; [exact E|].
        eapply Forall_impl; [exact Hafter|]. cbn. intros y Hy.
        eapply leb_trans; eassumption.
    + intros H. injection H as <- <-.
      exists (x :: before), after. split; [rewrite Hl; reflexivity|].
      split; [|exact Hafter]. constructor; [|exact Hbefore].
      exact E.
Qed.

(** Linear arithmetic over the rationals behind [Qc]. *)
Ltac qc_lra :=
  unfold Qcle, Qclt, Qcminus, Qcdiv in *;
  cbn [this Qcplus Qcmult Qcopp Qcinv Q2Qc] in *;
  rewrite ?Qred_correct in *;
  unfold inject_Z in *;
  lra.

Lemma get_set_cases {V} (k k' : string) (v entry : V) (m : JSMap.t V) :
  JSMap.get k' (JSMap.set k v m) = Some entry ->
  (k' = k /\ entry = v) \/ (k' <> k /\ JSMap.get k' m = Some entry).
Proof.
  destruct (String.eqb k k') eqn:E.
  - apply String.eqb_eq in E. subst k'. rewrite get_set_eq.
    intros H. injection H as <-. left. auto.
  - apply String.eqb_neq in E. rewrite (get_set_ne k k' v m E).
    intros H. right. split; [congruence|exact H].
Qed.

Lemma ofZ_nonneg (d : Z) : 0 <= d -> (0 <= qc d)%Qc.
Proof.
  intros H. unfold qc, Qcle. cbn [this Q2Qc]. rewrite !Qred_correct.
  unfold Qle. cbn. lia.
Qed.

Lemma two_is_1_plus_1 : qc 2 = (1 + 1)%Qc.
Proof. apply Qc_is_canon. reflexivity. Qed.

Lemma half_nonneg (a b : Qc) : (0 <= a)%Qc -> (0 <= b)%Qc -> (0 <= (a + b) / qc 2)%Qc.
Proof.
  intros Ha Hb. unfold Qcdiv.
  replace 0%Qc with (0 * / qc 2)%Qc by ring.
  apply Qcmult_le_compat_r; [|discriminate].
  replace 0%Qc with (0 + 0)%Qc by ring. apply Qcplus_le_compat; assumption.
Qed.

Lemma updateStats_sane m provider model response (d : Z) now :
  0 <= d -> statsSane m ->
  statsSane (updateStats m provider model response (JS.ofZ d) now).
Proof.
  intros Hd Hsane key entry. unfold updateStats; cbn [stats].
  intros H. apply get_set_cases in H as [[-> ->]|[_ H]]; [|exact (Hsane key entry H)].
  destruct (JSMap.get (statsKey provider model) (stats m)) as [existing|] eqn:E;
    cbn [ps_stats averageLatency].
  - destruct (Hsane _ _ E) as (q & Hq & Hpos). rewrite Hq.
    change (JS.ofZ d) with (JS.Fin (qc d)). change (JS.ofZ 2) with (JS.Fin (qc 2)).
    rewrite add_fin, div_fin by discriminate.
    eexists. split; [reflexivity|]. apply half_nonneg; [exact Hpos|].
    apply ofZ_nonneg. exact Hd.
  - exists (qc d). split; [reflexivity|]. apply ofZ_nonneg. exact Hd.
Qed.

Lemma processRequest_sane net env m request clock :
  forwardClock clock -> statsSane m ->
  statsSane (snd (processRequest net env m request clock)).
Proof.
  intros Hclock Hsane. unfold processRequest.
  destruct (if wantsRouting (req_provider request) then _ else _) as [[provider model]|];
    [|exact Hsane].
  destruct (executeRequest net env m request provider model clock); [|exact Hsane].
  cbn [snd]. apply updateStats_sane; [|exact Hsane].
  unfold forwardClock in Hclock. lia.
Qed.

(** What every reachable manager satisfies. *)
Lemma reachable_invariant env m :
  reachable env m ->
  providers m = initializeProviders env /\
  providerConfigs m = initializeProviderConfigs /\
  statsSane m.
Proof.
  induction 1 as [|net m request clock Hm (Hp & Hc & Hs) Hclock].
  - repeat split. intros key entry H. discriminate H.
  - destruct (processRequest_registry net env m request clock) as [Rp Rc].
    rewrite Rp, Rc. repeat split; try assumption.
    apply processRequest_sane; assumption.
Qed.

Lemma insertSorted_Permutation cmp (x : Scored) (l : list Scored) :
  insertSorted cmp x l ≡ₚ x :: l.
Proof.
  induction l as [|y l IH]; cbn; [reflexivity|].
  destruct (JS.isPositive (cmp x y)); [|reflexivity].
  rewrite IH. apply Permutation_swap.
Qed.

Lemma sort_Permutation cmp (l : list Scored) : sort cmp l ≡ₚ l.
Proof.
  induction l as [|x l IH]; cbn; [reflexivity|].
  rewrite insertSorted_Permutation. apply Permutation_skip. exact IH.
Qed.

Lemma sort_length cmp (l : list Scored) : length (sort cmp l) = length l.
Proof. apply Permutation_length, sort_Permutation. Qed.

Lemma insertSorted_descending (x : Scored) (l : list Scored) :
  finiteScore x -> Forall finiteScore l ->
  descending l -> descending (insertSorted byScoreDesc x l).
Proof.
  intros [a Hx]. induction l as [|y l IH]; intros Hfin Hd; cbn.
  - split; [constructor|exact I].
  - apply Forall_cons_1 in Hfin as [[b Hy] Hfin]. destruct Hd as [Hy_max Hd].
    rewrite (comparator_positive x y a b Hx Hy).
    destruct (JS.leb (score y) (score x)) eqn:E; cbn [negb descending].
    + split; [|split; assumption]. constructor; [exact E|].
      eapply Forall_impl; [exact Hy_max|]. cbn. intros z Hz.
      eapply leb_trans; eassumption.
    + split; [|apply IH; assumption].
      rewrite (insertSorted_Permutation byScoreDesc x l). constructor; [|exact Hy_max].
      rewrite Hx, Hy in *. apply leb_total_fin. exact E.
Qed.

Lemma sort_descending (l : list Scored) :
  Forall finiteScore l -> descending (sort byScoreDesc l).
Proof.
  induction l as [|x l IH]; intros Hfin; cbn; [exact I|].
  apply Forall_cons_1 in Hfin as [Hx Hfin].
  apply insertSorted_descending; [exact Hx| |apply IH; exact Hfin].
  rewrite (sort_Permutation byScoreDesc l). exact Hfin.
Qed.

Lemma descending_take (n : nat) (l : list Scored) :
  descending l -> descending (take n l).
Proof.
  revert n. induction l as [|x l IH]; intros [|n] Hd; cbn; try exact I.
  destruct Hd as [Hx Hd]. split; [|apply IH; exact Hd].
  apply Forall_take. exact Hx.
Qed.

(** *** Router: bounds on the factors *)

Lemma performanceScore_unit m provider model :
  statsSane m -> unitInterval (performanceScore m provider model).
Proof.
  intros Hsane. unfold performanceScore.
  destruct (JSMap.get (statsKey provider model) (stats m)) as [entry|] eqn:E.
  - destruct (Hsane _ _ E) as (q & Hq & Hpos). rewrite Hq.
    change (JS.ofZ 1000) with (JS.Fin (qc 1000)).
    destruct (Qc_eq_dec q 0%Qc) as [->|Hne].
    + exists 1%Qc. split; [reflexivity|]. split; discriminate.
    + rewrite (div_fin _ _ Hne). unfold JS.min, JS.one.
      change (JS.ofZ 1) with (JS.Fin 1%Qc).
      assert (Hx : (0 <= qc 1000 / q)%Qc).
      { unfold Qcle, Qcdiv in *. cbn [this Qcmult Qcinv Q2Qc] in *.
        rewrite !Qred_correct in *.
        apply Qmult_le_0_compat; [discriminate|].
        apply Qinv_le_0_compat. exact Hpos. }
      destruct (JS.leb (JS.Fin (qc 1000 / q)) (JS.Fin 1)) eqn:L.
      * apply leb_fin_iff in L. eexists. split; [reflexivity|]. split; assumption.
      * exists 1%Qc. split; [reflexivity|]. split; discriminate.
  - exists (Q2Qc (5 # 10)). split; [reflexivity|]. split; discriminate.
Qed.

Lemma capabilityScore_unit request config :
  unitInterval (capabilityScore request config).
Proof.
  unfold capabilityScore.
  destruct (hasFiles request && documentAnalysis (capabilities config));
    destruct (Str.includes "code" (req_prompt request) &&
              codeGeneration (capabilities config));
    eexists; (split; [reflexivity|split; discriminate]).
Qed.

Lemma availabilityScore_unit m provider :
  unitInterval (availabilityScore m provider).
Proof.
  unfold availabilityScore. destruct (JSMap.has provider (providers m));
    eexists; (split; [reflexivity|split; discriminate]).
Qed.

Lemma initial_costScore_unit p config :
  JSMap.get p initializeProviderConfigs = Some config ->
  unitInterval (costScore config).
Proof.
  intros H. apply initial_config_cases in H.
  destruct H as [[_ ->]|[[_ ->]|[[_ ->]|[_ ->]]]];
    eexists; (split; [reflexivity|split; discriminate]).
Qed.

(** A weighted sum of four factors between 0 and 1 is between 0 and 1. *)
Lemma score_unit m request provider model config :
  unitInterval (costScore config) ->
  statsSane m ->
  unitInterval (scoreOf m request provider model config).
Proof.
  intros (cs & Hcs & Hcs0 & Hcs1) Hsane.
  destruct (performanceScore_unit m provider model Hsane) as (pf & Hpf & Hpf0 & Hpf1).
  destruct (capabilityScore_unit request config) as (cp & Hcp & Hcp0 & Hcp1).
  destruct (availabilityScore_unit m provider) as (av & Hav & Hav0 & Hav1).
  unfold scoreOf, calculateProviderScore; cbn [total].
  rewrite Hcs, Hpf, Hcp, Hav. unfold JS.ratio, JS.ofZ. cbn [JS.mul JS.add].
  eexists. split; [reflexivity|]. split; qc_lra.
Qed.

Lemma reachable_scores_unit env m request s :
  reachable env m -> In s (scorePairs m request) -> unitInterval (score s).
Proof.
  intros Hreach Hs. apply reachable_invariant in Hreach as (_ & Hc & Hsane).
  apply scorePairs_In in Hs as (config & _ & Hconfig & _ & Hshape).
  rewrite Hshape. cbn [score]. rewrite Hc in Hconfig.
  apply (score_unit m request (sc_provider s) (sc_model s) config);
    [eapply initial_costScore_unit; exact Hconfig|exact Hsane].
Qed.

Lemma reachable_scores_finite env m request :
  reachable env m -> Forall finiteScore (scorePairs m request).
Proof.
  intros Hreach. apply Forall_forall. intros s Hs.
  apply list_elem_of_In in Hs.
  destruct (reachable_scores_unit env m request s Hreach Hs) as (q & Hq & _).
  exists q. exact Hq.
Qed.

Lemma smartRouting_sorted m request d :
  smartRouting m request = Ok d ->
  exists best rest,
    sort byScoreDesc (scorePairs m request) = best :: rest /\
    selectedProvider d = sc_provider best /\
    selectedModel d = sc_model best /\
    reasoning d = sc_reasoning best /\
    confidence d = score best /\
    alternatives d = take 3 rest.
Proof.
  unfold smartRouting.
  destruct (sort byScoreDesc (scorePairs m request)) as [|best rest]; [discriminate|].
  intros H. injection H as <-. exists best, rest. repeat split.
Qed.

(** X1. A routing decision names an available backend that has a profile,
    and a model from that profile; so does each of its alternatives, of
    which there are at most three. *)
Theorem routing_names_available_pairs m request d :
  smartRouting m request = Ok d ->
  (isProviderAvailable m (selectedProvider d) = true /\
   exists config,
     JSMap.get (selectedProvider d) (providerConfigs m) = Some config /\
     In (selectedModel d) (models config)) /\
  (forall a, In a (alternatives d) ->
     isProviderAvailable m (sc_provider a) = true /\
     exists config,
       JSMap.get (sc_provider a) (providerConfigs m) = Some config /\
       In (sc_model a) (models config)) /\
  (length (alternatives d) <= 3)%nat.
Proof.
  intros Hd.
  assert (K : forall s, In s (scorePairs m request) ->
            isProviderAvailable m (sc_provider s) = true /\
            exists config,
              JSMap.get (sc_provider s) (providerConfigs m) = Some config /\
              In (sc_model s) (models config)).
  { intros s Hs. apply scorePairs_In in Hs as (config & Hp & Hc & Hm & _).
    split; [apply has_keys; exact Hp|]. exists config. auto. }
  destruct (smartRouting_picks_scored m request d Hd)
    as [(best & Hbest & Hsel & Hmodel & _) Halt].
  split; [rewrite Hsel, Hmodel; apply K; exact Hbest|].
  split; [intros a Ha; apply K, Halt; exact Ha|].
  destruct (smartRouting_sorted m request d Hd) as (b & rest & _ & _ & _ & _ & _ & ->).
  rewrite length_take. lia.
Qed.

Lemma routing_names_available_pairs_witness :
  exists d,
    smartRouting (newLLMProviderManager mixedEnv) (probeRequest true true) = Ok d /\
    isProviderAvailable (newLLMProviderManager mixedEnv) (selectedProvider d) = true /\
    (length (alternatives d) <= 3)%nat.
Proof.
  destruct (smartRouting (newLLMProviderManager mixedEnv) (probeRequest true true))
    as [d|e] eqn:E; [|vm_compute in E; discriminate E].
  exists d. split; [reflexivity|].
  destruct (routing_names_available_pairs _ _ d E) as ((Havail & _) & _ & Hlen).
  split; assumption.
Defined.

(** X2. In every manager a deployment can reach, the pair the router
    selects is the first pair, in enumeration order, among those of the
    highest score: every pair enumerated before it scores strictly lower,
    and every pair after it scores no higher. *)
Theorem routing_selects_first_maximum env m request d :
  reachable env m ->
  smartRouting m request = Ok d ->
  exists before best after,
    scorePairs m request = before ++ best :: after /\
    selectedProvider d = sc_provider best /\
    selectedModel d = sc_model best /\
    confidence d = score best /\
    Forall (fun y => ltb (score y) (score best) = true) before /\
    Forall (fun y => JS.leb (score y) (score best) = true) after.
Proof.
  intros Hreach Hd.
  pose proof (reachable_scores_finite env m request Hreach) as Hfin.
  destruct (smartRouting_sorted m request d Hd)
    as (best & rest & Hsort & Hsel & Hmodel & _ & Hconf & _).
  destruct (sort_head _ Hfin best rest Hsort) as (before & after & Hl & Hb & Ha).
  exists before, best, after. repeat split; try assumption.
  rewrite Forall_forall in Hb. apply Forall_forall. intros y Hy.
  specialize (Hb y Hy). unfold ltb. rewrite Hb. cbn [negb]. rewrite andb_true_r.
  rewrite Forall_forall in Hfin.
  destruct (Hfin y) as [qy Fy]; [rewrite Hl; apply elem_of_app; left; exact Hy|].
  destruct (Hfin best) as [qb Fb];
    [rewrite Hl; apply elem_of_app; right; left|].
  rewrite Fy, Fb in *. apply leb_total_fin. exact Hb.
Qed.

Lemma servedManager_reachable : reachable openaiOllamaEnv servedManager.
Proof.
  unfold servedManager. apply reachable_step; [apply reachable_start|].
  vm_compute. discriminate.
Qed.

Lemma routing_selects_first_maximum_witness :
  exists d before best after,
    smartRouting servedManager (probeRequest false false) = Ok d /\
    scorePairs servedManager (probeRequest false false) = before ++ best :: after /\
    confidence d = score best /\
    Forall (fun y => ltb (score y) (score best) = true) before /\
    Forall (fun y => JS.leb (score y) (score best) = true) after.
Proof.
  destruct (smartRouting servedManager (probeRequest false false))
    as [d|e] eqn:E; [|vm_compute in E; discriminate E].
  destruct (routing_selects_first_maximum openaiOllamaEnv servedManager _ d
              servedManager_reachable E)
    as (before & best & after & Hl & _ & _ & Hc & Hb & Ha).
  exists d, before, best, after. auto.
Defined.

(** X3. In every reachable manager the decision ranks the scored pairs: the
    chosen pair, then the alternatives, then the pairs left out form a
    rearrangement of the scored pairs in descending order of score, and the
    alternatives are the three next to the chosen pair (or all the others
    when there are fewer). *)
Theorem routing_alternatives_ranked env m request d :
  reachable env m ->
  smartRouting m request = Ok d ->
  exists best others,
    scorePairs m request ≡ₚ best :: alternatives d ++ others /\
    selectedProvider d = sc_provider best /\
    selectedModel d = sc_model best /\
    confidence d = score best /\
    descending (best :: alternatives d ++ others) /\
    length (alternatives d) = Nat.min 3 (length (scorePairs m request) - 1).
Proof.
  intros Hreach Hd.
  pose proof (reachable_scores_finite env m request Hreach) as Hfin.
  destruct (smartRouting_sorted m request d Hd)
    as (best & rest & Hsort & Hsel & Hmodel & _ & Hconf & Halt).
  exists best, (drop 3 rest). rewrite Halt, take_drop.
  split; [rewrite <- Hsort; symmetry; apply sort_Permutation|].
  repeat split; try assumption.
  - pose proof (sort_descending _ Hfin) as Hdesc. rewrite Hsort in Hdesc.
    apply Hdesc.
  - pose proof (sort_descending _ Hfin) as Hdesc. rewrite Hsort in Hdesc.
    apply Hdesc.
  - rewrite length_take. pose proof (sort_length byScoreDesc (scorePairs m request)) as L.
    rewrite Hsort in L. cbn [length] in L. lia.
Qed.

Lemma routing_alternatives_ranked_witness :
  exists d best others,
    smartRouting servedManager (probeRequest false true) = Ok d /\
    scorePairs servedManager (probeRequest false true) ≡ₚ best :: alternatives d ++ others /\
    descending (best :: alternatives d ++ others) /\
    length (alternatives d) = 3%nat.
Proof.
  destruct (smartRouting servedManager (probeRequest false true))
    as [d|e] eqn:E; [|vm_compute in E; discriminate E].
  destruct (routing_alternatives_ranked openaiOllamaEnv servedManager _ d
              servedManager_reachable E)
    as (best & others & Hperm & _ & _ & _ & Hdesc & Hlen).
  exists d, best, others.
  split; [reflexivity|]. split; [exact Hperm|]. split; [exact Hdesc|].
  rewrite Hlen. vm_compute. reflexivity.
Defined.

(** X4. In every manager reached from start-up by dispatches during none
    of which the clock ran backwards (the reading at the end of a request
    is not below the reading at its start), the confidence of a decision
    and the score of each alternative are numbers between 0 and 1.  The
    code does not clamp the measured latency, so the bounds do not hold
    without that premise. *)
Theorem routing_confidence_in_unit_interval env m request d :
  reachable env m ->
  smartRouting m request = Ok d ->
  unitInterval (confidence d) /\
  forall a, In a (alternatives d) -> unitInterval (score a).
Proof.
  intros Hreach Hd.
  destruct (smartRouting_picks_scored m request d Hd)
    as [(best & Hbest & _ & _ & Hconf) Halt].
  split.
  - rewrite Hconf. eapply reachable_scores_unit; eassumption.
  - intros a Ha. eapply reachable_scores_unit; [exact Hreach|]. apply Halt. exact Ha.
Qed.

Lemma routing_confidence_in_unit_interval_witness :
  exists d,
    smartRouting servedManager (probeRequest true true) = Ok d /\
    unitInterval (confidence d).
Proof.
  destruct (smartRouting servedManager (probeRequest true true))
    as [d|e] eqn:E; [|vm_compute in E; discriminate E].
  exists d. split; [reflexivity|].
  exact (proj1 (routing_confidence_in_unit_interval openaiOllamaEnv servedManager _ d
                  servedManager_reachable E)).
Defined.

(** *** Registry *)

Lemma includes_cons (needle : string) (c : ascii) (s : string) :
  Str.includes needle (String c s) =
  String.prefix needle (String c s) || Str.includes needle s.
Proof. reflexivity. Qed.

Lemma includes_colon_cons (c : ascii) (s : string) :
  Str.includes ":" (String c s) = Ascii.eqb c ":" || Str.includes ":" s.
Proof.
  rewrite includes_cons. f_equal.
  change (String.prefix ":" (String c s))
    with (if ascii_dec ":" c then String.prefix "" s else false).
  destruct (ascii_dec ":" c) as [<-|Hne].
  - destruct s; reflexivity.
  - symmetry. apply Ascii.eqb_neq. congruence.
Qed.

Lemma split_parts_have_no_colon (s part : string) :
  In part (Str.split ":" s) -> Str.includes ":" part = false.
Proof.
  revert part. induction s as [|c s IH]; intros part; cbn [Str.split].
  - intros [<-|[]]. reflexivity.
  - destruct (Ascii.eqb c ":") eqn:E.
    + intros [<-|H]; [reflexivity|apply IH; exact H].
    + destruct (Str.split ":" s) as [|h t] eqn:Es.
      * intros [<-|[]]. rewrite includes_colon_cons, E. reflexivity.
      * intros [<-|H]; [|apply IH; right; exact H].
        rewrite includes_colon_cons, E. apply IH. left. reflexivity.
Qed.

Lemma scheme_needs_colon (s : string) :
  Str.includes "://" s = true -> Str.includes ":" s = true.
Proof.
  induction s as [|c s IH]; [discriminate|].
  rewrite includes_cons, includes_colon_cons. intros H.
  apply orb_true_iff in H as [H|H].
  - change (String.prefix "://" (String c s))
      with (if ascii_dec ":" c then String.prefix "//" s else false) in H.
    destruct (ascii_dec ":" c) as [<-|]; [reflexivity|discriminate].
  - rewrite (IH H). apply orb_true_r.
Qed.

Lemma truthy_true_nonempty (s : string) : Str.truthy s = true -> s <> "".
Proof. destruct s; [discriminate|discriminate]. Qed.

Lemma set_keeps_shape (k : string) (v : ProviderInstance) (acc : JSMap.t ProviderInstance) :
  entryShape k v ->
  (forall key inst, JSMap.get key acc = Some inst -> entryShape key inst) ->
  forall key inst, JSMap.get key (JSMap.set k v acc) = Some inst -> entryShape key inst.
Proof.
  intros Hkv Hacc key inst H.
  apply get_set_cases in H as [[-> ->]|[_ H]]; [exact Hkv|exact (Hacc key inst H)].
Qed.

Lemma registerEndpoint_keeps_shape acc endpoint :
  (forall key inst, JSMap.get key acc = Some inst -> entryShape key inst) ->
  forall key inst,
    JSMap.get key (registerEndpoint acc endpoint) = Some inst -> entryShape key inst.
Proof.
  intros Hacc. unfold registerEndpoint.
  destruct (Str.split ":" endpoint) as [|name [|url rest]] eqn:Es; try exact Hacc.
  destruct (Str.truthy name) eqn:Tn; [|exact Hacc].
  destruct (Str.truthy url) eqn:Tu; [|exact Hacc]. cbn [andb].
  assert (Hn : Str.includes ":" name = false)
    by (apply (split_parts_have_no_colon endpoint); rewrite Es; left; reflexivity).
  assert (Hu : Str.includes ":" url = false)
    by (apply (split_parts_have_no_colon endpoint); rewrite Es; right; left; reflexivity).
  destruct (Str.includes "://" url) eqn:Hs.
  { apply scheme_needs_colon in Hs. congruence. }
  apply set_keeps_shape; [|exact Hacc].
  do 4 right. exists name, url.
  repeat split; auto using truthy_true_nonempty.
Qed.

Lemma registerAll_keeps_shape endpoints : forall acc,
  (forall key inst, JSMap.get key acc = Some inst -> entryShape key inst) ->
  forall key inst,
    JSMap.get key (fold_left registerEndpoint endpoints acc) = Some inst ->
    entryShape key inst.
Proof.
  induction endpoints as [|e endpoints IH]; intros acc Hacc; cbn [fold_left];
    [exact Hacc|].
  apply IH. apply registerEndpoint_keeps_shape. exact Hacc.
Qed.

Lemma initializeProviders_shape env key inst :
  JSMap.get key (initializeProviders env) = Some inst -> entryShape key inst.
Proof.
  unfold initializeProviders, initializeCustomEndpoints.
  set (p1 := match OPENAI_API_KEY env with Some k => _ | None => _ end).
  set (p2 := match ANTHROPIC_API_KEY env with Some k => _ | None => _ end).
  set (p3 := match GROQ_API_KEY env with Some k => _ | None => _ end).
  set (p4 := match OLLAMA_BASE_URL env with Some k => _ | None => _ end).
  assert (H1 : forall key inst, JSMap.get key p1 = Some inst -> entryShape key inst).
  { subst p1. destruct (OPENAI_API_KEY env) as [k|]; [|discriminate].
    destruct (Str.truthy k); [|discriminate].
    apply set_keeps_shape; [|discriminate]. left. eauto. }
  assert (H2 : forall key inst, JSMap.get key p2 = Some inst -> entryShape key inst).
  { subst p2. destruct (ANTHROPIC_API_KEY env) as [k|]; [|exact H1].
    destruct (Str.truthy k); [|exact H1].
    apply set_keeps_shape; [|exact H1]. right. left. eauto. }
  assert (H3 : forall key inst, JSMap.get key p3 = Some inst -> entryShape key inst).
  { subst p3. destruct (GROQ_API_KEY env) as [k|]; [|exact H2].
    destruct (Str.truthy k); [|exact H2].
    apply set_keeps_shape; [|exact H2]. do 2 right. left. eauto. }
  assert (H4 : forall key inst, JSMap.get key p4 = Some inst -> entryShape key inst).
  { subst p4. destruct (OLLAMA_BASE_URL env) as [k|]; [|exact H3].
    destruct (Str.truthy k); [|exact H3].
    apply set_keeps_shape; [|exact H3]. do 3 right. left. eauto. }
  revert key inst.
  destruct (CUSTOM_LLM_ENDPOINTS env) as [customs|]; [|exact H4].
  destruct (Str.truthy customs); [|exact H4].
  apply registerAll_keeps_shape. exact H4.
Qed.

Lemma custom_key_starts name : Str.startsWith ("custom_" +:+ name) "custom_" = true.
Proof.
  unfold Str.startsWith. rewrite custom_key_chars. cbn. destruct name; reflexivity.
Qed.

Lemma registerEndpoint_other acc endpoint k :
  Str.startsWith k "custom_" = false ->
  JSMap.get k (registerEndpoint acc endpoint) = JSMap.get k acc.
Proof.
  intros Hk. unfold registerEndpoint.
  destruct (Str.split ":" endpoint) as [|name [|url rest]]; try reflexivity.
  destruct (Str.truthy name && Str.truthy url); [|reflexivity].
  apply get_set_ne. intros <-. rewrite custom_key_starts in Hk. discriminate Hk.
Qed.

Lemma registerAll_other endpoints k : forall acc,
  Str.startsWith k "custom_" = false ->
  JSMap.get k (fold_left registerEndpoint endpoints acc) = JSMap.get k acc.
Proof.
  induction endpoints as [|e endpoints IH]; intros acc Hk; cbn [fold_left];
    [reflexivity|].
  rewrite IH by exact Hk. apply registerEndpoint_other. exact Hk.
Qed.

Lemma initializeCustomEndpoints_other env acc k :
  Str.startsWith k "custom_" = false ->
  JSMap.get k (initializeCustomEndpoints env acc) = JSMap.get k acc.
Proof.
  intros Hk. unfold initializeCustomEndpoints.
  destruct (CUSTOM_LLM_ENDPOINTS env) as [customs|]; [|reflexivity].
  destruct (Str.truthy customs); [|reflexivity].
  apply registerAll_other. exact Hk.
Qed.

Ltac credentials env :=
  unfold isProviderAvailable, JSMap.has, newLLMProviderManager, initializeProviders;
  cbn [providers];
  rewrite initializeCustomEndpoints_other by reflexivity;
  unfold supplied;
  destruct (OPENAI_API_KEY env) as [[|? ?]|];
  destruct (ANTHROPIC_API_KEY env) as [[|? ?]|];
  destruct (GROQ_API_KEY env) as [[|? ?]|];
  destruct (OLLAMA_BASE_URL env) as [[|? ?]|];
  reflexivity.

Lemma builtin_available env :
  isProviderAvailable (newLLMProviderManager env) "openai" = supplied (OPENAI_API_KEY env) /\
  isProviderAvailable (newLLMProviderManager env) "anthropic" =
    supplied (ANTHROPIC_API_KEY env) /\
  isProviderAvailable (newLLMProviderManager env) "groq" = supplied (GROQ_API_KEY env) /\
  isProviderAvailable (newLLMProviderManager env) "ollama" = supplied (OLLAMA_BASE_URL env).
Proof. repeat split; credentials env. Qed.

(** X5. A built-in backend is available exactly when its credential is set
    and not empty, whatever custom endpoints are configured; the detailed
    health report lists the four profiles by display name with that flag,
    and reachable managers keep it. *)
Theorem availability_follows_credentials env m :
  reachable env m ->
  isProviderAvailable m "openai" = supplied (OPENAI_API_KEY env) /\
  isProviderAvailable m "anthropic" = supplied (ANTHROPIC_API_KEY env) /\
  isProviderAvailable m "groq" = supplied (GROQ_API_KEY env) /\
  isProviderAvailable m "ollama" = supplied (OLLAMA_BASE_URL env) /\
  healthProviders m =
    [("OpenAI", supplied (OPENAI_API_KEY env));
     ("Anthropic", supplied (ANTHROPIC_API_KEY env));
     ("Groq", supplied (GROQ_API_KEY env));
     ("Ollama", supplied (OLLAMA_BASE_URL env))].
Proof.
  intros Hreach. apply reachable_invariant in Hreach as (Hp & Hc & _).
  destruct (builtin_available env) as (H1 & H2 & H3 & H4).
  unfold isProviderAvailable in *. cbn [providers newLLMProviderManager] in *.
  rewrite <- Hp in H1, H2, H3, H4.
  repeat (split; [assumption|]).
  unfold healthProviders, getAvailableProviders, isProviderAvailable. rewrite Hc.
  cbn. rewrite H1, H2, H3, H4. reflexivity.
Qed.

Lemma availability_follows_credentials_witness :
  isProviderAvailable servedManager "openai" = true /\
  isProviderAvailable servedManager "anthropic" = false /\
  healthProviders servedManager =
    [("OpenAI", true); ("Anthropic", false); ("Groq", false); ("Ollama", true)].
Proof.
  destruct (availability_follows_credentials openaiOllamaEnv servedManager
              servedManager_reachable) as (H1 & H2 & _ & _ & H5).
  repeat split; assumption.
Defined.

(** X6. Every entry of the registry is a built-in name holding its own kind
    of client or a custom endpoint under a [custom_] name, so the switch on
    the name always reaches the adapter of the stored client. *)
Theorem registry_entries_reach_their_adapter env m key inst :
  reachable env m ->
  JSMap.get key (providers m) = Some inst ->
  entryShape key inst /\
  forall net env' request model,
    dispatchAdapter net env' inst request key model =
      adapterOf net env' inst request model.
Proof.
  intros Hreach Hget. apply reachable_invariant in Hreach as (Hp & _ & _).
  rewrite Hp in Hget. pose proof (initializeProviders_shape env key inst Hget) as Hshape.
  split; [exact Hshape|]. intros net env' request model.
  destruct Hshape as [[-> (k & org & ->)]|[[-> (k & ->)]|[[-> (k & ->)]|[[-> (h & ->)]|
                      (name & url & -> & -> & _)]]]]; try reflexivity.
  apply dispatch_custom.
Qed.

Lemma registry_entries_reach_their_adapter_witness :
  entryShape "custom_lab" (CustomEndpoint "http://10.0.0.5") /\
  forall net env' request model,
    dispatchAdapter net env' (CustomEndpoint "http://10.0.0.5") request "custom_lab" model =
      adapterOf net env' (CustomEndpoint "http://10.0.0.5") request model.
Proof.
  apply (registry_entries_reach_their_adapter mixedEnv (newLLMProviderManager mixedEnv)).
  - apply reachable_start.
  - reflexivity.
Defined.

(** X7. A custom endpoint is registered under a [custom_] name, and its
    address is always [http://] followed by a text that is not empty and
    contains no colon: a scheme or a port written in the configuration
    entry is never part of it. *)
Theorem custom_endpoint_address env m key address :
  reachable env m ->
  JSMap.get key (providers m) = Some (CustomEndpoint address) ->
  exists name url,
    key = "custom_" +:+ name /\
    address = "http://" +:+ url /\
    url <> "" /\
    Str.includes ":" url = false.
Proof.
  intros Hreach Hget. apply reachable_invariant in Hreach as (Hp & _ & _).
  rewrite Hp in Hget. apply initializeProviders_shape in Hget.
  destruct Hget as [[_ (k & org & H)]|[[_ (k & H)]|[[_ (k & H)]|[[_ (h & H)]|
                    (name & url & -> & H & _ & Hu & _ & Hc)]]]]; try discriminate H.
  injection H as ->. exists name, url. auto.
Qed.

Lemma custom_endpoint_address_witness :
  providers (newLLMProviderManager schemeEnv) =
    [("custom_secure", CustomEndpoint "http://https");
     ("custom_local", CustomEndpoint "http://localhost")] /\
  exists name url,
    "custom_secure" = "custom_" +:+ name /\
    "http://https" = "http://" +:+ url /\
    url <> "" /\
    Str.includes ":" url = false.
Proof.
  split; [reflexivity|].
  apply (custom_endpoint_address schemeEnv (newLLMProviderManager schemeEnv)
           "custom_secure" "http://https").
  - apply reachable_start.
  - reflexivity.
Defined.

(** *** Dispatch: failures and bookkeeping *)

Lemma processRequest_ok_inv net env m request clock response :
  fst (processRequest net env m request clock) = Ok response ->
  processRequest net env m request clock =
    (Ok response,
     updateStats m (resp_provider response) (resp_model response) response
       (JS.ofZ (requestEnd clock - requestStart clock)) (statsAt clock)).
Proof.
  unfold processRequest.
  destruct (if wantsRouting (req_provider request) then _ else _) as [[provider model]|];
    [|discriminate].
  destruct (executeRequest net env m request provider model clock) as [r|] eqn:E;
    [|discriminate].
  cbn [fst]. intros H. injection H as ->.
  apply executeRequest_inv in E as (inst & reply & _ & _ & ->). reflexivity.
Qed.

(** X8. A failed dispatch is returned as it is and records nothing: a
    request naming a backend that is not registered fails with "Provider
    ... not available" without any network call, and a failure of the
    named backend's adapter is passed on, whatever other backends are
    available. *)
Theorem dispatch_failure_is_final net env m request clock :
  (forall e, fst (processRequest net env m request clock) = Throw e ->
             snd (processRequest net env m request clock) = m) /\
  (forall p,
     req_provider request = Some p ->
     wantsRouting (Some p) = false ->
     (JSMap.get p (providers m) = None ->
      processRequest net env m request clock =
        (Throw (Error ("Provider " +:+ p +:+ " not available")), m)) /\
     (forall inst e,
        JSMap.get p (providers m) = Some inst ->
        dispatchAdapter net env inst request p (asserted (req_model request)) = Throw e ->
        processRequest net env m request clock = (Throw e, m))).
Proof.
  split.
  - unfold processRequest.
    destruct (if wantsRouting (req_provider request) then _ else _)
      as [[provider model]|]; [|reflexivity].
    destruct (executeRequest net env m request provider model clock);
      [discriminate|reflexivity].
  - intros p Hp Hw. unfold processRequest, executeRequest. rewrite Hp, Hw.
    cbn [asserted]. split.
    + intros ->. reflexivity.
    + intros inst e -> ->. reflexivity.
Qed.

Lemma dispatch_failure_is_final_witness :
  processRequest anthropicDownNet cloudEnv (newLLMProviderManager cloudEnv) briefedRequest
    (clockTaking 90) =
  (Throw (Rejection "503 overloaded"), newLLMProviderManager cloudEnv).
Proof.
  apply (proj2 (dispatch_failure_is_final anthropicDownNet cloudEnv
                  (newLLMProviderManager cloudEnv) briefedRequest (clockTaking 90))
           "anthropic" eq_refl eq_refl) with (inst := AnthropicClient "sk-2");
    reflexivity.
Defined.

Lemma keys_set {V} (k : string) (v : V) (m : JSMap.t V) :
  JSMap.keys (JSMap.set k v m) =
    (if JSMap.has k m then JSMap.keys m else JSMap.keys m ++ [k]).
Proof.
  unfold JSMap.has, JSMap.keys.
  induction m as [|[k' v'] l IH]; cbn; [reflexivity|].
  destruct (String.eqb k k') eqn:E; cbn.
  - apply String.eqb_eq in E. subst k'. reflexivity.
  - rewrite IH. destruct (JSMap.get k l); reflexivity.
Qed.

(** X9. A successful dispatch leaves the registry and the profiles as they
    were and touches the statistics of one key only, the one of the
    backend and model of the response, whose entry then carries the
    instant of the update. *)
Theorem dispatch_success_records_one_key net env m request clock response :
  fst (processRequest net env m request clock) = Ok response ->
  let m' := snd (processRequest net env m request clock) in
  let key := statsKey (resp_provider response) (resp_model response) in
  providers m' = providers m /\
  providerConfigs m' = providerConfigs m /\
  (forall k, k <> key -> JSMap.get k (stats m') = JSMap.get k (stats m)) /\
  (exists entry,
     JSMap.get key (stats m') = Some entry /\
     lastUsed (ps_stats entry) = statsAt clock /\
     totalRequests (ps_stats entry) =
       match JSMap.get key (stats m) with
       | Some old => JS.add (totalRequests (ps_stats old)) JS.one
       | None => JS.ofZ 1
       end) /\
  JSMap.keys (stats m') =
    (if JSMap.has key (stats m) then JSMap.keys (stats m)
     else JSMap.keys (stats m) ++ [key]).
Proof.
  intros H m' key. subst m'. rewrite (processRequest_ok_inv _ _ _ _ _ _ H). cbn [snd].
  fold key. split; [reflexivity|]. split; [reflexivity|]. split; [|split].
  - intros k Hk. unfold updateStats; cbn [stats]. fold key.
    apply get_set_ne. congruence.
  - unfold updateStats; cbn [stats]. fold key. rewrite get_set_eq.
    eexists. split; [reflexivity|].
    destruct (JSMap.get key (stats m)); split; reflexivity.
  - unfold updateStats; cbn [stats]. fold key. apply keys_set.
Qed.

Lemma dispatch_success_records_one_key_witness :
  exists response,
    fst (processRequest (answeringNet (Some (reported 10 20 30))) openaiOllamaEnv
           servedManager (promptRequest "hi" (Some "ollama") (Some "llama2") noOptions) (clockTaking 40)) =
      Ok response /\
    JSMap.keys (stats (snd (processRequest (answeringNet (Some (reported 10 20 30)))
                              openaiOllamaEnv servedManager
                              (promptRequest "hi" (Some "ollama") (Some "llama2") noOptions)
                              (clockTaking 40)))) =
      ["openai:gpt-4"; "ollama:llama2"].
Proof.
  destruct (fst (processRequest (answeringNet (Some (reported 10 20 30)))
                   openaiOllamaEnv servedManager
                   (promptRequest "hi" (Some "ollama") (Some "llama2") noOptions) (clockTaking 40)))
    as [response|e] eqn:E; [|vm_compute in E; discriminate E].
  exists response. split; [reflexivity|].
  destruct (dispatch_success_records_one_key _ _ _ _ _ _ E) as (_ & _ & _ & _ & Hkeys).
  rewrite Hkeys.
  assert (P : resp_provider response = "ollama" /\ resp_model response = "llama2").
  { vm_compute in E. injection E as <-. split; reflexivity. }
  destruct P as [-> ->]. reflexivity.
Defined.

(** *** Adapters: message lists *)

Lemma filter_chatMessages (msgs : list ConversationMessage) :
  List.filter (fun msg => negb (isSystem (cm_role msg))) (map chatMessageOf msgs) =
  map chatMessageOf (List.filter (fun msg => negb (isSystem (msg_role msg))) msgs).
Proof.
  induction msgs as [|msg msgs IH]; cbn; [reflexivity|].
  destruct (isSystem (msg_role msg)); cbn; rewrite IH; reflexivity.
Qed.

(** X10. The message list sent to a backend always ends with the prompt
    as a user turn; the list built for Anthropic is the general list with
    every system-role entry removed, so it carries neither the system
    prompt nor system messages of the context. *)
Theorem message_lists_end_with_prompt request :
  let prompt := {| cm_role := user; cm_content := req_prompt request |} in
  last (buildMessages request) = Some prompt /\
  last (buildAnthropicMessages request) = Some prompt /\
  buildAnthropicMessages request =
    List.filter (fun msg => negb (isSystem (cm_role msg))) (buildMessages request) /\
  Forall (fun msg => cm_role msg <> system) (buildAnthropicMessages request) /\
  (length (buildAnthropicMessages request) <= length (buildMessages request))%nat.
Proof.
  intros prompt.
  assert (E : buildAnthropicMessages request =
              List.filter (fun msg => negb (isSystem (cm_role msg)))
                          (buildMessages request)).
  { unfold buildAnthropicMessages, buildMessages.
    rewrite List.filter_app. cbn [List.filter cm_role isSystem negb]. f_equal.
    destruct (req_context request) as [ctx|].
    - rewrite List.filter_app, filter_chatMessages.
      destruct (systemPrompt (req_options request)) as [sp|]; [|reflexivity].
      destruct (Str.truthy sp); reflexivity.
    - destruct (systemPrompt (req_options request)) as [sp|]; [|reflexivity].
      destruct (Str.truthy sp); reflexivity. }
  split; [unfold buildMessages; apply last_snoc|].
  split; [unfold buildAnthropicMessages; apply last_snoc|].
  split; [exact E|]. split.
  - rewrite E. apply Forall_forall. intros msg Hmsg.
    apply list_elem_of_In, List.filter_In in Hmsg as [_ Hmsg].
    intros Hrole. rewrite Hrole in Hmsg. discriminate Hmsg.
  - rewrite E. apply List.filter_length_le.
Qed.

Example anthropic_drops_system_messages :
  map cm_content (buildMessages briefedRequest) =
    ["You are helpful"; "Hello"; "Be brief"; "Hi"; "And now?"] /\
  map cm_content (buildAnthropicMessages briefedRequest) = ["Hello"; "Hi"; "And now?"] /\
  ap_system (anthropicParams briefedRequest "claude-3-haiku-20240307") =
    Some "You are helpful".
Proof. repeat split. Qed.

(** *** Statistics: the latency estimate *)

Lemma midpoint_within (lo hi a b : Qc) :
  (lo <= a)%Qc -> (a <= hi)%Qc -> (lo <= b)%Qc -> (b <= hi)%Qc ->
  (lo <= (a + b) / qc 2)%Qc /\ ((a + b) / qc 2 <= hi)%Qc.
Proof.
  intros Ha1 Ha2 Hb1 Hb2.
  assert (Hlo : lo = ((lo + lo) / qc 2)%Qc)
    by (rewrite two_is_1_plus_1; field; intros H; discriminate H).
  assert (Hhi : hi = ((hi + hi) / qc 2)%Qc)
    by (rewrite two_is_1_plus_1; field; intros H; discriminate H).
  split.
  - rewrite Hlo at 1. unfold Qcdiv.
    apply Qcmult_le_compat_r; [apply Qcplus_le_compat; assumption|discriminate].
  - rewrite Hhi at 1. unfold Qcdiv.
    apply Qcmult_le_compat_r; [apply Qcplus_le_compat; assumption|discriminate].
Qed.

Lemma runningEstimate_within (lo hi : Qc) (rest : list Call) : forall e : Qc,
  (lo <= e)%Qc -> (e <= hi)%Qc ->
  Forall (latencyWithin lo hi) rest ->
  exists q,
    runningEstimate (JS.Fin e) (map call_latency rest) = JS.Fin q /\
    (lo <= q)%Qc /\ (q <= hi)%Qc.
Proof.
  induction rest as [|c rest IH]; intros e He1 He2 Hall; cbn [map runningEstimate fold_left].
  - exists e. auto.
  - apply Forall_cons_1 in Hall as [(l & Hl & Hl1 & Hl2) Hall]. rewrite Hl.
    change (JS.ofZ 2) with (JS.Fin (qc 2)). rewrite add_fin, div_fin by discriminate.
    destruct (midpoint_within lo hi e l He1 He2 Hl1 Hl2) as [M1 M2].
    apply (IH _ M1 M2 Hall).
Qed.

(** X11. The latency estimate of a key never leaves the range of the
    latencies recorded under it: if every recorded latency lies between
    two bounds, so does the estimate. *)
Theorem latency_estimate_within_samples m provider model (first : Call)
    (rest : list Call) (lo hi : Qc) :
  JSMap.get (statsKey provider model) (stats m) = None ->
  Forall (latencyWithin lo hi) (first :: rest) ->
  exists entry q,
    JSMap.get (statsKey provider model)
      (stats (recordCalls m provider model (first :: rest))) = Some entry /\
    averageLatency (ps_stats entry) = JS.Fin q /\
    (lo <= q)%Qc /\ (q <= hi)%Qc.
Proof.
  intros Hnone Hall. apply Forall_cons_1 in Hall as [(l & Hl & Hl1 & Hl2) Hall].
  pose proof (updateStats_first m provider model (call_response first)
                (call_latency first) (call_at first) Hnone) as Hfirst.
  destruct (recordCalls_from_entry provider model rest _ _ Hfirst)
    as (entry & Hget & Ha & _).
  cbn [ps_stats averageLatency] in Ha. rewrite Hl in Ha.
  destruct (runningEstimate_within lo hi rest l Hl1 Hl2 Hall) as (q & Hq & Hq1 & Hq2).
  exists entry, q. split; [exact Hget|]. split; [congruence|]. auto.
Qed.

Lemma latency_estimate_within_samples_witness :
  exists entry q,
    JSMap.get (statsKey "openai" "gpt-4")
      (stats (recordCalls (newLLMProviderManager cloudEnv) "openai" "gpt-4"
                [callTaking 100; callTaking 200; callTaking 600])) = Some entry /\
    averageLatency (ps_stats entry) = JS.Fin q /\
    (qc 100 <= q)%Qc /\ (q <= qc 600)%Qc.
Proof.
  apply (latency_estimate_within_samples (newLLMProviderManager cloudEnv)
           "openai" "gpt-4" (callTaking 100) [callTaking 200; callTaking 600]).
  - reflexivity.
  - repeat constructor; eexists; (split; [reflexivity|split; discriminate]).
Defined.

(** *** Conversation context: further properties *)

Lemma mostRecent20_last (history : list ConversationMessage) (x : ConversationMessage) :
  last (mostRecent20 (history ++ [x])) = Some x.
Proof.
  unfold mostRecent20. rewrite length_app. cbn [length].
  rewrite drop_app_le by lia. apply last_snoc.
Qed.

(** X12. Over a working database, a message that was appended can be read
    back: the conversation returned ends with it and carries the instant of
    the append, keeps its identity and creation time when it existed
    before, and has the tokens of the message added to its running total;
    after [clearContext] nothing is returned. *)
Theorem appended_message_is_read_back redis userId channelId message now :
  let redis' := addMessage redis workingLink userId channelId message now in
  exists ctx,
    getContext redis' workingLink userId channelId = Some ctx /\
    last (messages ctx) = Some message /\
    lastUpdatedAt ctx = now /\
    match getContext redis workingLink userId channelId with
    | Some old =>
        conversationId ctx = conversationId old /\
        createdAt ctx = createdAt old /\
        ctx_totalTokens ctx = JS.add (ctx_totalTokens old) (tokensOf message)
    | None =>
        conversationId ctx = userId +:+ ":" +:+ channelId /\
        createdAt ctx = now /\
        ctx_totalTokens ctx = JS.add (JS.ofZ 0) (tokensOf message)
    end /\
    getContext (clearContext redis' userId channelId) workingLink userId channelId = None.
Proof.
  intros redis'. subst redis'.
  unfold addMessage, getContext, clearContext.
  cbn [workingLink getWorks setexWorks documents].
  rewrite lookup_insert_eq. eexists. split; [reflexivity|].
  cbn [messages lastUpdatedAt conversationId createdAt ctx_totalTokens].
  rewrite kept_is_mostRecent20, mostRecent20_last.
  split; [reflexivity|]. split; [reflexivity|]. split.
  - destruct (documents redis !! conversationKey userId channelId); repeat split.
  - apply lookup_delete_eq.
Qed.

Lemma context_total_over_batch userId channelId (batch : list (ConversationMessage * Z)) :
  forall redis ctx,
    documents redis !! conversationKey userId channelId = Some ctx ->
    exists ctx',
      documents (addMessages redis userId channelId batch)
        !! conversationKey userId channelId = Some ctx' /\
      ctx_totalTokens ctx' =
        fold_left (fun sum message => JS.add sum (tokensOf message))
                  (map fst batch) (ctx_totalTokens ctx).
Proof.
  induction batch as [|[message now] batch IH]; intros redis ctx Hget.
  - exists ctx. cbn. auto.
  - cbn [addMessages fold_left map fst snd].
    set (r1 := addMessage redis workingLink userId channelId message now).
    assert (H1 : exists c1,
               documents r1 !! conversationKey userId channelId = Some c1 /\
               ctx_totalTokens c1 = JS.add (ctx_totalTokens ctx) (tokensOf message)).
    { subst r1. unfold addMessage, getContext.
      cbn [workingLink getWorks setexWorks documents]. rewrite Hget, lookup_insert_eq.
      eexists. split; reflexivity. }
    destruct H1 as (c1 & Hc1 & Ht1).
    destruct (IH r1 c1 Hc1) as (ctx' & Hget' & Htotal).
    exists ctx'. split; [exact Hget'|]. rewrite Htotal, Ht1. reflexivity.
Qed.

(** X13. The running token total of a conversation counts every message
    ever appended, also those that the cap of 20 has dropped: after a batch
    appended to a fresh conversation over a working database it is the sum
    over the whole batch, while at most 20 messages remain. *)
Theorem context_total_counts_dropped_messages redis userId channelId
    (batch : list (ConversationMessage * Z)) :
  documents redis !! conversationKey userId channelId = None ->
  batch <> [] ->
  exists ctx,
    getContext (addMessages redis userId channelId batch) workingLink userId channelId =
      Some ctx /\
    ctx_totalTokens ctx =
      fold_left (fun sum message => JS.add sum (tokensOf message))
                (map fst batch) (JS.ofZ 0) /\
    length (messages ctx) = Nat.min (length batch) 20.
Proof.
  intros Hnone Hne.
  destruct batch as [|[message now] batch]; [congruence|].
  cbn [addMessages fold_left fst snd map].
  set (r1 := addMessage redis workingLink userId channelId message now).
  assert (H1 : exists c1,
             documents r1 !! conversationKey userId channelId = Some c1 /\
             ctx_totalTokens c1 = JS.add (JS.ofZ 0) (tokensOf message) /\
             messages c1 = mostRecent20 [message]).
  { subst r1. unfold addMessage, getContext.
    cbn [workingLink getWorks setexWorks documents]. rewrite Hnone, lookup_insert_eq.
    eexists. split; [reflexivity|]. split; reflexivity. }
  destruct H1 as (c1 & Hc1 & Ht1 & Hm1).
  destruct (context_total_over_batch userId channelId batch r1 c1 Hc1)
    as (ctx & Hget & Htotal).
  destruct (addMessages_history userId channelId batch r1 [message] c1 Hc1 Hm1)
    as (ctx2 & Hget2 & Hmsgs).
  rewrite Hget in Hget2. injection Hget2 as <-.
  exists ctx. unfold getContext. cbn [workingLink getWorks].
  split; [exact Hget|]. split.
  - rewrite Htotal, Ht1. reflexivity.
  - rewrite Hmsgs, mostRecent20_length, length_app, length_map. cbn [length]. lia.
Qed.

Lemma context_total_counts_dropped_messages_witness :
  exists ctx,
    getContext (addMessages emptyRedis "U1" "C1" (weightedBatch 25)) workingLink "U1" "C1" =
      Some ctx /\
    ctx_totalTokens ctx =
      fold_left (fun sum message => JS.add sum (tokensOf message))
                (map fst (weightedBatch 25)) (JS.ofZ 0) /\
    length (messages ctx) = Nat.min (length (weightedBatch 25)) 20.
Proof.
  apply (context_total_counts_dropped_messages emptyRedis "U1" "C1" (weightedBatch 25)).
  - reflexivity.
  - discriminate.
Defined.

(** Twenty-five messages of 10 tokens each: 20 remain, the total is 250. *)
Example total_after_25 :
  option_map (fun ctx => (length (messages ctx), JS.eqb (ctx_totalTokens ctx) (JS.ofZ 250)))
    (getContext (addMessages emptyRedis "U1" "C1" (weightedBatch 25)) workingLink "U1" "C1") =
  Some (20%nat, true).
Proof. vm_compute. reflexivity. Qed.

(** X14. When the read of an append fails and its write goes through, the
    stored conversation is replaced by a new one holding the appended
    message alone, whatever was stored before; when the write fails, the
    store is left as it was and the message is lost. *)
Theorem append_under_failures redis userId channelId message now :
  (forall getOk,
     addMessage redis {| getWorks := getOk; setexWorks := false |}
       userId channelId message now = redis) /\
  (let redis' := addMessage redis readOutage userId channelId message now in
   getContext redis' workingLink userId channelId =
     Some {| conversationId := userId +:+ ":" +:+ channelId;
             messages := [message];
             summary := None;
             ctx_totalTokens := JS.add (JS.ofZ 0) (tokensOf message);
             createdAt := now;
             lastUpdatedAt := now |}) /\
  (forall batch later,
     let before := addMessages redis userId channelId batch in
     let after := addMessage before readOutage userId channelId message later in
     exists ctx,
       getContext after workingLink userId channelId = Some ctx /\
       messages ctx = [message]).
Proof.
  split; [|split].
  - intros getOk. reflexivity.
  - unfold addMessage, getContext. cbn [readOutage workingLink getWorks setexWorks documents].
    rewrite lookup_insert_eq. reflexivity.
  - intros batch later before after. subst after.
    unfold addMessage, getContext.
    cbn [readOutage workingLink getWorks setexWorks documents].
    rewrite lookup_insert_eq. eexists. split; reflexivity.
Qed.

Example history_lost_on_read_outage :
  option_map (fun ctx => map msg_content (messages ctx))
    (getContext
       (addMessage (addMessages emptyRedis "U1" "C1" (numberedBatch 1 5))
          readOutage "U1" "C1" (numbered 6) 6)
       workingLink "U1" "C1") = Some ["6"].
Proof. vm_compute. reflexivity. Qed.

(** *** Keys *)

Lemma colon_free_cons (c : ascii) (s : string) :
  Str.includes ":" (String c s) = false ->
  c <> ":"%char /\ Str.includes ":" s = false.
Proof.
  rewrite includes_colon_cons. intros H. apply orb_false_iff in H as [H1 H2].
  split; [apply Ascii.eqb_neq; exact H1|exact H2].
Qed.

(** A text without a colon, a colon, and a rest: the parts are determined. *)
Lemma append_nil (s : string) : "" +:+ s = s.
Proof. reflexivity. Qed.

Lemma append_cons (a : ascii) (u s : string) : String a u +:+ s = String a (u +:+ s).
Proof. reflexivity. Qed.

Lemma colon_key_injective (u u' c c' : string) :
  Str.includes ":" u = false -> Str.includes ":" u' = false ->
  u +:+ ":" +:+ c = u' +:+ ":" +:+ c' ->
  u = u' /\ c = c'.
Proof.
  revert u'. induction u as [|a u IH]; intros [|a' u'] Hu Hu';
    repeat (rewrite append_nil || rewrite append_cons); intros H.
  - injection H as ->. auto.
  - apply colon_free_cons in Hu' as [Hne _]. injection H as <- _. congruence.
  - apply colon_free_cons in Hu as [Hne _]. injection H as -> _. congruence.
  - apply colon_free_cons in Hu as [_ Hu].
    apply colon_free_cons in Hu' as [_ Hu'].
    injection H as -> H. destruct (IH u' Hu Hu' H) as [-> ->]. auto.
Qed.

Lemma conversationKey_injective (u u' c c' : string) :
  Str.includes ":" u = false -> Str.includes ":" u' = false ->
  conversationKey u c = conversationKey u' c' -> u = u' /\ c = c'.
Proof.
  intros Hu Hu' H. unfold conversationKey in H.
  change ("conversation:" +:+ u +:+ ":" +:+ c)
    with (String.append "conversation:" (u +:+ ":" +:+ c)) in H.
  change ("conversation:" +:+ u' +:+ ":" +:+ c')
    with (String.append "conversation:" (u' +:+ ":" +:+ c')) in H.
  cbn [String.append] in H. injection H as H.
  apply colon_key_injective; assumption.
Qed.

(** X15. Conversations of users whose identifiers contain no colon are kept
    apart: appending to or clearing one conversation, over any link, does
    not change what is read for another user or another channel. *)
Theorem conversations_are_separate redis link userId channelId message now
    userId' channelId' link' :
  Str.includes ":" userId = false ->
  Str.includes ":" userId' = false ->
  (userId, channelId) <> (userId', channelId') ->
  getContext (addMessage redis link userId channelId message now) link' userId' channelId' =
    getContext redis link' userId' channelId' /\
  getContext (clearContext redis userId channelId) link' userId' channelId' =
    getContext redis link' userId' channelId'.
Proof.
  intros Hu Hu' Hne.
  assert (K : conversationKey userId channelId <> conversationKey userId' channelId').
  { intros E. apply conversationKey_injective in E as [-> ->]; auto. }
  unfold getContext, addMessage, clearContext.
  destruct (getWorks link'); [|auto]. split.
  - destruct (setexWorks link); [|reflexivity]. cbn [documents].
    apply lookup_insert_ne. exact K.
  - cbn [documents]. apply lookup_delete_ne. exact K.
Qed.

Lemma conversations_are_separate_witness :
  getContext (addMessage (addMessages emptyRedis "U2" "C1" (numberedBatch 1 3))
                workingLink "U1" "C1" (numbered 9) 9) workingLink "U2" "C1" =
    getContext (addMessages emptyRedis "U2" "C1" (numberedBatch 1 3)) workingLink "U2" "C1" /\
  getContext (clearContext (addMessages emptyRedis "U2" "C1" (numberedBatch 1 3)) "U1" "C1")
             workingLink "U2" "C1" =
    getContext (addMessages emptyRedis "U2" "C1" (numberedBatch 1 3)) workingLink "U2" "C1".
Proof.
  apply (conversations_are_separate
           (addMessages emptyRedis "U2" "C1" (numberedBatch 1 3))
           workingLink "U1" "C1" (numbered 9) 9 "U2" "C1" workingLink).
  - reflexivity.
  - reflexivity.
  - discriminate.
Defined.

(** With a colon inside an identifier two different pairs share a key. *)
Example conversation_keys_collide :
  conversationKey "a:b" "c" = conversationKey "a" "b:c" /\
  statsKey "a:b" "c" = statsKey "a" "b:c".
Proof. split; reflexivity. Qed.

(** *** User store *)

Lemma create_uniform now : UserStore.uniform now (UserStore.create now).
Proof.
  unfold UserStore.uniform, UserStore.create. cbn. split; [|split].
  - intros key subscription H. apply lookup_insert_Some in H as [[_ <-]|[_ H]].
    + repeat split.
    + rewrite lookup_empty in H. discriminate H.
  - rewrite lookup_insert_eq. eauto.
  - rewrite lookup_insert_eq. eauto.
Qed.

Lemma lookup_uniform now st user team :
  UserStore.uniform now st ->
  UserStore.uniform now (snd (UserStore.getUserSubscription st user team)).
Proof.
  intros (Hall & Hdef & Hcell). unfold UserStore.getUserSubscription.
  destruct (UserStore.subscriptions st !! subscriptionKey user team) eqn:E;
    [exact (conj Hall (conj Hdef Hcell))|].
  destruct (UserStore.subscriptions st !! "default") as [d|] eqn:Ed;
    [|destruct Hdef as [? Hd]; discriminate Hd].
  unfold UserStore.uniform. cbn [snd UserStore.subscriptions UserStore.usageCells].
  split; [|split].
  - intros key subscription H. apply lookup_insert_Some in H as [[_ <-]|[_ H]].
    + cbn. exact (Hall _ _ Ed).
    + exact (Hall _ _ H).
  - destruct (decide (subscriptionKey user team = "default")) as [->|Hne].
    + rewrite lookup_insert_eq. eauto.
    + rewrite lookup_insert_ne by exact Hne. rewrite Ed. eauto.
  - exact Hcell.
Qed.

Lemma update_uniform now st user team requests tokens spent :
  UserStore.uniform now st ->
  UserStore.uniform now (UserStore.updateUsage st user team requests tokens spent).
Proof.
  intros (Hall & Hdef & Hcell). unfold UserStore.updateUsage.
  destruct (UserStore.subscriptions st !! subscriptionKey user team) as [s|] eqn:E;
    [|exact (conj Hall (conj Hdef Hcell))].
  rewrite (insert_id _ _ _ E).
  unfold UserStore.uniform. cbn [UserStore.subscriptions UserStore.usageCells].
  split; [exact Hall|]. split; [exact Hdef|].
  rewrite lookup_alter. destruct Hcell as [u Hu].
  destruct (decide (UserStore.usageAt s = 0%nat)) as [->|Hne].
  - rewrite decide_True by reflexivity. rewrite Hu. cbn. eauto.
  - rewrite decide_False by exact Hne. eauto.
Qed.

Lemma served_uniform now st : UserStore.served now st -> UserStore.uniform now st.
Proof.
  induction 1.
  - apply create_uniform.
  - apply lookup_uniform. assumption.
  - apply update_uniform. assumption.
Qed.

Lemma usageSeen_cell now st user team :
  UserStore.uniform now st ->
  UserStore.usageSeen st user team = UserStore.usageCells st !! 0%nat.
Proof.
  intros (Hall & Hdef & _). unfold UserStore.usageSeen, UserStore.getUserSubscription.
  destruct (UserStore.subscriptions st !! subscriptionKey user team) as [s|] eqn:E.
  - unfold UserStore.usageOf. destruct (Hall _ _ E) as (-> & _). reflexivity.
  - destruct (UserStore.subscriptions st !! "default") as [d|] eqn:Ed;
      [|destruct Hdef as [? Hd]; discriminate Hd].
    unfold UserStore.usageOf. cbn. destruct (Hall _ _ Ed) as (-> & _). reflexivity.
Qed.

(** X16. All subscriptions share the usage object of the default
    subscription: in every store the service can reach, usage recorded for
    one user who has been looked up is added to the usage that every user
    sees, including users looked up for the first time afterwards. *)
Theorem usage_is_charged_to_everyone now st payer payerTeam requests tokens spent
    user team :
  UserStore.served now st ->
  is_Some (UserStore.subscriptions st !! subscriptionKey payer payerTeam) ->
  exists before,
    UserStore.usageSeen st user team = Some before /\
    UserStore.usageSeen
      (UserStore.updateUsage st payer payerTeam requests tokens spent) user team =
      Some (UserStore.charge requests tokens spent before).
Proof.
  intros Hserved [s Hs].
  pose proof (served_uniform now st Hserved) as Hu.
  pose proof (served_uniform now _
                (UserStore.served_update now st payer payerTeam requests tokens spent
                   Hserved)) as Hu'.
  rewrite (usageSeen_cell now st user team Hu).
  rewrite (usageSeen_cell now _ user team Hu').
  destruct Hu as (Hall & _ & [before Hcell]).
  exists before. split; [exact Hcell|].
  unfold UserStore.updateUsage. rewrite Hs. cbn [UserStore.usageCells].
  destruct (Hall _ _ Hs) as (-> & _).
  rewrite lookup_alter, decide_True by reflexivity. rewrite Hcell. reflexivity.
Qed.

Lemma twoUsers_served : UserStore.served 0 twoUsers.
Proof. unfold twoUsers. do 2 apply UserStore.served_lookup. apply UserStore.served_start. Qed.

Lemma usage_is_charged_to_everyone_witness :
  exists before,
    UserStore.usageSeen twoUsers "U2" "T1" = Some before /\
    UserStore.usageSeen
      (UserStore.updateUsage twoUsers "U1" "T1" (JS.ofZ 1) (JS.ofZ 30) (JS.ratio 15 10000))
      "U2" "T1" =
      Some (UserStore.charge (JS.ofZ 1) (JS.ofZ 30) (JS.ratio 15 10000) before).
Proof.
  apply (usage_is_charged_to_everyone 0 twoUsers "U1" "T1" (JS.ofZ 1) (JS.ofZ 30)
           (JS.ratio 15 10000) "U2" "T1" twoUsers_served).
  vm_compute. eauto.
Defined.

(** One request recorded for U1 is seen as one request used by U2 and by
    U3, who is looked up only afterwards. *)
Example charged_to_the_other_user :
  let st := UserStore.updateUsage twoUsers "U1" "T1" (JS.ofZ 1) (JS.ofZ 30)
              (JS.ratio 15 10000) in
  option_map (fun u => JS.eqb (requestsThisMonth u) (JS.ofZ 1))
    (UserStore.usageSeen st "U2" "T1") = Some true /\
  option_map (fun u => JS.eqb (requestsThisMonth u) (JS.ofZ 1))
    (UserStore.usageSeen st "U3" "T9") = Some true.
Proof. split; vm_compute; reflexivity. Qed.

(** X17. In every store the service can reach, a lookup answers for every
    user with a subscription on the default plan (free tier, active, the
    default limits); a second lookup returns the same subscription and
    changes nothing; usage reported for a user who was never looked up is
    dropped. *)
Theorem every_user_is_on_the_default_plan now st user team :
  UserStore.served now st ->
  exists subscription,
    fst (UserStore.getUserSubscription st user team) = Some subscription /\
    UserStore.planLimits subscription = sub_limits (defaultSubscription now) /\
    UserStore.planStatus subscription = active /\
    UserStore.planTier subscription = free /\
    (let st' := snd (UserStore.getUserSubscription st user team) in
     UserStore.getUserSubscription st' user team = (Some subscription, st')) /\
    (UserStore.subscriptions st !! subscriptionKey user team = None ->
     forall requests tokens spent,
       UserStore.updateUsage st user team requests tokens spent = st).
Proof.
  intros Hserved. destruct (served_uniform now st Hserved) as (Hall & Hdef & _).
  unfold UserStore.getUserSubscription at 1 2 3.
  destruct (UserStore.subscriptions st !! subscriptionKey user team) as [s|] eqn:E.
  - exists s. cbn [fst snd]. destruct (Hall _ _ E) as (_ & Hl & Hs & Ht).
    repeat (split; [assumption || reflexivity|]).
    split; [|discriminate].
    unfold UserStore.getUserSubscription. rewrite E. reflexivity.
  - destruct (UserStore.subscriptions st !! "default") as [d|] eqn:Ed;
      [|destruct Hdef as [? Hd]; discriminate Hd].
    destruct (Hall _ _ Ed) as (_ & Hl & Hs & Ht).
    eexists. cbn [fst snd]. split; [reflexivity|].
    cbn [UserStore.planLimits UserStore.planStatus UserStore.planTier].
    repeat (split; [assumption|]). split.
    + unfold UserStore.getUserSubscription. cbn [UserStore.subscriptions].
      rewrite lookup_insert_eq. reflexivity.
    + intros _ requests tokens spent. unfold UserStore.updateUsage. rewrite E.
      reflexivity.
Qed.

Lemma every_user_is_on_the_default_plan_witness :
  exists subscription,
    fst (UserStore.getUserSubscription twoUsers "U3" "T9") = Some subscription /\
    UserStore.planLimits subscription = sub_limits (defaultSubscription 0) /\
    UserStore.planStatus subscription = active.
Proof.
  destruct (every_user_is_on_the_default_plan 0 twoUsers "U3" "T9" twoUsers_served)
    as (subscription & H1 & H2 & H3 & _).
  exists subscription. auto.
Defined.

(** *** Analytics *)

Lemma keepLast_spec {A} (n : nat) (pushed : list A) :
  (if Nat.ltb n (length pushed) then sliceLast n pushed else pushed) = keepLast n pushed.
Proof.
  unfold keepLast, sliceLast. destruct (Nat.ltb_spec n (length pushed)) as [H|H].
  - reflexivity.
  - replace (length pushed - n)%nat with 0%nat by lia. reflexivity.
Qed.

Lemma keepLast_length {A} (n : nat) (l : list A) :
  length (keepLast n l) = Nat.min (length l) n.
Proof. unfold keepLast. rewrite length_drop. lia. Qed.

Lemma keepLast_push {A} (n : nat) (history : list A) (x : A) :
  (0 < n)%nat -> keepLast n (keepLast n history ++ [x]) = keepLast n (history ++ [x]).
Proof.
  intros Hn. unfold keepLast at 1 3.
  rewrite !length_app, keepLast_length. cbn [length]. unfold keepLast.
  destruct (Nat.le_gt_cases (length history) n) as [H|H].
  - replace (length history - n)%nat with 0%nat by lia. cbn [drop].
    replace (Nat.min (length history) n) with (length history) by lia. reflexivity.
  - replace (Nat.min (length history) n + 1 - n)%nat with 1%nat by lia.
    rewrite drop_app_le by (rewrite length_drop; lia).
    rewrite drop_drop. rewrite drop_app_le by lia.
    f_equal. f_equal. lia.
Qed.

Lemma trackAll_keeps_last (batch : list AnalyticsEvent) : forall a history,
  events a = keepLast 1000 history ->
  events (trackAll a batch) = keepLast 1000 (history ++ batch).
Proof.
  induction batch as [|e batch IH]; intros a history Ha.
  - rewrite app_nil_r. exact Ha.
  - change (trackAll a (e :: batch)) with (trackAll (track a e) batch).
    rewrite (IH (track a e) (history ++ [e])).
    + rewrite <- app_assoc. reflexivity.
    + unfold track. cbn [events]. rewrite keepLast_spec, Ha.
      apply keepLast_push. lia.
Qed.

(** X18. The analytics service never holds more than 1000 events: after any
    [track] there are at most 1000, and a service that has tracked a batch
    of events since it started holds exactly the most recent
    min(N, 1000) of them, in order. *)
Theorem analytics_keeps_last_1000 :
  (forall a event, (length (events (track a event)) <= 1000)%nat) /\
  (forall batch : list AnalyticsEvent,
     events (trackAll newAnalyticsService batch) = skipn (length batch - 1000) batch /\
     length (events (trackAll newAnalyticsService batch)) = Nat.min (length batch) 1000 /\
     exists dropped, batch = dropped ++ events (trackAll newAnalyticsService batch)).
Proof.
  split.
  - intros a event. unfold track. cbn [events].
    rewrite keepLast_spec, keepLast_length. lia.
  - intros batch.
    assert (E : events (trackAll newAnalyticsService batch) = keepLast 1000 batch)
      by (apply (trackAll_keeps_last batch newAnalyticsService []); reflexivity).
    rewrite E. split; [reflexivity|]. split; [apply keepLast_length|].
    exists (firstn (length batch - 1000) batch). symmetry. apply firstn_skipn.
Qed.

Example analytics_after_1003 :
  map ev_id (firstn 2 (events (trackAll newAnalyticsService (map sampleEvent (seq 1 1003))))) =
    ["4"; "5"] /\
  length (events (trackAll newAnalyticsService (map sampleEvent (seq 1 1003)))) = 1000%nat.
Proof. split; vm_compute; reflexivity. Qed.

Lemma ofNat_fin (n : nat) : ofNat n = JS.Fin (qc (Z.of_nat n)).
Proof. reflexivity. Qed.

Lemma ratio_in_unit (k n : nat) :
  (k <= n)%nat -> (0 < n)%nat ->
  (0 <= qc (Z.of_nat k) / qc (Z.of_nat n))%Qc /\
  (qc (Z.of_nat k) / qc (Z.of_nat n) <= 1)%Qc.
Proof.
  intros Hk Hn. unfold Qcle, Qcdiv, qc. cbn [this Qcmult Qcinv Q2Qc].
  rewrite !Qred_correct.
  assert (Hpos : (0 < inject_Z (Z.of_nat n))%Q) by (unfold Qlt; cbn; lia).
  split.
  - apply Qle_shift_div_l; [exact Hpos|]. rewrite Qmult_0_l.
    unfold Qle. cbn. lia.
  - apply Qle_shift_div_r; [exact Hpos|]. rewrite Qmult_1_l.
    unfold Qle. cbn. lia.
Qed.

Lemma filter_length_le_all {A} (f : A -> bool) (l : list A) :
  (length (List.filter f l) <= length l)%nat.
Proof. apply List.filter_length_le. Qed.

(** X19. The metrics are well defined for every state of the service: the
    success rate is a number between 0 and 1, and it is 0, not a division
    by zero, when no event is held; the events of the last 24 hours are
    never more than the events held. *)
Theorem metrics_are_well_defined (a : AnalyticsService) (now : Z) :
  unitInterval (metric_successRate (getMetrics a now)) /\
  (events a = [] ->
   metric_successRate (getMetrics a now) = JS.zero /\
   metric_totalCost (getMetrics a now) = JS.ofZ 0 /\
   metric_totalEvents (getMetrics a now) = JS.ofZ 0) /\
  JS.leb (metric_last24h (getMetrics a now)) (metric_totalEvents (getMetrics a now)) = true /\
  (Forall (fun e => ev_success e = true) (events a) -> events a <> [] ->
   metric_successRate (getMetrics a now) = JS.one).
Proof.
  unfold getMetrics; cbn [metric_successRate metric_totalCost metric_totalEvents
                            metric_last24h].
  set (k := length (List.filter ev_success (events a))).
  set (n := length (events a)).
  assert (Hk : (k <= n)%nat) by apply List.filter_length_le.
  assert (Hne : qc (Z.of_nat (Nat.max n 1)) <> 0%Qc)
    by (intros E; apply qc_zero_iff in E; lia).
  split; [|split; [|split]].
  - rewrite !ofNat_fin, (div_fin _ _ Hne).
    destruct (ratio_in_unit k (Nat.max n 1)) as [H0 H1]; [lia|lia|].
    eexists. split; [reflexivity|]. split; assumption.
  - intros E. subst k n. rewrite E. repeat split; reflexivity.
  - rewrite !ofNat_fin. apply leb_fin. unfold Qcle, qc. cbn [this Q2Qc].
    rewrite !Qred_correct. unfold Qle. cbn.
    pose proof (List.filter_length_le
                  (fun e => Z.ltb (now - ev_timestamp e) (24 * 60 * 60 * 1000))
                  (events a)). lia.
  - intros Hall Hnonempty.
    assert (E : List.filter ev_success (events a) = events a).
    { clear -Hall. induction (events a) as [|e l IH]; [reflexivity|].
      apply Forall_cons_1 in Hall as [He Hall]. cbn. rewrite He, (IH Hall). reflexivity. }
    subst k. rewrite E. fold n.
    assert (Hn : (0 < n)%nat) by (subst n; destruct (events a); [congruence|cbn; lia]).
    replace (Nat.max n 1) with n by lia.
    rewrite !ofNat_fin, div_fin by (intros Z0; apply qc_zero_iff in Z0; lia).
    unfold JS.one, JS.ofZ. f_equal. unfold Qcdiv.
    apply Qcmult_inv_r. intros Z0. apply qc_zero_iff in Z0. lia.
Qed.

Lemma metrics_are_well_defined_witness :
  metric_successRate
    (getMetrics (trackAll newAnalyticsService (map sampleEvent (seq 1 3))) 100) = JS.one.
Proof.
  apply (proj2 (proj2 (proj2 (metrics_are_well_defined
           (trackAll newAnalyticsService (map sampleEvent (seq 1 3))) 100)))).
  - repeat constructor.
  - discriminate.
Defined.

(** *** Commands *)

Lemma lookup_again st user team :
  UserStore.getUserSubscription (snd (UserStore.getUserSubscription st user team)) user team =
    (fst (UserStore.getUserSubscription st user team),
     snd (UserStore.getUserSubscription st user team)).
Proof.
  unfold UserStore.getUserSubscription at 2 3 4.
  destruct (UserStore.subscriptions st !! subscriptionKey user team) as [s|] eqn:E.
  - cbn [fst snd]. unfold UserStore.getUserSubscription. rewrite E. reflexivity.
  - destruct (UserStore.subscriptions st !! "default") as [d|] eqn:Ed; cbn [fst snd].
    + unfold UserStore.getUserSubscription. cbn [UserStore.subscriptions].
      rewrite lookup_insert_eq. reflexivity.
    + unfold UserStore.getUserSubscription. rewrite E, Ed. reflexivity.
Qed.

Lemma processRequest_throw_unchanged net env m request clock e m' :
  processRequest net env m request clock = (Throw e, m') -> m' = m.
Proof.
  unfold processRequest.
  destruct (if wantsRouting (req_provider request) then _ else _)
    as [[provider model]|].
  - destruct (executeRequest net env m request provider model clock);
      intros H; inversion H. reflexivity.
  - intros H. inversion H. reflexivity.
Qed.

Lemma compareAll_nothing_valid net env build clock targets : forall m index,
  validResults (fst (compareAll net env m build clock targets index)) = [] ->
  snd (compareAll net env m build clock targets index) = m.
Proof.
  induction targets as [|provider rest IH]; intros m index; cbn [compareAll].
  - reflexivity.
  - destruct (compareOne net env m build clock provider index) as [r m1] eqn:E1.
    destruct (compareAll net env m1 build clock rest (S index)) as [rs m2] eqn:E2.
    cbn [fst snd]. unfold validResults. cbn [omap].
    destruct r as [entry|]; [discriminate|].
    intros Hrest. cbn in Hrest.
    specialize (IH m1 (S index)). rewrite E2 in IH. cbn [fst snd] in IH.
    rewrite (IH Hrest).
    unfold compareOne in E1.
    destruct (negb (isProviderAvailable m provider)); [inversion E1; reflexivity|].
    destruct (processRequest net env m (build provider index) (dispatchClock clock index))
      as [[response|e] m'] eqn:P; [discriminate|].
    inversion E1; subst. eapply processRequest_throw_unchanged. exact P.
Qed.

Lemma withUsers_same hub : CommandProcessor.withUsers hub (hub_users hub) = hub.
Proof. destruct hub. reflexivity. Qed.

Lemma withLLM_same hub : CommandProcessor.withLLM hub (hub_llm hub) = hub.
Proof. destruct hub. reflexivity. Qed.

Lemma dispatchAndRecord_failure numberToString net env hub userId teamId channelId
    request title amb r hub2 :
  CommandProcessor.dispatchAndRecord numberToString net env hub userId teamId channelId
    request title amb = (r, hub2) ->
  unsuccessful r -> hub2 = hub.
Proof.
  unfold CommandProcessor.dispatchAndRecord.
  destruct (processRequest net env (hub_llm hub) request (amb_clock amb))
    as [[response|e] m] eqn:P; intros H; inversion H; subst; cbn.
  - discriminate.
  - intros _. apply processRequest_throw_unchanged in P. subst m. apply withLLM_same.
Qed.

Lemma limited_failure numberToString net env hub userId teamId channelId
    subscription build title amb r hub2 :
  match CommandProcessor.limitOf subscription with
  | Throw e => (Throw e, hub)
  | Ok limit =>
      CommandProcessor.dispatchAndRecord numberToString net env hub userId teamId
        channelId (build limit) title amb
  end = (r, hub2) ->
  unsuccessful r -> hub2 = hub.
Proof.
  destruct (CommandProcessor.limitOf subscription) as [limit|e].
  - apply dispatchAndRecord_failure.
  - intros H _. inversion H. reflexivity.
Qed.

Lemma handler_failure_changes_nothing numberToString net env hub command
    userId teamId channelId amb subscription r hub2 :
  UserStore.getUserSubscription (hub_users hub) userId teamId =
    (subscription, hub_users hub) ->
  CommandProcessor.runHandler numberToString net env hub command userId teamId channelId
    amb = (r, hub2) ->
  unsuccessful r -> hub2 = hub.
Proof.
  intros Hlook.
  unfold CommandProcessor.runHandler.
  destruct (cmd_type command).
  - unfold CommandProcessor.processAskCommand.
    destruct (negb (Str.truthy (Str.trim (cmd_prompt command)))).
    + intros H _. inversion H. reflexivity.
    + rewrite Hlook, withUsers_same. apply limited_failure.
  - unfold CommandProcessor.processCompareCommand.
    destruct (negb (Str.truthy (Str.trim (cmd_prompt command)))).
    + intros H _. inversion H. reflexivity.
    + rewrite Hlook, withUsers_same.
      destruct subscription as [s|]; [|intros H _; inversion H; reflexivity].
      cbv zeta.
      destruct (compareAll net env (hub_llm hub) _ (amb_compare amb) compareProviders 0)
        as [results m'] eqn:C.
      destruct (validResults results) as [|entry valid] eqn:V.
      * intros H _. inversion H.
        match type of C with
        | compareAll _ _ _ ?build _ _ _ = _ =>
            pose proof (compareAll_nothing_valid net env build (amb_compare amb)
                          compareProviders (hub_llm hub) 0) as Hm
        end.
        rewrite C in Hm. cbn [fst snd] in Hm. rewrite (Hm V). apply withLLM_same.
      * intros H Hr. inversion H; subst. cbn in Hr. discriminate Hr.
  - unfold CommandProcessor.processAnalyzeCommand.
    rewrite Hlook, withUsers_same. apply limited_failure.
  - unfold CommandProcessor.processGenerateCommand.
    rewrite Hlook, withUsers_same. apply limited_failure.
  - unfold CommandProcessor.processSummarizeCommand.
    rewrite Hlook, withUsers_same. apply limited_failure.
  - unfold CommandProcessor.processTranslateCommand.
    rewrite Hlook, withUsers_same. cbv zeta.
    destruct (negb (Str.truthy _)).
    + intros H _. inversion H. reflexivity.
    + apply limited_failure.
  - unfold CommandProcessor.processCodeCommand.
    rewrite Hlook, withUsers_same. apply limited_failure.
  - intros H _. inversion H. reflexivity.
Qed.

(** X20. A command that is answered without success leaves no trace: the
    statistics, the conversations, the usage and the analytics are as
    before, whatever the reason (subscription, quota, empty prompt, no
    backend, a failed dispatch); only the subscription entry made by the
    lookup of the user remains. *)
Theorem failed_command_leaves_no_trace numberToString net env hub command
    userId teamId channelId amb :
  success (fst (CommandProcessor.processCommand numberToString net env hub command
                  userId teamId channelId amb)) = false ->
  snd (CommandProcessor.processCommand numberToString net env hub command
         userId teamId channelId amb) =
    CommandProcessor.withUsers hub
      (snd (UserStore.getUserSubscription (hub_users hub) userId teamId)) /\
  UserStore.usageCells
    (snd (UserStore.getUserSubscription (hub_users hub) userId teamId)) =
    UserStore.usageCells (hub_users hub).
Proof.
  intros Hfail. split.
  - revert Hfail. unfold CommandProcessor.processCommand.
    pose proof (lookup_again (hub_users hub) userId teamId) as Hagain.
    destruct (UserStore.getUserSubscription (hub_users hub) userId teamId)
      as [subscription users] eqn:L.
    cbn [fst snd] in *.
    destruct subscription as [s|]; [|reflexivity].
    destruct (UserStore.planStatus s); try reflexivity.
    destruct (UserStore.usageOf users s) as [usage|]; [|reflexivity].
    destruct (JS.leb _ _); [reflexivity|].
    destruct (CommandProcessor.runHandler numberToString net env
                (CommandProcessor.withUsers hub users) command userId teamId channelId amb)
      as [[reply|e] hub2] eqn:R; cbn [fst snd]; intros Hfail.
    + eapply handler_failure_changes_nothing; [|exact R|exact Hfail].
      destruct hub; exact Hagain.
    + eapply handler_failure_changes_nothing; [|exact R|exact I].
      destruct hub; exact Hagain.
  - unfold UserStore.getUserSubscription.
    destruct (UserStore.subscriptions (hub_users hub) !! subscriptionKey userId teamId);
      [reflexivity|].
    destruct (UserStore.subscriptions (hub_users hub) !! "default"); reflexivity.
Qed.

Lemma failed_command_leaves_no_trace_witness :
  let hub := newHub openaiOllamaEnv 0 in
  snd (CommandProcessor.processCommand (JS.toFixed 0) (answeringNet None) openaiOllamaEnv
         hub (plainCommand analyze "the quarterly report") "U1" "T1" "C1" sampleAmbient) =
    CommandProcessor.withUsers hub
      (snd (UserStore.getUserSubscription (hub_users hub) "U1" "T1")) /\
  UserStore.usageCells (snd (UserStore.getUserSubscription (hub_users hub) "U1" "T1")) =
    UserStore.usageCells (hub_users hub).
Proof.
  intros hub.
  apply (failed_command_leaves_no_trace (JS.toFixed 0) (answeringNet None) openaiOllamaEnv
           hub (plainCommand analyze "the quarterly report") "U1" "T1" "C1" sampleAmbient).
  vm_compute. reflexivity.
Defined.

Lemma keepLast_app {A} (n : nat) (l suffix : list A) :
  (length suffix <= n)%nat ->
  keepLast n (l ++ suffix) = keepLast (n - length suffix) l ++ suffix.
Proof.
  intros H. unfold keepLast. rewrite length_app.
  rewrite drop_app_le by lia. f_equal. f_equal. lia.
Qed.

Lemma message_appended redis userId channelId message now :
  exists ctx,
    getContext (addMessage redis workingLink userId channelId message now)
      workingLink userId channelId = Some ctx /\
    messages ctx = mostRecent20 (historyOf redis userId channelId ++ [message]).
Proof.
  unfold historyOf, addMessage, getContext.
  cbn [workingLink getWorks setexWorks documents].
  rewrite lookup_insert_eq. eexists. split; [reflexivity|].
  cbn [messages]. rewrite kept_is_mostRecent20.
  destruct (documents redis !! conversationKey userId channelId); reflexivity.
Qed.

Lemma two_messages_appended redis userId channelId asked askedAt answered answeredAt :
  exists ctx,
    getContext
      (addMessage (addMessage redis workingLink userId channelId asked askedAt)
         workingLink userId channelId answered answeredAt)
      workingLink userId channelId = Some ctx /\
    messages ctx = mostRecent20 (historyOf redis userId channelId ++ [asked; answered]).
Proof.
  destruct (message_appended redis userId channelId asked askedAt) as (c1 & H1 & M1).
  destruct (message_appended (addMessage redis workingLink userId channelId asked askedAt)
              userId channelId answered answeredAt) as (c2 & H2 & M2).
  exists c2. split; [exact H2|].
  rewrite M2. unfold historyOf at 1. rewrite H1, M1.
  change mostRecent20 with (@keepLast ConversationMessage 20).
  rewrite keepLast_push by lia. rewrite <- app_assoc. reflexivity.
Qed.

Lemma limited_success numberToString net env hub userId teamId channelId
    subscription build title amb reply hub2 :
  match CommandProcessor.limitOf subscription with
  | Throw e => (Throw e, hub)
  | Ok limit =>
      CommandProcessor.dispatchAndRecord numberToString net env hub userId teamId
        channelId (build limit) title amb
  end = (Ok reply, hub2) ->
  exists limit response m,
    processRequest net env (hub_llm hub) (build limit) (amb_clock amb) = (Ok response, m) /\
    hub2 = CommandProcessor.updateConversationAndUsage (CommandProcessor.withLLM hub m)
             userId teamId channelId (req_prompt (build limit)) response amb.
Proof.
  destruct (CommandProcessor.limitOf subscription) as [limit|e]; [|discriminate].
  unfold CommandProcessor.dispatchAndRecord.
  destruct (processRequest net env (hub_llm hub) (build limit) (amb_clock amb))
    as [[response|e] m] eqn:P; [|discriminate].
  intros H. inversion H. exists limit, response, m. split; [exact P|reflexivity].
Qed.

Lemma handler_success numberToString net env hub command userId teamId channelId amb
    subscription reply hub2 :
  UserStore.getUserSubscription (hub_users hub) userId teamId =
    (subscription, hub_users hub) ->
  cmd_type command <> compare ->
  CommandProcessor.runHandler numberToString net env hub command userId teamId channelId
    amb = (Ok reply, hub2) ->
  success reply = true ->
  exists request response m,
    processRequest net env (hub_llm hub) request (amb_clock amb) = (Ok response, m) /\
    req_userId request = userId /\ req_teamId request = teamId /\
    req_provider request = backendAsked command /\
    hub2 = CommandProcessor.updateConversationAndUsage (CommandProcessor.withLLM hub m)
             userId teamId channelId (req_prompt request) response amb.
Proof.
  intros Hlook Hcmp.
  unfold CommandProcessor.runHandler, backendAsked.
  destruct (cmd_type command); try congruence.
  - unfold CommandProcessor.processAskCommand.
    destruct (negb (Str.truthy (Str.trim (cmd_prompt command)))).
    + intros H Hs. inversion H; subst. discriminate Hs.
    + rewrite Hlook, withUsers_same. intros H _.
      apply limited_success in H as (limit & response & m & P & ->).
      eexists _, response, m. split; [exact P|]. repeat split.
  - unfold CommandProcessor.processAnalyzeCommand.
    rewrite Hlook, withUsers_same. intros H _.
    apply limited_success in H as (limit & response & m & P & ->).
    eexists _, response, m. split; [exact P|]. repeat split.
  - unfold CommandProcessor.processGenerateCommand.
    rewrite Hlook, withUsers_same. intros H _.
    apply limited_success in H as (limit & response & m & P & ->).
    eexists _, response, m. split; [exact P|]. repeat split.
  - unfold CommandProcessor.processSummarizeCommand.
    rewrite Hlook, withUsers_same. intros H _.
    apply limited_success in H as (limit & response & m & P & ->).
    eexists _, response, m. split; [exact P|]. repeat split.
  - unfold CommandProcessor.processTranslateCommand.
    rewrite Hlook, withUsers_same. cbv zeta.
    destruct (negb (Str.truthy _)).
    + intros H Hs. inversion H; subst. discriminate Hs.
    + intros H _.
      apply limited_success in H as (limit & response & m & P & ->).
      eexists _, response, m. split; [exact P|]. repeat split.
  - unfold CommandProcessor.processCodeCommand.
    rewrite Hlook, withUsers_same. intros H _.
    apply limited_success in H as (limit & response & m & P & ->).
    eexists _, response, m. split; [exact P|]. repeat split.
  - intros H Hs. inversion H; subst. discriminate Hs.
Qed.

Lemma usageSeen_after_update st user team subscription requests tokens spent :
  UserStore.getUserSubscription st user team = (Some subscription, st) ->
  UserStore.usageSeen (UserStore.updateUsage st user team requests tokens spent) user team =
    option_map (UserStore.charge requests tokens spent) (UserStore.usageSeen st user team).
Proof.
  intros Hlook. unfold UserStore.usageSeen at 2. rewrite Hlook.
  assert (UserStore.subscriptions st !! subscriptionKey user team = Some subscription)
    as Hkey.
  { revert Hlook. unfold UserStore.getUserSubscription.
    destruct (UserStore.subscriptions st !! subscriptionKey user team) as [s|] eqn:E.
    - intros H. inversion H. reflexivity.
    - destruct (UserStore.subscriptions st !! "default") as [d|].
      + intros H. inversion H as [[Hs Hst]].
        rewrite <- Hst in E at 1. cbn [UserStore.subscriptions] in E.
        rewrite lookup_insert_eq in E. discriminate E.
      + discriminate. }
  unfold UserStore.usageSeen, UserStore.updateUsage, UserStore.getUserSubscription.
  rewrite Hkey. cbn [UserStore.subscriptions]. rewrite lookup_insert_eq.
  unfold UserStore.usageOf. cbn [UserStore.usageCells].
  rewrite lookup_alter, decide_True by reflexivity.
  destruct (UserStore.usageCells st !! UserStore.usageAt subscription); reflexivity.
Qed.

Lemma usageSeen_lookup st user team :
  UserStore.usageSeen (snd (UserStore.getUserSubscription st user team)) user team =
    UserStore.usageSeen st user team.
Proof.
  unfold UserStore.usageSeen at 1. rewrite lookup_again.
  unfold UserStore.usageSeen.
  destruct (UserStore.getUserSubscription st user team) as [[s|] st']; reflexivity.
Qed.

(** X21. A command other than the comparison that is answered with success
    made exactly one dispatch, for the user and team of the command and to
    the backend the command asks for, and is recorded once in each service: the statistics are those left by the
    dispatch, the usage the user sees grows by one request with the tokens
    and cost of the response, one analytics event carrying that cost is
    appended under the cap of 1000, and, when the database works, the
    conversation gains the prompt as it was sent to the backend and the
    answer, under the cap of 20. *)
Theorem successful_command_is_recorded numberToString net env hub command
    userId teamId channelId amb :
  cmd_type command <> compare ->
  success (fst (CommandProcessor.processCommand numberToString net env hub command
                  userId teamId channelId amb)) = true ->
  let hub' := snd (CommandProcessor.processCommand numberToString net env hub command
                     userId teamId channelId amb) in
  exists request response,
    processRequest net env (hub_llm hub) request (amb_clock amb) =
      (Ok response, hub_llm hub') /\
    req_userId request = userId /\ req_teamId request = teamId /\
    req_provider request = backendAsked command /\
    UserStore.usageSeen (hub_users hub') userId teamId =
      option_map
        (UserStore.charge (JS.ofZ 1) (totalTokens (resp_usage response))
           (cost (resp_usage response)))
        (UserStore.usageSeen (hub_users hub) userId teamId) /\
    (exists event,
       events (hub_analytics hub') =
         keepLast 1000 (events (hub_analytics hub) ++ [event]) /\
       ev_userId event = userId /\ ev_teamId event = teamId /\
       ev_cost event = Some (cost (resp_usage response)) /\
       ev_success event = true) /\
    (amb_userLink amb = workingLink -> amb_assistantLink amb = workingLink ->
     exists ctx asked answered,
       getContext (hub_redis hub') workingLink userId channelId = Some ctx /\
       messages ctx =
         mostRecent20 (historyOf (hub_redis hub) userId channelId ++ [asked; answered]) /\
       msg_role asked = user /\ msg_content asked = req_prompt request /\
       msg_role answered = assistant /\ msg_content answered = resp_content response /\
       msg_tokens answered = Some (totalTokens (resp_usage response))).
Proof.
  intros Hcmp Hok hub'. subst hub'. revert Hok.
  unfold CommandProcessor.processCommand.
  pose proof (lookup_again (hub_users hub) userId teamId) as Hagain.
  pose proof (usageSeen_lookup (hub_users hub) userId teamId) as Hseen.
  destruct (UserStore.getUserSubscription (hub_users hub) userId teamId)
    as [subscription users] eqn:L.
  cbn [fst snd] in *.
  destruct subscription as [s|]; [|discriminate].
  destruct (UserStore.planStatus s); try discriminate.
  destruct (UserStore.usageOf users s) as [usage|]; [|discriminate].
  destruct (JS.leb _ _); [discriminate|].
  destruct (CommandProcessor.runHandler numberToString net env
              (CommandProcessor.withUsers hub users) command userId teamId channelId amb)
    as [[reply|e] hub2] eqn:R; cbn [fst snd]; [|discriminate].
  intros Hok.
  eapply handler_success in R as (request & response & m & P & Hu & Ht & Hp & ->);
    [| destruct hub; exact Hagain | exact Hcmp | exact Hok].
  exists request, response.
  replace (hub_llm (CommandProcessor.withUsers hub users)) with (hub_llm hub) in P
    by (destruct hub; reflexivity).
  unfold CommandProcessor.updateConversationAndUsage.
  cbn [hub_llm hub_users hub_redis hub_analytics CommandProcessor.withLLM].
  replace (hub_users (CommandProcessor.withUsers hub users)) with users
    by (destruct hub; reflexivity).
  replace (hub_redis (CommandProcessor.withUsers hub users)) with (hub_redis hub)
    by (destruct hub; reflexivity).
  replace (hub_analytics (CommandProcessor.withUsers hub users)) with (hub_analytics hub)
    by (destruct hub; reflexivity).
  split; [exact P|]. split; [exact Hu|]. split; [exact Ht|]. split; [exact Hp|].
  split; [|split].
  - rewrite (usageSeen_after_update users userId teamId s) by exact Hagain.
    rewrite Hseen. reflexivity.
  - eexists. split.
    + unfold track. cbn [events]. apply keepLast_spec.
    + repeat split.
  - intros -> ->.
    destruct (two_messages_appended (hub_redis hub) userId channelId
                {| msg_role := user; msg_content := req_prompt request;
                   msg_timestamp := amb_userAt amb; msg_provider := None;
                   msg_model := None; msg_tokens := None |}
                (amb_userAt amb)
                {| msg_role := assistant; msg_content := resp_content response;
                   msg_timestamp := amb_assistantAt amb;
                   msg_provider := Some (resp_provider response);
                   msg_model := Some (resp_model response);
                   msg_tokens := Some (totalTokens (resp_usage response)) |}
                (amb_assistantAt amb)) as (ctx & Hctx & Hmsgs).
    eexists ctx, _, _. split; [exact Hctx|]. split; [exact Hmsgs|]. repeat split.
Qed.

Lemma successful_command_is_recorded_witness :
  let hub := newHub cloudEnv 0 in
  let command := plainCommand ask "What is the capital of France?" in
  let net := answeringNet (Some (reported 10 20 30)) in
  let hub' := snd (CommandProcessor.processCommand (JS.toFixed 0) net cloudEnv hub command
                     "U1" "T1" "C1" sampleAmbient) in
  exists request response,
    processRequest net cloudEnv (hub_llm hub) request (amb_clock sampleAmbient) =
      (Ok response, hub_llm hub') /\
    req_userId request = "U1" /\ req_teamId request = "T1" /\
    UserStore.usageSeen (hub_users hub') "U1" "T1" =
      option_map
        (UserStore.charge (JS.ofZ 1) (totalTokens (resp_usage response))
           (cost (resp_usage response)))
        (UserStore.usageSeen (hub_users hub) "U1" "T1").
Proof.
  intros hub command net hub'.
  destruct (successful_command_is_recorded (JS.toFixed 0) net cloudEnv hub command
              "U1" "T1" "C1" sampleAmbient)
    as (request & response & H1 & H2 & H3 & _ & H4 & _).
  - discriminate.
  - vm_compute. reflexivity.
  - exists request, response. repeat (split; [assumption|]). exact H4.
Defined.

(** One question asked over a new service: the reply, the usage every user
    then sees, and the stored conversation. *)
Example one_question_asked :
  let out := CommandProcessor.processCommand (JS.toFixed 0)
               (answeringNet (Some (reported 10 20 30))) cloudEnv (newHub cloudEnv 0)
               (plainCommand ask "What is the capital of France?")
               "U1" "T1" "C1" sampleAmbient in
  success (fst out) = true /\
  option_map (fun u => JS.eqb (requestsThisMonth u) (JS.ofZ 1))
    (UserStore.usageSeen (hub_users (snd out)) "U2" "T2") = Some true /\
  map msg_content (historyOf (hub_redis (snd out)) "U1" "C1") =
    ["What is the capital of France?"; "hello"] /\
  length (events (hub_analytics (snd out))) = 1%nat.
Proof. repeat split; vm_compute; reflexivity. Qed.

Lemma lookup_some now st user team :
  UserStore.uniform now st ->
  exists subscription,
    fst (UserStore.getUserSubscription st user team) = Some subscription /\
    UserStore.usageAt subscription = 0%nat /\
    UserStore.planLimits subscription = sub_limits (defaultSubscription now) /\
    UserStore.planStatus subscription = active.
Proof.
  intros (Hall & Hdef & _). unfold UserStore.getUserSubscription.
  destruct (UserStore.subscriptions st !! subscriptionKey user team) as [s|] eqn:E.
  - exists s. destruct (Hall _ _ E) as (H1 & H2 & H3 & _). auto.
  - destruct (UserStore.subscriptions st !! "default") as [d|] eqn:Ed;
      [|destruct Hdef as [? Hd]; discriminate Hd].
    destruct (Hall _ _ Ed) as (H1 & H2 & H3 & _).
    eexists. split; [reflexivity|]. auto.
Qed.

Lemma lookup_keeps_cells st user team :
  UserStore.usageCells (snd (UserStore.getUserSubscription st user team)) =
    UserStore.usageCells st.
Proof.
  unfold UserStore.getUserSubscription.
  destruct (UserStore.subscriptions st !! subscriptionKey user team); [reflexivity|].
  destruct (UserStore.subscriptions st !! "default"); reflexivity.
Qed.

(** X22. The monthly quota is one counter for the whole service: in every
    store the service can reach, whether a command of any user is refused
    with the limit message depends only on the usage that any other user
    sees.  Once that usage shows 100 requests every command of every user
    is refused, before any handler runs; below it the command goes to its
    handler. *)
Theorem quota_is_collective numberToString net env now hub command
    userId teamId channelId amb other otherTeam used :
  UserStore.served now (hub_users hub) ->
  UserStore.usageSeen (hub_users hub) other otherTeam = Some used ->
  let hub1 := CommandProcessor.withUsers hub
                (snd (UserStore.getUserSubscription (hub_users hub) userId teamId)) in
  CommandProcessor.processCommand numberToString net env hub command userId teamId
    channelId amb =
    if JS.leb (JS.ofZ 100) (requestsThisMonth used)
    then ({| message := "You've reached your monthly limit of " +:+
                        numberToString (JS.ofZ 100) +:+
                        " requests. Please upgrade your plan.";
             success := false |}, hub1)
    else
      match CommandProcessor.runHandler numberToString net env hub1 command userId teamId
              channelId amb with
      | (Ok reply, hub2) => (reply, hub2)
      | (Throw _, hub2) => (CommandProcessor.failureReply, hub2)
      end.
Proof.
  intros Hserved Hused hub1. subst hub1.
  pose proof (served_uniform now _ Hserved) as Hu.
  rewrite (usageSeen_cell now _ other otherTeam Hu) in Hused.
  destruct (lookup_some now _ userId teamId Hu) as (s & Hs & Hat & Hlim & Hst).
  pose proof (lookup_keeps_cells (hub_users hub) userId teamId) as Hcells.
  unfold CommandProcessor.processCommand.
  destruct (UserStore.getUserSubscription (hub_users hub) userId teamId)
    as [subscription users].
  cbn [fst snd] in *. subst subscription. rewrite Hst.
  replace (UserStore.usageOf users s) with (Some used)
    by (unfold UserStore.usageOf; rewrite Hat, Hcells; symmetry; exact Hused).
  rewrite Hlim. reflexivity.
Qed.

Lemma quota_is_collective_witness :
  let hub :=
    {| hub_llm := newLLMProviderManager cloudEnv;
       hub_redis := {| documents := ∅ |};
       hub_users := UserStore.updateUsage twoUsers "U1" "T1" (JS.ofZ 100) (JS.ofZ 3000)
                      (JS.ratio 15 100);
       hub_analytics := newAnalyticsService |} in
  success
    (fst (CommandProcessor.processCommand (JS.toFixed 0)
            (answeringNet (Some (reported 10 20 30))) cloudEnv hub
            (plainCommand ask "What is the capital of France?")
            "U2" "T1" "C1" sampleAmbient)) = false.
Proof.
  intros hub.
  rewrite (quota_is_collective (JS.toFixed 0) (answeringNet (Some (reported 10 20 30)))
             cloudEnv 0 hub (plainCommand ask "What is the capital of France?")
             "U2" "T1" "C1" sampleAmbient "U1" "T1"
             (UserStore.charge (JS.ofZ 100) (JS.ofZ 3000) (JS.ratio 15 100)
                (sub_usage (defaultSubscription 0)))).
  - vm_compute. reflexivity.
  - apply UserStore.served_update. exact twoUsers_served.
  - vm_compute. reflexivity.
Defined.

(** *** Commands: the translation command *)

Lemma split_not_empty (sep : ascii) (s : string) : Str.split sep s <> [].
Proof.
  destruct s as [|c rest]; cbn; [discriminate|].
  destruct (Ascii.eqb c sep); [discriminate|].
  destruct (Str.split sep rest); discriminate.
Qed.

Lemma concat_cons_char (sep : string) (c : ascii) (h : string) (t : list string) :
  String.concat sep (String c h :: t) = String c (String.concat sep (h :: t)).
Proof. destruct t; reflexivity. Qed.

(** [s.split(sep).join(sep)] is [s]. *)
Lemma split_join (sep : ascii) (s : string) :
  Str.join (String sep "") (Str.split sep s) = s.
Proof.
  unfold Str.join. induction s as [|c rest IH]; [reflexivity|].
  cbn [Str.split]. destruct (Ascii.eqb_spec c sep) as [->|Hne].
  - pose proof (split_not_empty sep rest) as Hne.
    destruct (Str.split sep rest) as [|h t]; [congruence|].
    cbn [String.concat]. cbn [String.concat] in IH. rewrite IH. reflexivity.
  - pose proof (split_not_empty sep rest) as Hs.
    destruct (Str.split sep rest) as [|h t]; [congruence|].
    rewrite concat_cons_char, IH. reflexivity.
Qed.

Lemma includes_char_cons (sep c : ascii) (s : string) :
  Str.includes (String sep "") (String c s) =
    Ascii.eqb c sep || Str.includes (String sep "") s.
Proof.
  cbn [Str.includes].
  change (String.prefix (String sep "") (String c s))
    with (if ascii_dec sep c then String.prefix "" s else false).
  destruct (ascii_dec sep c) as [->|Hne].
  - rewrite Ascii.eqb_refl. destruct s; reflexivity.
  - destruct (Ascii.eqb_spec c sep) as [->|_]; [congruence|reflexivity].
Qed.

Lemma split_at_first (sep : ascii) (word rest : string) :
  Str.includes (String sep "") word = false ->
  Str.split sep (word +:+ String sep rest) = word :: Str.split sep rest.
Proof.
  induction word as [|c word IH]; intros H.
  - rewrite append_nil. cbn [Str.split]. rewrite Ascii.eqb_refl. reflexivity.
  - rewrite includes_char_cons in H. apply orb_false_iff in H as [Hc Hw].
    rewrite append_cons. cbn [Str.split]. rewrite Hc, (IH Hw). reflexivity.
Qed.

Lemma split_one_word (sep : ascii) (word : string) :
  Str.includes (String sep "") word = false -> Str.split sep word = [word].
Proof.
  induction word as [|c word IH]; intros H; [reflexivity|].
  rewrite includes_char_cons in H. apply orb_false_iff in H as [Hc Hw].
  cbn [Str.split]. rewrite Hc, (IH Hw). reflexivity.
Qed.

(** X23. The translation command takes the text up to the first space as
    the target language and everything after it, unchanged, as the text.
    A prompt of one word, or one that ends at its first space, is answered
    with the usage hint and nothing is dispatched; otherwise one request is
    dispatched whose prompt names the language and carries the text as
    typed, without the conversation so far and within the token limit of
    the plan. *)
Theorem translate_splits_at_first_space numberToString net env hub command
    userId teamId channelId amb s :
  fst (UserStore.getUserSubscription (hub_users hub) userId teamId) = Some s ->
  let hub1 := CommandProcessor.withUsers hub
                (snd (UserStore.getUserSubscription (hub_users hub) userId teamId)) in
  let run := CommandProcessor.processTranslateCommand numberToString net env hub command
               userId teamId channelId amb in
  let hint :=
    {| message := "Please specify target language and text. Example: `/ai-translate spanish Hello, how are you?`";
       success := false |} in
  (Str.includes " " (cmd_prompt command) = false -> run = (Ok hint, hub1)) /\
  (forall lang text,
     Str.includes " " lang = false ->
     cmd_prompt command = lang +:+ " " +:+ text ->
     (text = "" -> run = (Ok hint, hub1)) /\
     (text <> "" ->
      exists request,
        run = CommandProcessor.dispatchAndRecord numberToString net env hub1
                userId teamId channelId request (Some "🌐 Translation") amb /\
        req_prompt request =
          "Translate the following text to " +:+ lang +:+ ": " +:+ text /\
        req_context request = None /\
        maxTokens (req_options request) =
          Some (maxTokensPerRequest (UserStore.planLimits s)))).
Proof.
  intros Hs hub1 run hint. subst hub1 run hint.
  unfold CommandProcessor.processTranslateCommand.
  destruct (UserStore.getUserSubscription (hub_users hub) userId teamId)
    as [subscription users].
  cbn [fst snd] in *. subst subscription. split.
  - intros Hword. rewrite (split_one_word " " _ Hword). reflexivity.
  - intros lang text Hlang ->.
    change (" " +:+ text) with (String " " text).
    rewrite (split_at_first " " lang text Hlang).
    cbn [head tail asserted]. rewrite (split_join " " text). split.
    + intros ->. reflexivity.
    + intros Htext. destruct text as [|c text]; [congruence|].
      cbn [Str.truthy negb CommandProcessor.limitOf].
      eexists. split; [reflexivity|]. repeat split.
Qed.

Lemma translate_splits_at_first_space_witness :
  let hub := newHub cloudEnv 0 in
  let hub1 := CommandProcessor.withUsers hub
                (snd (UserStore.getUserSubscription (hub_users hub) "U1" "T1")) in
  exists request,
    CommandProcessor.processTranslateCommand (JS.toFixed 0)
      (answeringNet (Some (reported 10 20 30))) cloudEnv hub
      (plainCommand translate "spanish Hello,  how are you?") "U1" "T1" "C1" sampleAmbient =
      CommandProcessor.dispatchAndRecord (JS.toFixed 0)
        (answeringNet (Some (reported 10 20 30))) cloudEnv hub1
        "U1" "T1" "C1" request (Some "🌐 Translation") sampleAmbient /\
    req_prompt request =
      "Translate the following text to spanish: Hello,  how are you?".
Proof.
  intros hub hub1.
  destruct (UserStore.getUserSubscription (hub_users hub) "U1" "T1") as [[s|] users] eqn:L;
    [|vm_compute in L; discriminate L].
  destruct (proj2 (translate_splits_at_first_space (JS.toFixed 0)
                     (answeringNet (Some (reported 10 20 30))) cloudEnv hub
                     (plainCommand translate "spanish Hello,  how are you?")
                     "U1" "T1" "C1" sampleAmbient s
                     ltac:(rewrite L; reflexivity))
              "spanish" "Hello,  how are you?" eq_refl eq_refl)
    as [_ Hrun].
  destruct Hrun as (request & Hrun & Hprompt & _); [discriminate|].
  exists request. subst hub1. rewrite L in Hrun. cbn [snd] in Hrun.
  split; [exact Hrun|exact Hprompt].
Defined.

(** *** Commands: the backend asked for *)

Lemma processRequest_unavailable net env m request clock backend :
  req_provider request = Some backend ->
  wantsRouting (Some backend) = false ->
  isProviderAvailable m backend = false ->
  processRequest net env m request clock =
    (Throw (Error ("Provider " +:+ backend +:+ " not available")), m).
Proof.
  intros Hp Hw Ha. unfold processRequest, executeRequest. rewrite Hp, Hw.
  cbn [asserted]. unfold isProviderAvailable, JSMap.has in Ha.
  destruct (JSMap.get backend (providers m)); [discriminate Ha|]. reflexivity.
Qed.

(** X24. A command never falls back to another backend.  When the backend
    it asks for is not configured (the backend it names, or Anthropic for
    an analysis or a summary and OpenAI for a generation, a translation or
    a coding task that name none), the command is answered without
    success, whatever other backends are available. *)
Theorem commands_do_not_fall_back numberToString net env hub command
    userId teamId channelId amb backend :
  cmd_type command <> compare ->
  backendAsked command = Some backend ->
  wantsRouting (Some backend) = false ->
  isProviderAvailable (hub_llm hub) backend = false ->
  success (fst (CommandProcessor.processCommand numberToString net env hub command
                  userId teamId channelId amb)) = false.
Proof.
  intros Hcmp Hasked Hw Ha.
  destruct (success (fst (CommandProcessor.processCommand numberToString net env hub
                            command userId teamId channelId amb))) eqn:Hok;
    [exfalso|reflexivity].
  revert Hok. unfold CommandProcessor.processCommand.
  pose proof (lookup_again (hub_users hub) userId teamId) as Hagain.
  destruct (UserStore.getUserSubscription (hub_users hub) userId teamId)
    as [subscription users].
  cbn [fst snd] in *.
  destruct subscription as [s|]; [|discriminate].
  destruct (UserStore.planStatus s); try discriminate.
  destruct (UserStore.usageOf users s) as [usage|]; [|discriminate].
  destruct (JS.leb _ _); [discriminate|].
  destruct (CommandProcessor.runHandler numberToString net env
              (CommandProcessor.withUsers hub users) command userId teamId channelId amb)
    as [[reply|e] hub2] eqn:R; cbn [fst snd]; [|discriminate].
  intros Hok.
  eapply handler_success in R as (request & response & m & P & _ & _ & Hp & _);
    [| destruct hub; exact Hagain | exact Hcmp | exact Hok].
  rewrite Hasked in Hp.
  rewrite (processRequest_unavailable net env _ request (amb_clock amb) backend Hp Hw) in P.
  - discriminate P.
  - destruct hub; exact Ha.
Qed.

Lemma commands_do_not_fall_back_witness :
  success
    (fst (CommandProcessor.processCommand (JS.toFixed 0) (answeringNet None)
            openaiOllamaEnv (newHub openaiOllamaEnv 0)
            (plainCommand summarize "the minutes of the meeting")
            "U1" "T1" "C1" sampleAmbient)) = false.
Proof.
  apply (commands_do_not_fall_back (JS.toFixed 0) (answeringNet None) openaiOllamaEnv
           (newHub openaiOllamaEnv 0) (plainCommand summarize "the minutes of the meeting")
           "U1" "T1" "C1" sampleAmbient "anthropic").
  - discriminate.
  - reflexivity.
  - reflexivity.
  - vm_compute. reflexivity.
Defined.

(** The same question is answered when it is asked without a backend. *)
Example question_is_routed :
  success
    (fst (CommandProcessor.processCommand (JS.toFixed 0) (answeringNet None)
            openaiOllamaEnv (newHub openaiOllamaEnv 0)
            (plainCommand ask "the minutes of the meeting")
            "U1" "T1" "C1" sampleAmbient)) = true.
Proof. vm_compute. reflexivity. Qed.

(** *** Commands: what every command preserves *)

Lemma newHub_steady env now : steady env now (newHub env now).
Proof.
  unfold steady, newHub.
  cbn [hub_llm hub_users hub_redis hub_analytics newAnalyticsService events length].
  split; [apply reachable_start|].
  split; [apply UserStore.served_start|]. split; [|lia].
  intros key ctx H. cbn [documents] in H. rewrite lookup_empty in H. discriminate H.
Qed.

Lemma track_length (a : AnalyticsService) (e : AnalyticsEvent) :
  (length (events (track a e)) <= 1000)%nat.
Proof.
  unfold track. cbn [events]. rewrite keepLast_spec, keepLast_length. lia.
Qed.

Lemma withUsers_steady env now hub user team :
  steady env now hub ->
  steady env now
    (CommandProcessor.withUsers hub
       (snd (UserStore.getUserSubscription (hub_users hub) user team))).
Proof.
  intros (Hl & Hu & Hr & Ha). unfold steady. cbn.
  repeat split; try assumption. apply UserStore.served_lookup. exact Hu.
Qed.

Lemma dispatchAndRecord_steady numberToString net env now hub userId teamId channelId
    request title amb :
  steady env now hub -> forwardClock (amb_clock amb) ->
  steady env now
    (snd (CommandProcessor.dispatchAndRecord numberToString net env hub userId teamId
            channelId request title amb)).
Proof.
  intros (Hl & Hu & Hr & Ha) Hclock. unfold CommandProcessor.dispatchAndRecord.
  pose proof (reachable_step env net _ request _ Hl Hclock) as Hstep.
  destruct (processRequest net env (hub_llm hub) request (amb_clock amb))
    as [[response|e] m]; cbn [snd] in *.
  - unfold steady, CommandProcessor.updateConversationAndUsage. cbn.
    split; [exact Hstep|]. split; [apply UserStore.served_update; exact Hu|].
    split; [do 2 apply addMessage_capped; exact Hr|]. apply track_length.
  - unfold steady. cbn. repeat split; assumption.
Qed.

Lemma limited_steady numberToString net env now hub userId teamId channelId
    subscription build title amb :
  steady env now hub -> forwardClock (amb_clock amb) ->
  steady env now
    (snd match CommandProcessor.limitOf subscription with
         | Throw e => (Throw e, hub)
         | Ok limit =>
             CommandProcessor.dispatchAndRecord numberToString net env hub userId teamId
               channelId (build limit) title amb
         end).
Proof.
  intros Hs Hclock. destruct (CommandProcessor.limitOf subscription) as [limit|e].
  - apply dispatchAndRecord_steady; assumption.
  - exact Hs.
Qed.

Lemma compareAll_reachable net env build clock targets : forall m index,
  (forall i, forwardClock (dispatchClock clock i)) ->
  reachable env m ->
  reachable env (snd (compareAll net env m build clock targets index)).
Proof.
  induction targets as [|provider rest IH]; intros m index Hclock Hm; cbn [compareAll].
  - exact Hm.
  - destruct (compareOne net env m build clock provider index) as [r m1] eqn:E1.
    specialize (IH m1 (S index) Hclock).
    destruct (compareAll net env m1 build clock rest (S index)) as [rs m2].
    cbn [snd] in *. apply IH.
    unfold compareOne in E1.
    destruct (negb (isProviderAvailable m provider)); [inversion E1; subst; exact Hm|].
    pose proof (reachable_step env net m (build provider index) _ Hm (Hclock index))
      as Hstep.
    destruct (processRequest net env m (build provider index) (dispatchClock clock index))
      as [[response|e] m']; inversion E1; subst; exact Hstep.
Qed.

Lemma handler_steady numberToString net env now hub command userId teamId channelId amb :
  steady env now hub -> forwardAmbient amb ->
  steady env now
    (snd (CommandProcessor.runHandler numberToString net env hub command userId teamId
            channelId amb)).
Proof.
  intros Hs [Hclock Hcompare].
  pose proof (withUsers_steady env now hub userId teamId Hs) as Hs1.
  unfold CommandProcessor.runHandler.
  destruct (cmd_type command).
  - unfold CommandProcessor.processAskCommand.
    destruct (negb (Str.truthy (Str.trim (cmd_prompt command)))); [exact Hs|].
    destruct (UserStore.getUserSubscription (hub_users hub) userId teamId)
      as [subscription users].
    apply limited_steady; assumption.
  - unfold CommandProcessor.processCompareCommand.
    destruct (negb (Str.truthy (Str.trim (cmd_prompt command)))); [exact Hs|].
    destruct (UserStore.getUserSubscription (hub_users hub) userId teamId)
      as [subscription users].
    cbn [snd] in Hs1. destruct subscription as [s|]; [|exact Hs1].
    cbv zeta.
    match goal with
    | |- context [compareAll net env (hub_llm hub) ?build _ _ _] =>
        pose proof (compareAll_reachable net env build (amb_compare amb) compareProviders
                      (hub_llm hub) 0 Hcompare (proj1 Hs)) as Hm
    end.
    destruct (compareAll net env (hub_llm hub) _ (amb_compare amb) compareProviders 0)
      as [results m'].
    cbn [snd] in Hm. destruct Hs1 as (_ & Hu & Hr & Ha).
    destruct (validResults results); unfold steady; cbn.
    + repeat split; assumption.
    + split; [exact Hm|]. split; [apply UserStore.served_update; exact Hu|].
      split; assumption.
  - unfold CommandProcessor.processAnalyzeCommand.
    destruct (UserStore.getUserSubscription (hub_users hub) userId teamId)
      as [subscription users].
    apply limited_steady; assumption.
  - unfold CommandProcessor.processGenerateCommand.
    destruct (UserStore.getUserSubscription (hub_users hub) userId teamId)
      as [subscription users].
    apply limited_steady; assumption.
  - unfold CommandProcessor.processSummarizeCommand.
    destruct (UserStore.getUserSubscription (hub_users hub) userId teamId)
      as [subscription users].
    apply limited_steady; assumption.
  - unfold CommandProcessor.processTranslateCommand.
    destruct (UserStore.getUserSubscription (hub_users hub) userId teamId)
      as [subscription users].
    cbv zeta. destruct (negb (Str.truthy _)); [exact Hs1|].
    apply limited_steady; assumption.
  - unfold CommandProcessor.processCodeCommand.
    destruct (UserStore.getUserSubscription (hub_users hub) userId teamId)
      as [subscription users].
    apply limited_steady; assumption.
  - exact Hs.
Qed.

(** X25. Whatever commands are processed, with whatever outcome, the
    services stay within what the other results assume: the provider
    manager is one reached from start-up by dispatches, the user store is
    one reached by lookups and usage updates, no conversation holds more
    than 20 messages and the analytics hold at most 1000 events.  The
    services created at start-up are in that state. *)
Theorem commands_keep_the_service_steady numberToString net env now hub command
    userId teamId channelId amb :
  steady env now hub ->
  forwardAmbient amb ->
  steady env now
    (snd (CommandProcessor.processCommand numberToString net env hub command
            userId teamId channelId amb)) /\
  steady env now (newHub env now).
Proof.
  intros Hs Hamb. split; [|apply newHub_steady].
  pose proof (withUsers_steady env now hub userId teamId Hs) as Hs1.
  unfold CommandProcessor.processCommand.
  destruct (UserStore.getUserSubscription (hub_users hub) userId teamId)
    as [subscription users].
  cbn [snd] in Hs1.
  destruct subscription as [s|]; [|exact Hs1].
  destruct (UserStore.planStatus s); try exact Hs1.
  destruct (UserStore.usageOf users s) as [usage|]; [|exact Hs1].
  destruct (JS.leb _ _); [exact Hs1|].
  pose proof (handler_steady numberToString net env now _ command userId teamId channelId
                amb Hs1 Hamb) as Hh.
  destruct (CommandProcessor.runHandler numberToString net env
              (CommandProcessor.withUsers hub users) command userId teamId channelId amb)
    as [[reply|e] hub2]; exact Hh.
Qed.

Lemma sampleAmbient_forward : forwardAmbient sampleAmbient.
Proof. split; [|intros index]; unfold forwardClock; cbn; lia. Qed.

Lemma commands_keep_the_service_steady_witness :
  steady cloudEnv 0
    (snd (CommandProcessor.processCommand (JS.toFixed 0)
            (answeringNet (Some (reported 10 20 30))) cloudEnv (newHub cloudEnv 0)
            (plainCommand ask "What is the capital of France?")
            "U1" "T1" "C1" sampleAmbient)).
Proof.
  apply (commands_keep_the_service_steady (JS.toFixed 0)
           (answeringNet (Some (reported 10 20 30))) cloudEnv 0 (newHub cloudEnv 0)
           (plainCommand ask "What is the capital of France?")
           "U1" "T1" "C1" sampleAmbient).
  - apply newHub_steady.
  - exact sampleAmbient_forward.
Defined.

(** *** Conversation context: sequences of appends *)

Lemma expire_capped redis userId channelId :
  capped redis -> capped (expire redis userId channelId).
Proof.
  intros Hcap key ctx H. cbn [expire documents] in H.
  apply lookup_delete_Some in H as [_ H]. exact (Hcap key ctx H).
Qed.

Lemma occurAll_capped userId channelId (events : list StoreEvent) : forall redis,
  capped redis -> capped (occurAll redis userId channelId events).
Proof.
  induction events as [|event events IH]; intros redis Hcap; [exact Hcap|].
  cbn [occurAll fold_left]. apply IH. destruct event as [link message now|].
  - apply addMessage_capped. exact Hcap.
  - apply expire_capped. exact Hcap.
Qed.

Lemma occurAll_snoc redis userId channelId events event :
  occurAll redis userId channelId (events ++ [event]) =
    occur userId channelId (occurAll redis userId channelId events) event.
Proof. unfold occurAll. rewrite fold_left_app. reflexivity. Qed.

Lemma appendedIn_snoc events link message now :
  appendedIn (events ++ [Appended link message now]) = appendedIn events ++ [message].
Proof. unfold appendedIn. rewrite flat_map_app. reflexivity. Qed.

Lemma appendedIn_length events :
  Forall reachesDatabase events -> length (appendedIn events) = length events.
Proof.
  induction 1 as [|event events Hev _ IH]; [reflexivity|].
  destruct event as [link message now|]; [|destruct Hev].
  cbn. rewrite <- IH. reflexivity.
Qed.

Lemma mostRecent20_short (history : list ConversationMessage) :
  (length history <= 20)%nat -> mostRecent20 history = history.
Proof.
  intros H. unfold mostRecent20.
  replace (length history - 20)%nat with 0%nat by lia. reflexivity.
Qed.

(** After appends that all reach the database the stored conversation is
    the most recent 20 of what was stored before and what was appended. *)
Lemma occurAll_history userId channelId (events : list StoreEvent) : forall redis,
  Forall reachesDatabase events ->
  events <> [] ->
  exists ctx,
    getContext (occurAll redis userId channelId events) workingLink userId channelId =
      Some ctx /\
    messages ctx = mostRecent20 (historyOf redis userId channelId ++ appendedIn events).
Proof.
  induction events as [|event events IH] using rev_ind; intros redis Hall Hne;
    [congruence|].
  apply Forall_app in Hall as [Hall Hev]. apply Forall_cons_1 in Hev as [Hev _].
  destruct event as [[getOk setOk] message now|]; [|destruct Hev].
  cbn in Hev. destruct Hev as [-> ->].
  rewrite occurAll_snoc, appendedIn_snoc. cbn [occur].
  destruct (message_appended (occurAll redis userId channelId events) userId channelId
              message now) as (ctx & Hctx & Hmsgs).
  exists ctx. split; [exact Hctx|]. rewrite Hmsgs.
  destruct events as [|e events'] eqn:E.
  - reflexivity.
  - rewrite <- E in *.
    destruct (IH redis Hall) as (before & Hbefore & Hb); [rewrite E; discriminate|].
    unfold historyOf at 1. rewrite Hbefore, Hb.
    rewrite mostRecent20_push, <- app_assoc. reflexivity.
Qed.

(** C9, as the code has it.  After any append, and after any sequence of
    appends and expiries over any links, a stored conversation holds at
    most 20 messages.  When every append of a sequence reaches the database
    with its read and with its write, and the conversation does not expire
    in between, the conversation then holds exactly the most recent 20 of
    the messages it held before and of the messages appended, in their
    order: for a new conversation and N appends, the most recent
    min(N, 20) of them, the oldest having been dropped. *)
Theorem C9_context_keeps_last_20 :
  (forall redis link userId channelId message now ctx,
     setexWorks link = true ->
     documents (addMessage redis link userId channelId message now)
       !! conversationKey userId channelId = Some ctx ->
     (length (messages ctx) <= 20)%nat) /\
  (forall redis link userId channelId message now,
     capped redis -> capped (addMessage redis link userId channelId message now)) /\
  (forall redis userId channelId events,
     capped redis -> capped (occurAll redis userId channelId events)) /\
  (forall redis userId channelId events,
     Forall reachesDatabase events ->
     events <> [] ->
     let history := historyOf redis userId channelId in
     let appended := appendedIn events in
     exists ctx,
       getContext (occurAll redis userId channelId events) workingLink userId channelId =
         Some ctx /\
       length appended = length events /\
       messages ctx = skipn (length (history ++ appended) - 20) (history ++ appended) /\
       length (messages ctx) = Nat.min (length history + length events) 20 /\
       (exists dropped, history ++ appended = dropped ++ messages ctx) /\
       (history = [] ->
        messages ctx = skipn (length events - 20) appended /\
        length (messages ctx) = Nat.min (length events) 20 /\
        exists dropped, appended = dropped ++ messages ctx)).
Proof.
  split; [|split; [|split]].
  - intros redis link userId channelId message now ctx Hset Hget.
    eapply addMessage_bound; eassumption.
  - intros redis link userId channelId message now. apply addMessage_capped.
  - intros redis userId channelId events. apply occurAll_capped.
  - intros redis userId channelId events Hall Hne history appended.
    destruct (occurAll_history userId channelId events redis Hall Hne)
      as (ctx & Hctx & Hmsgs).
    pose proof (appendedIn_length events Hall) as Hlen.
    fold history appended in Hmsgs. fold appended in Hlen.
    exists ctx. split; [exact Hctx|]. split; [exact Hlen|].
    split; [exact Hmsgs|]. split; [|split].
    + rewrite Hmsgs, mostRecent20_length, length_app, Hlen. reflexivity.
    + exists (firstn (length (history ++ appended) - 20) (history ++ appended)).
      rewrite Hmsgs. symmetry. apply firstn_skipn.
    + intros Hnew. rewrite Hnew in Hmsgs. cbn [app] in Hmsgs.
      unfold mostRecent20 in Hmsgs. rewrite Hlen in Hmsgs.
      split; [exact Hmsgs|]. split.
      * rewrite Hmsgs, length_drop, Hlen. lia.
      * exists (firstn (length events - 20) appended).
        rewrite Hmsgs. symmetry. apply firstn_skipn.
Qed.

(** Twenty-five messages appended to a new conversation over a working
    database leave the messages 6 to 25. *)
Lemma C9_context_keeps_last_20_witness :
  let events :=
    map (fun n => Appended workingLink (numbered n) (Z.of_nat n)) (seq 1 25) in
  exists ctx,
    getContext (occurAll emptyRedis "U1" "C1" events) workingLink "U1" "C1" = Some ctx /\
    messages ctx = map numbered (seq 6 20) /\
    length (messages ctx) = 20%nat.
Proof.
  intros events.
  destruct (proj2 (proj2 (proj2 C9_context_keeps_last_20)) emptyRedis "U1" "C1" events)
    as (ctx & Hctx & _ & _ & _ & _ & Hnew).
  - subst events. apply Forall_map. apply Forall_forall. intros n _. split; reflexivity.
  - discriminate.
  - destruct (Hnew eq_refl) as (Hmsgs & Hlen & _).
    exists ctx. split; [exact Hctx|]. split; [exact Hmsgs|exact Hlen].
Defined.

(** C9 as stated fails: of six messages appended one after the other, the
    sixth over a link whose read fails and whose write goes through, the
    conversation retains the sixth alone, not the six. *)
Lemma C9_context_counterexample :
  appendedIn sixAppends = map numbered (seq 1 6) /\
  option_map messages
    (getContext (occurAll emptyRedis "U1" "C1" sixAppends) workingLink "U1" "C1") =
    Some [numbered 6] /\
  [numbered 6] <>
    skipn (length sixAppends - 20) (appendedIn sixAppends) /\
  Nat.min (length sixAppends) 20 = 6%nat.
Proof.
  split; [reflexivity|]. split; [vm_compute; reflexivity|]. split; [|reflexivity].
  intros H. apply (f_equal (@length ConversationMessage)) in H.
  vm_compute in H. discriminate H.
Qed.

(** *** Comparison mode: the command *)








(** Over the same services a prompt of white space alone, here a
    no-break space and a line separator among spaces, is turned away before
    anything is dispatched. *)
Example comparison_blank_prompt :
  let blank := " " +:+ Str.bytes [194; 160; 226; 128; 168]%nat +:+ " " in
  fst (CommandProcessor.processCompareCommand (JS.toFixed 0) anthropicDownNet cloudEnv
         (newHub cloudEnv 0) (compareCommand blank) "U1" "T1" "C1" sampleAmbient) =
    Ok {| message := "Please provide a prompt to compare across models. Example: `/ai-compare Explain quantum computing`";
          success := false |}.
Proof. vm_compute. reflexivity. Qed.

(** With no backend configured the command reports the failure of the
    batch. *)
Example comparison_without_backends :
  fst (CommandProcessor.processCompareCommand (JS.toFixed 0) anthropicDownNet emptyEnv
         (newHub emptyEnv 0) (compareCommand "Hi") "U1" "T1" "C1" sampleAmbient) =
    Ok {| message := "No providers available for comparison. Please try again later.";
          success := false |}.
Proof. vm_compute. reflexivity. Qed.

(** A reply of 301 characters is cut after the 300th and marked; a
    character outside the basic plane counts as two code units. *)
Example content_is_cut_after_300 :
  let long := String.concat "" (replicate 301 "a") in
  Str.length long = 301%nat /\
  Str.substring 0 300 long = String.concat "" (replicate 300 "a") /\
  Str.length "😀a•" = 4%nat /\
  Str.substring 0 3 "😀a•" = "😀a".
Proof. repeat split; vm_compute; reflexivity. Qed.

(** *** Router: the clock premise of the score bounds *)

(** The premise on the clock is needed for the bounds of X4.  The latency
    recorded for a request is the difference of two clock readings, which
    the code does not clamp: after one request during which the clock was
    set back, the pair that served it is an alternative with a score
    below 0. *)
Example score_after_clock_step_back :
  ~ forwardClock steppedBackClock /\
  exists d a,
    smartRouting steppedBackManager (probeRequest false false) = Ok d /\
    In a (alternatives d) /\
    sc_model a = "llama-3.1-70b-versatile" /\
    JS.leb JS.zero (score a) = false.
Proof.
  split; [unfold forwardClock; cbn; lia|].
  destruct (smartRouting steppedBackManager (probeRequest false false))
    as [d|e] eqn:E; [|vm_compute in E; discriminate E].
  vm_compute in E. injection E as <-.
  eexists _, _. split; [reflexivity|]. split; [right; left; reflexivity|].
  split; vm_compute; reflexivity.
Qed.
